(** * XFrameBridge: request/response and event messaging between two windows

    A shallow embedding of [src/bridge.ts] (class [XFrameBridge]) and of the
    declarations of [src/types.ts], followed by the properties of the
    message-routing engine.

    Modelling decisions.
    - The three registries ([handlers], [eventHandlers], [pendingRequests])
      are created by the root instance and shared by reference with every
      instance derived through [channel]; they live in one [World], and an
      instance ([Bridge]) is a view on it that carries only its own
      configuration.
    - [handlers] and [eventHandlers] are only looked up, overwritten and
      deleted by key: finite maps.  [pendingRequests] and the listener [Set]s
      are iterated with effects, so they keep JavaScript's insertion order.
    - Functions (request handlers, event listeners) are references; what a
      referenced function does when called is a parameter of the development:
      for a handler what its promise settles to, for a listener whether it
      throws.  A callback that calls a method of the bridge while it runs is
      not part of this embedding; the statements about the delivery of events
      say so.
    - Everything the code does to its environment ([postMessage], settling a
      promise, calling a handler, [console.log], timers) is recorded, in
      order, in a list of [Effect]s.
    - A timer that elapses and a [message] event that is dispatched are
      events of the environment; real time is not modelled.
    - [handleRequest] awaits the handler.  The registries it reads are read
      before the await and the reply depends only on the message and on what
      the handler settles to, so the call and the reply are one step here:
      the step says what is posted once the handler has settled, not when.  A
      handler whose promise never settles is the outcome [Unsettled].
    - The [catch] block of [handleRequest] reads [error.message] of an
      [Error] and converts any other thrown value with [String(error)].  The
      conversion runs the value's own [toString] and can itself throw (an
      object without prototype, a symbol), so a thrown value that is not an
      [Error] is given by what [String] makes of it.
    - Payloads are data that the structured clone accepts, so [postMessage]
      does not throw. *)

From Stdlib Require Import ZArith Ascii String List Bool Lia.
From stdpp Require Import base option list gmap strings pretty fin_maps.

Local Open Scope string_scope.
Local Open Scope list_scope.
#[local] Set Warnings "-register-all".

(** ** JavaScript values *)

(** Numbers: the integers, and [NaN] (falsy, yet [typeof NaN] is number). *)
Inductive JsNum : Type :=
  | NaN
  | Num (z : Z).

(** Payloads are structured-cloneable data. *)
Inductive JsValue : Type :=
  | VUndefined
  | VNull
  | VBool (b : bool)
  | VNum (n : JsNum)
  | VStr (s : string)
  | VObj (props : list (string * JsValue)).

Definition truthy_num (n : JsNum) : bool :=
  match n with
  | NaN => false
  | Num z => negb (z =? 0)%Z
  end.

Definition truthy_str (s : string) : bool :=
  match s with
  | EmptyString => false
  | String _ _ => true
  end.

Definition truthy (v : JsValue) : bool :=
  match v with
  | VUndefined | VNull => false
  | VBool b => b
  | VNum n => truthy_num n
  | VStr s => truthy_str s
  | VObj _ => true
  end.

Definition typeof (v : JsValue) : string :=
  match v with
  | VUndefined => "undefined"
  | VNull => "object"
  | VBool _ => "boolean"
  | VNum _ => "number"
  | VStr _ => "string"
  | VObj _ => "object"
  end.

(** An optional string inside a template literal. *)
Definition template (s : option string) : string :=
  match s with
  | Some s => s
  | None => "undefined"
  end.

(** [a || b] on optional values. *)
Definition or_else {A : Type} (is_truthy : A -> bool) (a : option A) (b : A) : A :=
  match a with
  | Some x => if is_truthy x then x else b
  | None => b
  end.

(** ** types.ts *)

Module MT.
Definition REQUEST : string := "REQUEST".
Definition RESPONSE : string := "RESPONSE".
Definition EVENT : string := "EVENT".
Definition ERROR : string := "ERROR".
End MT.

(** [interface Message].  [type] is a [MessageType] for the compiler and any
    string at run time. *)
Record Message : Type := mkMessage {
  m_protocol : string;
  m_id : string;
  m_type : string;
  m_method : option string;
  m_channel : option string;
  m_data : JsValue;
  m_error : option string;
  m_timestamp : JsNum
}.

(** What a [message] event carries ([event.data], typed [any]).  The four
    properties that [isValidMessage] inspects are dynamically typed; the
    properties that the code reads without a check follow [interface Message].
    [Foreign v] is any value with none of these properties. *)
Record RawMessage : Type := mkRaw {
  r_protocol : JsValue;
  r_id : JsValue;
  r_type : JsValue;
  r_method : option string;
  r_channel : option string;
  r_data : JsValue;
  r_error : option string;
  r_timestamp : JsValue
}.

Inductive MessageData : Type :=
  | Foreign (v : JsValue)
  | Envelope (o : RawMessage).

Record BridgeOptions : Type := mkOptions {
  o_targetOrigin : option string;
  o_timeout : option JsNum;
  o_debug : option bool
}.

(** What a request handler throws or rejects with: an [Error] with its
    [message] (a string, as [Error] declares it), or any other value, given
    by the result of [String(error)]: [Some text], or [None] when the
    conversion itself throws. *)
Inductive Thrown : Type :=
  | ErrorObject (message : string)
  | ThrownValue (printed : option string).

(** What calling a request handler and awaiting its result gives. *)
Inductive HandlerOutcome : Type :=
  | Returned (result : JsValue)
  | Raised (error : Thrown)
  | Unsettled.

(** ** bridge.ts *)

Definition PROTOCOL_ID : string := "__XFRAME_BRIDGE__".

Record Bridge : Type := mkBridge {
  target : nat;
  targetOrigin : string;
  timeout : JsNum;
  debug : bool;
  channelName : option string;
  isRootBridge : bool
}.

Record PendingRequest : Type := mkPending {
  p_promise : nat;
  p_timer : nat;
  p_channel : option string
}.

(** The closure passed to [setTimeout] by [request]. *)
Record Timer : Type := mkTimer {
  t_id : string;
  t_method : string;
  t_promise : nat;
  t_delay : JsNum
}.

(** What the code does to its environment.  [Uncaught]: an exception leaves
    the dispatcher, so the promise that [handleMessage] returned rejects. *)
Inductive Effect : Type :=
  | PostMessage (target : nat) (message : Message) (targetOrigin : string)
  | Resolve (id : string) (promise : nat) (value : JsValue)
  | Reject (id : string) (promise : nat) (error : string)
  | CallHandler (handler : nat) (data : JsValue)
  | CallListener (listener : nat) (data : JsValue)
  | ConsoleLog (line : string)
  | Uncaught.

(** *** Insertion-ordered [Map] with string keys *)

Module JsMap.
Section Ops.
Context {V : Type}.

Fixpoint get (k : string) (m : list (string * V)) : option V :=
  match m with
  | [] => None
  | (k', v) :: m' => if String.eqb k k' then Some v else get k m'
  end.

Fixpoint set (k : string) (v : V) (m : list (string * V)) : list (string * V) :=
  match m with
  | [] => [(k, v)]
  | (k', v') :: m' =>
      if String.eqb k k' then (k', v) :: m' else (k', v') :: set k v m'
  end.

Fixpoint delete (k : string) (m : list (string * V)) : list (string * V) :=
  match m with
  | [] => []
  | (k', v') :: m' =>
      if String.eqb k k' then delete k m' else (k', v') :: delete k m'
  end.

Definition keys (m : list (string * V)) : list string := map fst m.
End Ops.
End JsMap.

(** *** The state shared by a root instance and its channels *)

Record World : Type := mkWorld {
  rootBridge : Bridge;
  handlers : gmap string nat;
  eventHandlers : gmap string (list nat);
  pendingRequests : list (string * PendingRequest);
  messageHandler : bool;
  timers : gmap nat Timer;
  next_timer : nat;
  next_promise : nat
}.


Definition with_handlers (f : gmap string nat -> gmap string nat) (w : World) : World :=
  mkWorld (rootBridge w) (f (handlers w)) (eventHandlers w) (pendingRequests w)
          (messageHandler w) (timers w) (next_timer w) (next_promise w).

Definition with_eventHandlers
    (f : gmap string (list nat) -> gmap string (list nat)) (w : World) : World :=
  mkWorld (rootBridge w) (handlers w) (f (eventHandlers w)) (pendingRequests w)
          (messageHandler w) (timers w) (next_timer w) (next_promise w).

Definition with_pendingRequests
    (f : list (string * PendingRequest) -> list (string * PendingRequest))
    (w : World) : World :=
  mkWorld (rootBridge w) (handlers w) (eventHandlers w) (f (pendingRequests w))
          (messageHandler w) (timers w) (next_timer w) (next_promise w).

Definition with_messageHandler (b : bool) (w : World) : World :=
  mkWorld (rootBridge w) (handlers w) (eventHandlers w) (pendingRequests w)
          b (timers w) (next_timer w) (next_promise w).

Definition with_timers (f : gmap nat Timer -> gmap nat Timer) (w : World) : World :=
  mkWorld (rootBridge w) (handlers w) (eventHandlers w) (pendingRequests w)
          (messageHandler w) (f (timers w)) (next_timer w) (next_promise w).

(** *** Computations: state passing with a log of effects *)

Definition M (A : Type) : Type := World -> A * World * list Effect.

#[export] Instance M_ret : MRet M := fun A a w => (a, w, []).

#[export] Instance M_bind : MBind M := fun A B f m w =>
  let '(a, w1, e1) := m w in
  let '(b, w2, e2) := f a w1 in
  (b, w2, e1 ++ e2).

Definition get_world : M World := fun w => (w, w, []).
Definition modify (f : World -> World) : M unit := fun w => (tt, f w, []).
Definition tell (e : Effect) : M unit := fun w => (tt, w, [e]).
Definition skip : M unit := mret tt.

Fixpoint for_each {A : Type} (l : list A) (body : A -> M unit) : M unit :=
  match l with
  | [] => skip
  | x :: l' => body x;; for_each l' body
  end.

Definition state_of {A : Type} (r : A * World * list Effect) : World := snd (fst r).
Definition effects_of {A : Type} (r : A * World * list Effect) : list Effect := snd r.
Definition value_of {A : Type} (r : A * World * list Effect) : A := fst (fst r).

(** *** A [Set] of function references, in insertion order *)

Module JsSet.
Definition has (x : nat) (s : list nat) : bool := existsb (Nat.eqb x) s.
Definition add (x : nat) (s : list nat) : list nat :=
  if has x s then s else s ++ [x].
Definition delete (x : nat) (s : list nat) : list nat :=
  List.filter (fun y => negb (Nat.eqb x y)) s.
Definition size (s : list nat) : nat := length s.
End JsSet.

(** *** Environment: timers and promises *)

Definition setTimeout (callback : Timer) : M nat := fun w =>
  (next_timer w,
   mkWorld (rootBridge w) (handlers w) (eventHandlers w) (pendingRequests w)
           (messageHandler w) (<[next_timer w := callback]> (timers w))
           (S (next_timer w)) (next_promise w),
   []).

Definition clearTimeout (timer : nat) : M unit :=
  modify (with_timers (delete timer)).

(** [new Promise((resolve, reject) => ...)]: the pair is named by a fresh
    number. *)
Definition newPromise : M nat := fun w =>
  (next_promise w,
   mkWorld (rootBridge w) (handlers w) (eventHandlers w) (pendingRequests w)
           (messageHandler w) (timers w) (next_timer w) (S (next_promise w)),
   []).

(** *** Private methods that do not call handlers *)

Definition opt_truthy (s : option string) : bool :=
  match s with
  | Some s => truthy_str s
  | None => false
  end.

Definition log (this : Bridge) (message : string) : M unit :=
  if debug this then
    let prefix :=
      if opt_truthy (channelName this)
      then "[XFrameBridge:" +:+ template (channelName this) +:+ "]"
      else "[XFrameBridge]" in
    tell (ConsoleLog (prefix +:+ " " +:+ message))
  else skip.

Definition postMessage (this : Bridge) (message : Message) : M unit :=
  tell (PostMessage (target this) message (targetOrigin this)).

Definition generateId (now : Z) (random : string) : string :=
  pretty now +:+ "-" +:+ random.

Definition getHandlerKey (this : Bridge) (method : string) (channel : option string)
    : string :=
  let ch := match channel with Some c => Some c | None => channelName this end in
  if opt_truthy ch then template ch +:+ ":" +:+ method else method.

(** [getHandlerKey(message.method!, message.channel)]: at run time the method
    of an inbound message may be absent.  The template literal then prints
    it as undefined; without a channel the key is the undefined value itself,
    which is a key of no registry. *)
Definition inboundKey (this : Bridge) (method : option string) (channel : option string)
    : option string :=
  match method with
  | Some m => Some (getHandlerKey this m channel)
  | None =>
      let ch := match channel with Some c => Some c | None => channelName this end in
      if opt_truthy ch then Some (template ch +:+ ":" +:+ template None) else None
  end.

Definition strict_eq_str (v : JsValue) (s : string) : bool :=
  match v with
  | VStr s' => String.eqb s' s
  | _ => false
  end.

Definition isValidMessage (message : MessageData) : bool :=
  match message with
  | Foreign v =>
      truthy v && String.eqb (typeof v) "object" && strict_eq_str VUndefined PROTOCOL_ID
  | Envelope o =>
      strict_eq_str (r_protocol o) PROTOCOL_ID
      && String.eqb (typeof (r_id o)) "string"
      && String.eqb (typeof (r_type o)) "string"
      && String.eqb (typeof (r_timestamp o)) "number"
  end.

(** [event.data as Message]: the typed view of data that passed
    [isValidMessage]. *)
Definition asMessage (message : MessageData) : option Message :=
  match message with
  | Foreign _ => None
  | Envelope o =>
      match r_protocol o, r_id o, r_type o, r_timestamp o with
      | VStr p, VStr i, VStr t, VNum ts =>
          Some (mkMessage p i t (r_method o) (r_channel o) (r_data o) (r_error o) ts)
      | _, _, _, _ => None
      end
  end.

(** What the peer window receives: the structured clone of a message. *)
Definition toWire (message : Message) : MessageData :=
  Envelope (mkRaw (VStr (m_protocol message)) (VStr (m_id message))
                  (VStr (m_type message)) (m_method message) (m_channel message)
                  (m_data message) (m_error message) (VNum (m_timestamp message))).

Definition sendResponse (this : Bridge) (id : string) (data : JsValue)
    (channel : option string) (now : Z) : M unit :=
  let message := mkMessage PROTOCOL_ID id MT.RESPONSE None channel data None (Num now) in
  postMessage this message;;
  log this "Response sent".

Definition sendError (this : Bridge) (id : string) (error : string)
    (channel : option string) (now : Z) : M unit :=
  let message :=
    mkMessage PROTOCOL_ID id MT.ERROR None channel VUndefined (Some error) (Num now) in
  postMessage this message;;
  log this "Error sent".

(** *** Construction *)

Definition init_fields (target : nat) (options : BridgeOptions)
    (channelName : option string) (hasRoot : bool) : Bridge :=
  mkBridge target
           (or_else truthy_str (o_targetOrigin options) "*")
           (or_else truthy_num (o_timeout options) (Num 30000))
           (or_else (fun b : bool => b) (o_debug options) false)
           channelName
           (negb hasRoot).

(** [new XFrameBridge(target, options, channelName)]: a root instance creates
    the registries and subscribes to the window's [message] events. *)
Definition constructor_root (target : nat) (options : BridgeOptions)
    (channelName : option string) : Bridge * World * list Effect :=
  let this := init_fields target options channelName false in
  (log this "Bridge initialized";; mret this)
    (mkWorld this ∅ ∅ [] true ∅ 0 0).

(** [new XFrameBridge(target, options, channelName, rootBridge)]: the new
    instance uses the registries of [rootBridge], that is, the same world. *)
Definition constructor_derived (target : nat) (options : BridgeOptions)
    (channelName : option string) : M Bridge :=
  let this := init_fields target options channelName true in
  log this "Bridge initialized";;
  mret this.

Definition channel (this : Bridge) (name : string) : M Bridge :=
  constructor_derived (target this)
    (mkOptions (Some (targetOrigin this)) (Some (timeout this)) (Some (debug this)))
    (Some name).

(** *** Public methods *)

Definition request (this : Bridge) (method : string) (data : JsValue)
    (now_id : Z) (random : string) (now : Z) : M nat :=
  let id := generateId now_id random in
  let message :=
    mkMessage PROTOCOL_ID id MT.REQUEST (Some method) (channelName this) data None
              (Num now) in
  promise ← newPromise;
  timer ← setTimeout (mkTimer id method promise (timeout this));
  modify (with_pendingRequests
            (JsMap.set id (mkPending promise timer (channelName this))));;
  postMessage this message;;
  log this "Request sent";;
  mret promise.

Definition on (this : Bridge) (method : string) (handler : nat) : M unit :=
  let key := getHandlerKey this method None in
  modify (with_handlers (<[key := handler]>));;
  log this "Handler registered".

Definition emit (this : Bridge) (event : string) (data : JsValue)
    (now_id : Z) (random : string) (now : Z) : M unit :=
  let message :=
    mkMessage PROTOCOL_ID (generateId now_id random) MT.EVENT (Some event)
              (channelName this) data None (Num now) in
  postMessage this message;;
  log this "Event emitted".

Definition listen (this : Bridge) (event : string) (handler : nat) : M unit :=
  let key := getHandlerKey this event None in
  w ← get_world;
  (if decide (is_Some (eventHandlers w !! key)) then skip
   else modify (with_eventHandlers (<[key := []]>)));;
  w ← get_world;
  match eventHandlers w !! key with
  | Some listeners =>
      modify (with_eventHandlers (<[key := JsSet.add handler listeners]>))
  | None => skip
  end;;
  log this "Event listener added".

Definition off (this : Bridge) (event : string) (handler : option nat) : M unit :=
  let key := getHandlerKey this event None in
  match handler with
  | None =>
      modify (with_eventHandlers (delete key));;
      log this "All event listeners removed"
  | Some handler =>
      w ← get_world;
      match eventHandlers w !! key with
      | Some listeners =>
          let listeners' := JsSet.delete handler listeners in
          modify (with_eventHandlers (<[key := listeners']>));;
          if Nat.eqb (JsSet.size listeners') 0
          then modify (with_eventHandlers (delete key))
          else skip
      | None => skip
      end;;
      log this "Event listener removed"
  end.

Definition reject (id : string) (request : PendingRequest) (error : string) : M unit :=
  tell (Reject id (p_promise request) error).

Definition resolve (id : string) (request : PendingRequest) (value : JsValue) : M unit :=
  tell (Resolve id (p_promise request) value).

Definition opt_string_eqb (a b : option string) : bool :=
  match a, b with
  | Some x, Some y => String.eqb x y
  | None, None => true
  | _, _ => false
  end.

Definition keys_of {V : Type} (m : gmap string V) : list string :=
  (map_to_list m).*1.

Definition destroy (this : Bridge) : M unit :=
  if isRootBridge this then
    w ← get_world;
    (if messageHandler w then modify (with_messageHandler false) else skip);;
    w ← get_world;
    for_each (pendingRequests w) (fun '(id, request) =>
      clearTimeout (p_timer request);;
      reject id request "Bridge destroyed");;
    modify (with_pendingRequests (fun _ => []));;
    modify (with_handlers (fun _ => ∅));;
    modify (with_eventHandlers (fun _ => ∅));;
    log this "Bridge destroyed (root)"
  else
    let channelPrefix := template (channelName this) +:+ ":" in
    w ← get_world;
    for_each (keys_of (handlers w)) (fun key =>
      if String.prefix channelPrefix key
      then modify (with_handlers (delete key)) else skip);;
    w ← get_world;
    for_each (keys_of (eventHandlers w)) (fun key =>
      if String.prefix channelPrefix key
      then modify (with_eventHandlers (delete key)) else skip);;
    w ← get_world;
    for_each (pendingRequests w) (fun '(id, request) =>
      if opt_string_eqb (p_channel request) (channelName this) then
        clearTimeout (p_timer request);;
        reject id request "Channel destroyed";;
        modify (with_pendingRequests (JsMap.delete id))
      else skip);;
    log this "Bridge destroyed (channel)".

(** The callback that [request] passes to [setTimeout], run by the
    environment when timer [t] elapses. *)
Definition timer_fires (t : nat) : M unit :=
  w ← get_world;
  match timers w !! t with
  | None => skip
  | Some callback =>
      modify (with_timers (delete t));;
      modify (with_pendingRequests (JsMap.delete (t_id callback)));;
      tell (Reject (t_id callback) (t_promise callback)
                   ("Request timeout: " +:+ t_method callback))
  end.

(** *** The dispatcher *)

Section Dispatcher.

(** What the function behind a handler reference does with its argument. *)
Variable handler_body : nat -> JsValue -> HandlerOutcome.
(** Whether a listener throws on its argument. *)
Variable listener_throws : nat -> JsValue -> bool.

(** [error instanceof Error ? error.message : String(error)]; [None] when
    evaluating it throws. *)
Definition error_text (error : Thrown) : option string :=
  match error with
  | ErrorObject message => Some message
  | ThrownValue printed => printed
  end.

(** The handler is called and awaited, and the reply is sent when it
    settles; a handler that never settles leaves the request unanswered.
    An exception of the [catch] block is caught by nothing: it leaves
    [handleRequest] and [handleMessage] (their promises reject) before a
    reply is posted. *)
Definition handleRequest (this : Bridge) (message : Message) (now : Z) : M unit :=
  let key := inboundKey this (m_method message) (m_channel message) in
  w ← get_world;
  match key ≫= (fun k => handlers w !! k) with
  | None =>
      sendError this (m_id message)
                ("No handler for method: " +:+ template (m_method message))
                (m_channel message) now
  | Some handler =>
      tell (CallHandler handler (m_data message));;
      match handler_body handler (m_data message) with
      | Returned result =>
          sendResponse this (m_id message) result (m_channel message) now
      | Raised error =>
          match error_text error with
          | Some text => sendError this (m_id message) text (m_channel message) now
          | None => tell Uncaught
          end
      | Unsettled => skip
      end
  end.

Definition handleResponse (this : Bridge) (message : Message) : M unit :=
  w ← get_world;
  match JsMap.get (m_id message) (pendingRequests w) with
  | None => skip
  | Some pending =>
      if negb (opt_string_eqb (p_channel pending) (m_channel message)) then
        log this "Response channel mismatch"
      else
        clearTimeout (p_timer pending);;
        modify (with_pendingRequests (JsMap.delete (m_id message)));;
        if String.eqb (m_type message) MT.ERROR
        then reject (m_id message) pending
                    (or_else truthy_str (m_error message) "Unknown error")
        else resolve (m_id message) pending (m_data message)
  end.

(** The listeners registered for the event are called in insertion order,
    each in a [try] of its own.  The code iterates the registered [Set]
    itself, so a listener that calls [off], [listen] or [destroy] while the
    event is delivered would change what the loop visits; the listeners of
    this embedding only return or throw. *)
Definition handleEvent (this : Bridge) (message : Message) : M unit :=
  let key := inboundKey this (m_method message) (m_channel message) in
  w ← get_world;
  match key ≫= (fun k => eventHandlers w !! k) with
  | None => skip
  | Some listeners =>
      if Nat.eqb (JsSet.size listeners) 0 then skip
      else
        for_each listeners (fun handler =>
          tell (CallListener handler (m_data message));;
          if listener_throws handler (m_data message)
          then log this "Event handler error" else skip)
  end.

Definition handleMessage (this : Bridge) (origin : string) (data : MessageData)
    (now : Z) : M unit :=
  if negb (String.eqb (targetOrigin this) "*")
     && negb (String.eqb origin (targetOrigin this))
  then skip
  else if negb (isValidMessage data) then skip
  else
    match asMessage data with
    | None => skip
    | Some message =>
        log this "Message received";;
        if String.eqb (m_type message) MT.REQUEST then
          handleRequest this message now
        else if String.eqb (m_type message) MT.RESPONSE
                || String.eqb (m_type message) MT.ERROR then
          handleResponse this message
        else if String.eqb (m_type message) MT.EVENT then
          handleEvent this message
        else skip
    end.

(** The window dispatches a [message] event to the listener that the root
    instance registered, while it is registered. *)
Definition window_message (origin : string) (data : MessageData) (now : Z) : M unit :=
  w ← get_world;
  if messageHandler w then handleMessage (rootBridge w) origin data now else skip.

End Dispatcher.

(** ** Auxiliary definitions used by the statements *)

Definition recognized_kind (kind : string) : bool :=
  String.eqb kind MT.REQUEST || String.eqb kind MT.RESPONSE
  || String.eqb kind MT.EVENT || String.eqb kind MT.ERROR.

(** Validity in the words of the specification: the marker is the protocol
    constant, the identifier is a non-empty string, the kind is recognized,
    the timestamp is a number. *)
Definition spec_valid (data : MessageData) : bool :=
  match data with
  | Foreign _ => false
  | Envelope o =>
      strict_eq_str (r_protocol o) PROTOCOL_ID
      && match r_id o with VStr i => negb (String.eqb i "") | _ => false end
      && match r_type o with VStr k => recognized_kind k | _ => false end
      && match r_timestamp o with VNum _ => true | _ => false end
  end.

(** The envelopes that the dispatcher hands to one of its three handlers:
    as [spec_valid], except that the identifier is any string. *)
Definition routable (data : MessageData) : bool :=
  match data with
  | Foreign _ => false
  | Envelope o =>
      strict_eq_str (r_protocol o) PROTOCOL_ID
      && match r_id o with VStr _ => true | _ => false end
      && match r_type o with VStr k => recognized_kind k | _ => false end
      && match r_timestamp o with VNum _ => true | _ => false end
  end.

(** What [listen] and [off] do to the listener registry. *)
Definition add_listener (key : string) (listener : nat) (m : gmap string (list nat))
    : gmap string (list nat) :=
  match m !! key with
  | Some listeners => <[key := JsSet.add listener listeners]> m
  | None => <[key := JsSet.add listener []]> (<[key := []]> m)
  end.

Definition remove_listener (key : string) (listener : option nat)
    (m : gmap string (list nat)) : gmap string (list nat) :=
  match listener with
  | None => delete key m
  | Some l =>
      match m !! key with
      | Some listeners =>
          if Nat.eqb (length (JsSet.delete l listeners)) 0
          then delete key (<[key := JsSet.delete l listeners]> m)
          else <[key := JsSet.delete l listeners]> m
      | None => m
      end
  end.

(** What the loops of [destroy] compute. *)
Definition delete_matching {V : Type} (channelPrefix : string) (keys : list string)
    (m : gmap string V) : gmap string V :=
  fold_left (fun m key => if String.prefix channelPrefix key then delete key m else m)
            keys m.

Definition owned_by (channel : option string) (entry : string * PendingRequest) : bool :=
  opt_string_eqb (p_channel (snd entry)) channel.

Definition cancel_timers (entries : list (string * PendingRequest))
    (ts : gmap nat Timer) : gmap nat Timer :=
  fold_left (fun ts entry => delete (p_timer (snd entry)) ts) entries ts.

Definition remove_ids (entries : list (string * PendingRequest))
    (pending : list (string * PendingRequest)) : list (string * PendingRequest) :=
  fold_left (fun pending entry => JsMap.delete (fst entry) pending) entries pending.

Definition rejections (error : string) (entries : list (string * PendingRequest))
    : list Effect :=
  map (fun entry => Reject (fst entry) (p_promise (snd entry)) error) entries.

(** In a [Map] every key occurs once. *)
Definition unique_keys (pending : list (string * PendingRequest)) : Prop :=
  NoDup (JsMap.keys pending).

(** The two replies of [handleRequest]. *)
Definition response_to (message : Message) (result : JsValue) (now : Z) : Message :=
  mkMessage PROTOCOL_ID (m_id message) MT.RESPONSE None (m_channel message) result None
            (Num now).

Definition error_to (message : Message) (text : string) (now : Z) : Message :=
  mkMessage PROTOCOL_ID (m_id message) MT.ERROR None (m_channel message) VUndefined
            (Some text) (Num now).

(** *** Runs

    What happens in a window over time: calls of the public methods on some
    instance of the bridge, [message] events, and timers that elapse. *)
Inductive Action : Type :=
  | DoRequest (this : Bridge) (method : string) (data : JsValue)
              (now_id : Z) (random : string) (now : Z)
  | DoOn (this : Bridge) (method : string) (handler : nat)
  | DoEmit (this : Bridge) (event : string) (data : JsValue)
           (now_id : Z) (random : string) (now : Z)
  | DoListen (this : Bridge) (event : string) (handler : nat)
  | DoOff (this : Bridge) (event : string) (handler : option nat)
  | DoChannel (this : Bridge) (name : string)
  | DoDestroy (this : Bridge)
  | MessageEvent (origin : string) (data : MessageData) (now : Z)
  | TimerElapsed (timer : nat).

Section Runs.
Variable handler_body : nat -> JsValue -> HandlerOutcome.
Variable listener_throws : nat -> JsValue -> bool.

Definition step (a : Action) : M unit :=
  match a with
  | DoRequest this method data now_id random now =>
      request this method data now_id random now;; skip
  | DoOn this method handler => on this method handler
  | DoEmit this event data now_id random now => emit this event data now_id random now
  | DoListen this event handler => listen this event handler
  | DoOff this event handler => off this event handler
  | DoChannel this name => channel this name;; skip
  | DoDestroy this => destroy this
  | MessageEvent origin data now =>
      window_message handler_body listener_throws origin data now
  | TimerElapsed timer => timer_fires timer
  end.

Definition run (actions : list Action) : M unit := for_each actions step.
End Runs.

(** The identifiers that the requests of a run generate. *)
Definition request_ids (actions : list Action) : list string :=
  flat_map (fun a =>
              match a with
              | DoRequest _ _ _ now_id random _ => [generateId now_id random]
              | _ => []
              end) actions.

(** A resolution or a rejection (by an Error reply, a timeout or a teardown)
    of the request with identifier [id]. *)
Definition settles (id : string) (e : Effect) : bool :=
  match e with
  | Resolve i _ _ | Reject i _ _ => String.eqb i id
  | _ => false
  end.

Definition settlements (id : string) (effects : list Effect) : nat :=
  length (List.filter (settles id) effects).

Definition is_settle (e : Effect) : bool :=
  match e with
  | Resolve _ _ _ | Reject _ _ _ => true
  | _ => false
  end.

(** What a run maintains, for the identifiers [issued] so far and the effects
    so far: pending entries have distinct keys and an active timer of their
    own; an active timer belongs to an issued identifier that has not been
    settled; no two active timers belong to one identifier; no identifier has
    been settled twice, and none that was not issued. *)
Record Inv (issued : list string) (w : World) (effects : list Effect) : Prop := mkInv {
  inv_keys : unique_keys (pendingRequests w);
  inv_entry : forall id request,
      In (id, request) (pendingRequests w) ->
      exists callback, timers w !! p_timer request = Some callback /\ t_id callback = id;
  inv_timer : forall t callback,
      timers w !! t = Some callback ->
      In (t_id callback) issued /\ settlements (t_id callback) effects = 0;
  inv_inj : forall t t' callback callback',
      timers w !! t = Some callback -> timers w !! t' = Some callback' ->
      t_id callback = t_id callback' -> t = t';
  inv_once : forall id, settlements id effects <= 1;
  inv_fresh : forall id, ~ In id issued -> settlements id effects = 0;
  inv_next : forall t, next_timer w <= t -> timers w !! t = None
}.

(** Concrete handlers, instances and states for the examples. *)
Module Sample.
Definition handler_body (h : nat) (data : JsValue) : HandlerOutcome :=
  match h with
  | 0 => Returned (VObj [("n", VNum (Num 2))])
  | 1 => Raised (ErrorObject "boom")
  | 2 => Raised (ThrownValue (Some "7"))
  | 3 => Unsettled
  | 4 => Raised (ThrownValue None)
  | _ => Unsettled
  end.

Definition listener_throws (l : nat) (data : JsValue) : bool := Nat.eqb l 1.

Definition host : Bridge := mkBridge 1 "https://a.test" (Num 30000) false None true.
Definition frame : Bridge := mkBridge 2 "*" (Num 10) true None true.
Definition channel_a : Bridge :=
  mkBridge 1 "https://a.test" (Num 30000) false (Some "a") false.
Definition channel_b : Bridge :=
  mkBridge 1 "https://a.test" (Num 30000) false (Some "b") false.
Definition channel_empty : Bridge :=
  mkBridge 1 "https://a.test" (Num 30000) false (Some "") false.

Definition fresh (root : Bridge) : World := mkWorld root ∅ ∅ [] true ∅ 0 0.

Definition ping : Message :=
  mkMessage PROTOCOL_ID "17-abc" MT.REQUEST (Some "ping") None
            (VObj [("n", VNum (Num 1))]) None (Num 18).

Definition pong : JsValue := VObj [("n", VNum (Num 2))].

(** The frame after [request("ping", {n: 1})]. *)
Definition asked : World :=
  state_of (request frame "ping" (VObj [("n", VNum (Num 1))]) 17 "abc" 18
                    (fresh frame)).

(** The host with handlers and listeners registered through the root and
    through channels, and three requests in flight. *)
Definition script : list Action :=
  [DoOn host "load" 0;
   DoOn channel_a "save" 1;
   DoOn host "a:x" 0;
   DoOn host ":x" 0;
   DoListen host "tick" 5;
   DoListen host "tick" 6;
   DoRequest host "load" VNull 3 "bb" 4;
   DoRequest channel_a "save" VNull 5 "aa" 6;
   DoRequest channel_empty "sync" VNull 7 "cc" 8].

Definition busy : World :=
  state_of (run handler_body listener_throws script (fresh host)).

(** The first request times out, a Response for it arrives late, the root
    is destroyed, and the timer of the second request would elapse. *)
Definition timeline : list Action :=
  script
  ++ [TimerElapsed 0;
      MessageEvent "https://a.test"
        (toWire (mkMessage PROTOCOL_ID "3-bb" MT.RESPONSE None None VNull None (Num 9)))
        10;
      DoDestroy host;
      TimerElapsed 1].

Definition host_options : BridgeOptions :=
  mkOptions (Some "https://a.test") None None.

(** A request whose identifier is the empty string. *)
Definition anonymous_ping : Message :=
  mkMessage PROTOCOL_ID "" MT.REQUEST (Some "ping") None VNull None (Num 17).
End Sample.

(** The lines that [log] prints. *)
Definition log_lines (this : Bridge) (message : string) : list Effect :=
  effects_of (log this message (mkWorld this ∅ ∅ [] false ∅ 0 0)).

Definition is_log (e : Effect) : bool :=
  match e with
  | ConsoleLog _ => true
  | _ => false
  end.

(** The effects other than debug output. *)
Definition observable (effects : list Effect) : list Effect :=
  List.filter (fun e => negb (is_log e)) effects.

(** The messages posted to the peer window. *)
Fixpoint posted (effects : list Effect) : list Message :=
  match effects with
  | [] => []
  | PostMessage _ message _ :: rest => message :: posted rest
  | _ :: rest => posted rest
  end.

(** The origin test of [handleMessage], read positively. *)
Definition origin_accepted (this : Bridge) (origin : string) : bool :=
  String.eqb (targetOrigin this) "*" || String.eqb origin (targetOrigin this).


(** ** The factory functions *)

(** [options?: BridgeOptions] received by a parameter with default [{}]. *)
Definition options_or_empty (options : option BridgeOptions) : BridgeOptions :=
  match options with
  | Some o => o
  | None => mkOptions None None None
  end.

(** [createParentBridge(iframe, options)].  [contentWindow] is the window of
    the frame, or null; the result is the thrown error's message or the new
    root instance with its state. *)
Definition createParentBridge (contentWindow : option nat)
    (options : option BridgeOptions) : string + Bridge * World * list Effect :=
  match contentWindow with
  | None => inl "Iframe contentWindow is not available"
  | Some target => inr (constructor_root target (options_or_empty options) None)
  end.

(** [createChildBridge(options)] in the window [self] whose [window.parent]
    is [parent]. *)
Definition createChildBridge (self : nat) (parent : option nat)
    (options : option BridgeOptions) : string + Bridge * World * list Effect :=
  match parent with
  | None => inl "Not in an iframe context"
  | Some target =>
      if Nat.eqb target self then inl "Not in an iframe context"
      else inr (constructor_root target (options_or_empty options) None)
  end.

(** ** Further notions used by the statements *)

(** The listeners that an inbound event with this method and channel
    reaches. *)
Definition listeners_for (this : Bridge) (message : Message) (w : World) : list nat :=
  default [] (inboundKey this (m_method message) (m_channel message)
                ≫= (fun k => eventHandlers w !! k)).

(** No listener set is empty or holds a listener twice. *)
Definition tidy (m : gmap string (list nat)) : Prop :=
  forall key listeners, m !! key = Some listeners -> listeners <> [] /\ NoDup listeners.

(** The same instance, state or action with debug output switched off. *)
Definition silence (this : Bridge) : Bridge :=
  mkBridge (target this) (targetOrigin this) (timeout this) false (channelName this)
           (isRootBridge this).

Definition silence_world (w : World) : World :=
  mkWorld (silence (rootBridge w)) (handlers w) (eventHandlers w) (pendingRequests w)
          (messageHandler w) (timers w) (next_timer w) (next_promise w).

Definition silence_action (a : Action) : Action :=
  match a with
  | DoRequest this method data now_id random now =>
      DoRequest (silence this) method data now_id random now
  | DoOn this method handler => DoOn (silence this) method handler
  | DoEmit this event data now_id random now =>
      DoEmit (silence this) event data now_id random now
  | DoListen this event handler => DoListen (silence this) event handler
  | DoOff this event handler => DoOff (silence this) event handler
  | DoChannel this name => DoChannel (silence this) name
  | DoDestroy this => DoDestroy (silence this)
  | MessageEvent origin data now => MessageEvent origin data now
  | TimerElapsed timer => TimerElapsed timer
  end.


(** The text with which the requester rejects on an Error reply. *)
Definition rejection_text (error : option string) : string :=
  or_else truthy_str error "Unknown error".

(** More sample data. *)
Module Sample2.
Definition loud_host : Bridge := mkBridge 1 "https://a.test" (Num 30000) true None true.

(** The frame listens to [tick] through its root and through channel [a]. *)
Definition listening : World :=
  state_of (run Sample.handler_body Sample.listener_throws
                [DoListen Sample.frame "tick" 0;
                 DoListen Sample.frame "tick" 1;
                 DoListen Sample.frame "tick" 2;
                 DoListen Sample.channel_a "tick" 7;
                 DoOn Sample.frame "undefined" 0;
                 DoOn Sample.frame "fail" 1;
                 DoOn Sample.frame "hang" 3]
                (Sample.fresh Sample.frame)).

Definition tick : Message :=
  mkMessage PROTOCOL_ID "20-ev" MT.EVENT (Some "tick") None (VStr "now") None (Num 20).

(** A Request that names no method. *)
Definition nameless : Message :=
  mkMessage PROTOCOL_ID "21-xx" MT.REQUEST None None VNull None (Num 21).

(** A Request for the handler that never settles. *)
Definition hanging : Message :=
  mkMessage PROTOCOL_ID "22-hh" MT.REQUEST (Some "hang") None VNull None (Num 22).


End Sample2.
(** ** Basic facts *)

Ltac mrun :=
  cbv [mbind M_bind mret M_ret get_world modify tell skip
       state_of effects_of value_of fst snd].

Ltac simpl_world :=
  cbv [with_handlers with_eventHandlers with_pendingRequests with_messageHandler
       with_timers state_of effects_of value_of fst snd];
  cbn [rootBridge handlers eventHandlers pendingRequests messageHandler timers
       next_timer next_promise app].

Lemma state_of_mk {A : Type} (a : A) (w : World) (e : list Effect) :
  state_of (a, w, e) = w.
Proof. reflexivity. Qed.

Lemma effects_of_mk {A : Type} (a : A) (w : World) (e : list Effect) :
  effects_of (a, w, e) = e.
Proof. reflexivity. Qed.

Lemma log_run (this : Bridge) (message : string) (w : World) :
  log this message w = (tt, w, log_lines this message).
Proof.
  unfold log_lines, log. destruct (debug this); reflexivity.
Qed.

Lemma log_lines_are_logs (this : Bridge) (message : string) :
  observable (log_lines this message) = [] /\ posted (log_lines this message) = [].
Proof.
  unfold log_lines, log. destruct (debug this); split; reflexivity.
Qed.

Lemma bind_run {A B : Type} (m : M A) (f : A -> M B) (w : World) :
  (m ≫= f) w =
  let '(a, w1, e1) := m w in let '(b, w2, e2) := f a w1 in (b, w2, e1 ++ e2).
Proof. reflexivity. Qed.

Lemma bind_log {B : Type} (this : Bridge) (message : string) (k : M B) (w : World) :
  (log this message;; k) w =
  (value_of (k w), state_of (k w), log_lines this message ++ effects_of (k w)).
Proof.
  rewrite bind_run, log_run. destruct (k w) as [[b w2] e2]. reflexivity.
Qed.

Lemma then_log {A : Type} (m : M A) (this : Bridge) (message : string) (w : World) :
  (m;; log this message) w =
  (tt, state_of (m w), effects_of (m w) ++ log_lines this message).
Proof.
  rewrite bind_run. destruct (m w) as [[a w1] e1]. rewrite log_run. reflexivity.
Qed.

Module JsMapFacts.
Section Facts.
Context {V : Type}.
Implicit Types (m : list (string * V)) (k : string).

Lemma get_set_eq k v m : JsMap.get k (JsMap.set k v m) = Some v.
Proof.
  induction m as [|[k' v'] m IH]; simpl.
  - rewrite String.eqb_refl. reflexivity.
  - destruct (String.eqb k k') eqn:E; simpl; rewrite E; auto.
Qed.

Lemma get_set_ne k k' v m :
  k <> k' -> JsMap.get k' (JsMap.set k v m) = JsMap.get k' m.
Proof.
  intros Hne. induction m as [|[k0 v0] m IH]; simpl.
  - destruct (String.eqb k' k) eqn:E; [|reflexivity].
    apply String.eqb_eq in E. congruence.
  - destruct (String.eqb k k0) eqn:E; simpl.
    + apply String.eqb_eq in E. subst k0.
      destruct (String.eqb k' k) eqn:E'; [|reflexivity].
      apply String.eqb_eq in E'. congruence.
    + rewrite IH. reflexivity.
Qed.

Lemma get_delete_eq k m : JsMap.get k (JsMap.delete k m) = None.
Proof.
  induction m as [|[k' v'] m IH]; simpl; [reflexivity|].
  destruct (String.eqb k k') eqn:E; simpl; [|rewrite E]; exact IH.
Qed.

Lemma get_delete_ne k k' m :
  k <> k' -> JsMap.get k' (JsMap.delete k m) = JsMap.get k' m.
Proof.
  intros Hne. induction m as [|[k0 v0] m IH]; simpl; [reflexivity|].
  destruct (String.eqb k k0) eqn:E; simpl.
  - apply String.eqb_eq in E. subst k0.
    destruct (String.eqb k' k) eqn:E'; [|exact IH].
    apply String.eqb_eq in E'. congruence.
  - rewrite IH. reflexivity.
Qed.

End Facts.
End JsMapFacts.

Lemma opt_string_eqb_eq (a b : option string) : opt_string_eqb a b = true <-> a = b.
Proof.
  destruct a as [x|], b as [y|]; simpl; try (split; (discriminate || reflexivity)).
  rewrite String.eqb_eq. split; congruence.
Qed.


Lemma constructor_root_run (target : nat) (options : BridgeOptions)
    (name : option string) :
  let this := init_fields target options name false in
  constructor_root target options name
  = (this, mkWorld this ∅ ∅ [] true ∅ 0 0, log_lines this "Bridge initialized").
Proof.
  cbv zeta. unfold constructor_root. rewrite bind_log. cbn.
  rewrite app_nil_r. reflexivity.
Qed.

Lemma request_run (this : Bridge) (method : string) (data : JsValue)
    (now_id : Z) (random : string) (now : Z) (w : World) :
  let id := generateId now_id random in
  request this method data now_id random now w
  = (next_promise w,
     mkWorld (rootBridge w) (handlers w) (eventHandlers w)
             (JsMap.set id (mkPending (next_promise w) (next_timer w) (channelName this))
                        (pendingRequests w))
             (messageHandler w)
             (<[next_timer w := mkTimer id method (next_promise w) (timeout this)]>
                (timers w))
             (S (next_timer w)) (S (next_promise w)),
     PostMessage (target this)
       (mkMessage PROTOCOL_ID id MT.REQUEST (Some method) (channelName this) data None
                  (Num now))
       (targetOrigin this)
     :: log_lines this "Request sent").
Proof.
  cbv zeta. unfold request, postMessage.
  rewrite bind_run. cbv [newPromise]. rewrite bind_run. cbv [setTimeout].
  rewrite bind_run. cbv [modify]. rewrite bind_run. cbv [tell].
  rewrite bind_log.
  cbv [mret M_ret value_of state_of effects_of fst snd with_pendingRequests].
  cbn [rootBridge handlers eventHandlers pendingRequests messageHandler timers
       next_timer next_promise app].
  rewrite app_nil_r. reflexivity.
Qed.


(** *** Validity and the typed view *)

Lemma typeof_string (v : JsValue) :
  String.eqb (typeof v) "string" = true <-> exists s, v = VStr s.
Proof.
  destruct v as [| |b|n|s|props]; cbn; split;
    try discriminate; try (intros [s' H]; discriminate); eauto.
Qed.

Lemma typeof_number (v : JsValue) :
  String.eqb (typeof v) "number" = true <-> exists n, v = VNum n.
Proof.
  destruct v as [| |b|n|s|props]; cbn; split;
    try discriminate; try (intros [s' H]; discriminate); eauto.
Qed.

Lemma strict_eq_str_true (v : JsValue) (s : string) :
  strict_eq_str v s = true <-> v = VStr s.
Proof.
  destruct v; cbn; try (split; discriminate).
  rewrite String.eqb_eq. split; congruence.
Qed.

Lemma isValidMessage_true (data : MessageData) :
  isValidMessage data = true <->
  exists i k ts method channel payload error,
    data = Envelope (mkRaw (VStr PROTOCOL_ID) (VStr i) (VStr k) method channel payload
                           error (VNum ts)).
Proof.
  split.
  - destruct data as [v|o]; cbn.
    + rewrite andb_false_r. discriminate.
    + rewrite !andb_true_iff. intros [[[Hp Hi] Hk] Ht].
      apply strict_eq_str_true in Hp. apply typeof_string in Hi as [i Hi].
      apply typeof_string in Hk as [k Hk]. apply typeof_number in Ht as [ts Ht].
      destruct o; cbn in *; subst. eauto 10.
  - intros (i & k & ts & method & channel & payload & error & ->). reflexivity.
Qed.

Lemma isValidMessage_asMessage (data : MessageData) :
  isValidMessage data = true ->
  exists message, asMessage data = Some message /\ toWire message = data
                  /\ m_protocol message = PROTOCOL_ID.
Proof.
  intros H. apply isValidMessage_true in H
    as (i & k & ts & method & channel & payload & error & ->).
  eexists. repeat split; reflexivity.
Qed.

Lemma asMessage_toWire (message : Message) : asMessage (toWire message) = Some message.
Proof. destruct message; reflexivity. Qed.

Lemma isValidMessage_toWire (message : Message) :
  isValidMessage (toWire message) = String.eqb (m_protocol message) PROTOCOL_ID.
Proof. destruct message; cbn. rewrite !andb_true_r. reflexivity. Qed.

Lemma routable_iff (data : MessageData) :
  routable data = true <->
  isValidMessage data = true
  /\ exists message, asMessage data = Some message
                     /\ recognized_kind (m_type message) = true.
Proof.
  split.
  - destruct data as [v|o]; [discriminate|]. intros H. cbn in H.
    rewrite !andb_true_iff in H. destruct H as [[[Hp Hi] Hk] Ht].
    apply strict_eq_str_true in Hp.
    destruct o as [p i k method channel payload error ts]; cbn in *; subst.
    destruct i; try discriminate. destruct k; try discriminate.
    destruct ts; try discriminate.
    split; [reflexivity|]. eauto.
  - intros [Hv (message & Hm & Hk)].
    apply isValidMessage_true in Hv
      as (i & k & ts & method & channel & payload & error & ->).
    cbn in Hm. injection Hm as <-. cbn in Hk. cbn. rewrite Hk. reflexivity.
Qed.

(** *** Running the private methods *)

Lemma origin_accepted_negb (this : Bridge) (origin : string) :
  negb (String.eqb (targetOrigin this) "*")
  && negb (String.eqb origin (targetOrigin this))
  = negb (origin_accepted this origin).
Proof. unfold origin_accepted. rewrite negb_orb. reflexivity. Qed.

Lemma sendResponse_run (this : Bridge) (id : string) (data : JsValue)
    (channel : option string) (now : Z) (w : World) :
  sendResponse this id data channel now w
  = (tt, w,
     PostMessage (target this)
       (mkMessage PROTOCOL_ID id MT.RESPONSE None channel data None (Num now))
       (targetOrigin this)
     :: log_lines this "Response sent").
Proof. unfold sendResponse, postMessage. rewrite then_log. reflexivity. Qed.

Lemma sendError_run (this : Bridge) (id : string) (error : string)
    (channel : option string) (now : Z) (w : World) :
  sendError this id error channel now w
  = (tt, w,
     PostMessage (target this)
       (mkMessage PROTOCOL_ID id MT.ERROR None channel VUndefined (Some error) (Num now))
       (targetOrigin this)
     :: log_lines this "Error sent").
Proof. unfold sendError, postMessage. rewrite then_log. reflexivity. Qed.


Lemma observable_app (e1 e2 : list Effect) :
  observable (e1 ++ e2) = observable e1 ++ observable e2.
Proof. unfold observable. apply List.filter_app. Qed.

Lemma posted_append (e1 e2 : list Effect) : posted (e1 ++ e2) = posted e1 ++ posted e2.
Proof.
  induction e1 as [|e e1 IH]; [reflexivity|].
  destruct e; cbn; rewrite IH; reflexivity.
Qed.

Lemma posted_log_lines (this : Bridge) (message : string) :
  posted (log_lines this message) = [].
Proof. apply log_lines_are_logs. Qed.

Lemma observable_log_lines (this : Bridge) (message : string) :
  observable (log_lines this message) = [].
Proof. apply log_lines_are_logs. Qed.

Section DispatcherFacts.
Variable handler_body : nat -> JsValue -> HandlerOutcome.
Variable listener_throws : nat -> JsValue -> bool.

Lemma handleRequest_run (this : Bridge) (message : Message) (now : Z) (w : World) :
  handleRequest handler_body this message now w
  = (tt, w,
     match inboundKey this (m_method message) (m_channel message)
             ≫= (fun k => handlers w !! k) with
     | None =>
         PostMessage (target this)
           (error_to message ("No handler for method: " +:+ template (m_method message))
                     now)
           (targetOrigin this)
         :: log_lines this "Error sent"
     | Some handler =>
         CallHandler handler (m_data message)
         :: match handler_body handler (m_data message) with
            | Returned result =>
                PostMessage (target this) (response_to message result now)
                            (targetOrigin this)
                :: log_lines this "Response sent"
            | Raised error =>
                match error_text error with
                | Some text =>
                    PostMessage (target this) (error_to message text now)
                                (targetOrigin this)
                    :: log_lines this "Error sent"
                | None => [Uncaught]
                end
            | Unsettled => []
            end
     end).
Proof.
  unfold handleRequest. cbv zeta. rewrite bind_run. cbv [get_world].
  destruct (inboundKey this (m_method message) (m_channel message)
              ≫= (fun k => handlers w !! k)) as [handler|].
  - rewrite bind_run. cbv [tell].
    destruct (handler_body handler (m_data message)) as [result|error|].
    + rewrite sendResponse_run. reflexivity.
    + destruct (error_text error) as [text|].
      * rewrite sendError_run. reflexivity.
      * reflexivity.
    + reflexivity.
  - rewrite sendError_run. reflexivity.
Qed.

Lemma handleMessage_refused (this : Bridge) (origin : string) (data : MessageData)
    (now : Z) (w : World) :
  origin_accepted this origin && isValidMessage data = false ->
  handleMessage handler_body listener_throws this origin data now w = (tt, w, []).
Proof.
  intros H. unfold handleMessage. rewrite origin_accepted_negb.
  destruct (origin_accepted this origin); [|reflexivity].
  cbn in H. rewrite H. reflexivity.
Qed.

Lemma handleMessage_accepted (this : Bridge) (origin : string) (data : MessageData)
    (message : Message) (now : Z) (w : World) :
  origin_accepted this origin = true ->
  isValidMessage data = true ->
  asMessage data = Some message ->
  handleMessage handler_body listener_throws this origin data now w
  = (log this "Message received";;
     if String.eqb (m_type message) MT.REQUEST then
       handleRequest handler_body this message now
     else if String.eqb (m_type message) MT.RESPONSE
             || String.eqb (m_type message) MT.ERROR then
       handleResponse this message
     else if String.eqb (m_type message) MT.EVENT then
       handleEvent listener_throws this message
     else skip) w.
Proof.
  intros Ho Hv Hm. unfold handleMessage. rewrite origin_accepted_negb, Ho, Hv, Hm.
  reflexivity.
Qed.
End DispatcherFacts.

(** *** Strings *)

Lemma string_length_app (a b : string) :
  String.length (a +:+ b) = String.length a + String.length b.
Proof. induction a as [|c a IH]; simpl; [reflexivity|]. f_equal. exact IH. Qed.

Lemma string_app_assoc (a b c : string) : (a +:+ b) +:+ c = a +:+ b +:+ c.
Proof.
  induction a as [|x a IH]; [reflexivity|].
  change (String x ((a +:+ b) +:+ c) = String x (a +:+ b +:+ c)).
  rewrite IH. reflexivity.
Qed.

Lemma string_app_cancel_r (a b s : string) : a +:+ s = b +:+ s -> a = b.
Proof.
  revert b. induction a as [|c a IH]; intros [|d b] H.
  - reflexivity.
  - apply (f_equal String.length) in H. rewrite !string_length_app in H.
    cbn in H. lia.
  - apply (f_equal String.length) in H. rewrite !string_length_app in H.
    cbn in H. lia.
  - cbn in H. injection H as -> H. f_equal. apply IH. exact H.
Qed.

Lemma prefix_app (p s : string) : String.prefix p (p +:+ s) = true.
Proof.
  induction p as [|c p IH]; simpl.
  - destruct s; reflexivity.
  - destruct (ascii_dec c c); [exact IH|contradiction].
Qed.

Lemma truthy_str_true (s : string) : truthy_str s = true <-> s <> "".
Proof. destruct s; cbn; split; congruence. Qed.

Lemma getHandlerKey_named (this : Bridge) (method c : string) :
  c <> "" -> getHandlerKey this method (Some c) = c +:+ ":" +:+ method.
Proof.
  intros Hc. unfold getHandlerKey. cbn.
  apply truthy_str_true in Hc. rewrite Hc. reflexivity.
Qed.

Lemma getHandlerKey_own (this : Bridge) (method : string) :
  getHandlerKey this method None
  = match channelName this with
    | Some c => if truthy_str c then c +:+ ":" +:+ method else method
    | None => method
    end.
Proof. unfold getHandlerKey. destruct (channelName this); reflexivity. Qed.

Lemma own_key_has_prefix (this : Bridge) (c method : string) :
  channelName this = Some c -> c <> "" ->
  String.prefix (template (channelName this) +:+ ":") (getHandlerKey this method None)
  = true.
Proof.
  intros Hc Hne. rewrite getHandlerKey_own, Hc. cbn [template].
  apply truthy_str_true in Hne. rewrite Hne.
  rewrite <- string_app_assoc. apply prefix_app.
Qed.

(** *** The loops of [destroy] *)

Lemma delete_matching_lookup {V : Type} (p : string) (keys : list string)
    (m : gmap string V) (k : string) :
  delete_matching p keys m !! k
  = if String.prefix p k && bool_decide (k ∈ keys) then None else m !! k.
Proof.
  unfold delete_matching. revert m.
  induction keys as [|key keys IH]; intros m; cbn.
  - rewrite andb_false_r. reflexivity.
  - rewrite IH. destruct (String.prefix p k) eqn:Hk; cbn.
    + destruct (decide (k = key)) as [->|Hne].
      * rewrite Hk, lookup_delete_eq.
        rewrite (bool_decide_eq_true_2 (key ∈ key :: keys)) by constructor.
        destruct (bool_decide (key ∈ keys)); reflexivity.
      * rewrite (bool_decide_ext (k ∈ key :: keys) (k ∈ keys))
          by (rewrite elem_of_cons; tauto).
        destruct (bool_decide (k ∈ keys)); [reflexivity|].
        destruct (String.prefix p key); [|reflexivity].
        apply lookup_delete_ne. congruence.
    + destruct (String.prefix p key) eqn:Hkey; [|reflexivity].
      apply lookup_delete_ne. intros ->. congruence.
Qed.

Lemma delete_matching_own_keys {V : Type} (p : string) (m : gmap string V) (k : string) :
  delete_matching p (keys_of m) m !! k = if String.prefix p k then None else m !! k.
Proof.
  rewrite delete_matching_lookup. destruct (String.prefix p k); [|reflexivity].
  cbn. case_bool_decide as Hin; [reflexivity|].
  destruct (m !! k) as [v|] eqn:Hk; [|reflexivity].
  exfalso. apply Hin. unfold keys_of. apply list_elem_of_fmap.
  exists (k, v). split; [reflexivity|]. apply elem_of_map_to_list. exact Hk.
Qed.

Lemma for_each_handlers (p : string) (keys : list string) (w : World) :
  for_each keys (fun key =>
    if String.prefix p key then modify (with_handlers (delete key)) else skip) w
  = (tt, with_handlers (delete_matching p keys) w, []).
Proof.
  revert w. induction keys as [|key keys IH]; intros w.
  - destruct w; reflexivity.
  - cbn [for_each]. rewrite bind_run.
    destruct (String.prefix p key) eqn:Hkey; cbv [modify skip mret M_ret];
      rewrite IH; destruct w; cbn; unfold with_handlers; cbn; rewrite Hkey; reflexivity.
Qed.

Lemma for_each_eventHandlers (p : string) (keys : list string) (w : World) :
  for_each keys (fun key =>
    if String.prefix p key then modify (with_eventHandlers (delete key)) else skip) w
  = (tt, with_eventHandlers (delete_matching p keys) w, []).
Proof.
  revert w. induction keys as [|key keys IH]; intros w.
  - destruct w; reflexivity.
  - cbn [for_each]. rewrite bind_run.
    destruct (String.prefix p key) eqn:Hkey; cbv [modify skip mret M_ret];
      rewrite IH; destruct w; cbn; unfold with_eventHandlers; cbn; rewrite Hkey;
      reflexivity.
Qed.

Lemma for_each_root_pending (entries : list (string * PendingRequest)) (w : World) :
  for_each entries (fun '(id, request) =>
    clearTimeout (p_timer request);;
    reject id request "Bridge destroyed") w
  = (tt, with_timers (cancel_timers entries) w, rejections "Bridge destroyed" entries).
Proof.
  revert w. induction entries as [|[id request] entries IH]; intros w.
  - destruct w; reflexivity.
  - cbn [for_each]. rewrite bind_run, bind_run.
    cbv [clearTimeout modify reject tell]. rewrite IH.
    destruct w; reflexivity.
Qed.

Lemma for_each_channel_pending (channel : option string)
    (entries : list (string * PendingRequest)) (w : World) :
  let owned := List.filter (owned_by channel) entries in
  for_each entries (fun '(id, request) =>
    if opt_string_eqb (p_channel request) channel then
      clearTimeout (p_timer request);;
      reject id request "Channel destroyed";;
      modify (with_pendingRequests (JsMap.delete id))
    else skip) w
  = (tt,
     with_pendingRequests (remove_ids owned) (with_timers (cancel_timers owned) w),
     rejections "Channel destroyed" owned).
Proof.
  cbv zeta. revert w. induction entries as [|[id request] entries IH]; intros w.
  - destruct w; reflexivity.
  - cbn [for_each List.filter]. rewrite bind_run.
    change (owned_by channel (id, request))
      with (opt_string_eqb (p_channel request) channel).
    destruct (opt_string_eqb (p_channel request) channel).
    + cbv [mbind M_bind clearTimeout modify reject tell]. rewrite IH.
      destruct w; reflexivity.
    + cbv [skip mret M_ret]. rewrite IH. reflexivity.
Qed.

Lemma destroy_root_run (this : Bridge) (w : World) :
  isRootBridge this = true ->
  destroy this w
  = (tt,
     mkWorld (rootBridge w) ∅ ∅ [] false
             (cancel_timers (pendingRequests w) (timers w))
             (next_timer w) (next_promise w),
     rejections "Bridge destroyed" (pendingRequests w)
     ++ log_lines this "Bridge destroyed (root)").
Proof.
  intros Hroot. unfold destroy. rewrite Hroot.
  rewrite bind_run. cbv [get_world]. rewrite bind_run.
  assert (E : (if messageHandler w then modify (with_messageHandler false) else skip) w
              = (tt, with_messageHandler false w, [])).
  { destruct w as [r h e p [] t nt np]; reflexivity. }
  rewrite E. rewrite bind_run. cbv [get_world]. rewrite bind_run.
  rewrite for_each_root_pending. rewrite bind_run. cbv [modify].
  rewrite bind_run, then_log. clear E. destruct w; simpl_world.
  rewrite ?app_nil_r. reflexivity.
Qed.

Lemma destroy_channel_run (this : Bridge) (w : World) :
  isRootBridge this = false ->
  let channelPrefix := template (channelName this) +:+ ":" in
  let owned := List.filter (owned_by (channelName this)) (pendingRequests w) in
  destroy this w
  = (tt,
     mkWorld (rootBridge w)
             (delete_matching channelPrefix (keys_of (handlers w)) (handlers w))
             (delete_matching channelPrefix (keys_of (eventHandlers w)) (eventHandlers w))
             (remove_ids owned (pendingRequests w))
             (messageHandler w)
             (cancel_timers owned (timers w))
             (next_timer w) (next_promise w),
     rejections "Channel destroyed" owned
     ++ log_lines this "Bridge destroyed (channel)").
Proof.
  intros Hroot. cbv zeta. unfold destroy. rewrite Hroot. cbv zeta.
  rewrite bind_run. cbv [get_world]. rewrite bind_run, for_each_handlers.
  rewrite bind_run. cbv [get_world]. rewrite bind_run, for_each_eventHandlers.
  rewrite bind_run. cbv [get_world]. rewrite then_log, for_each_channel_pending.
  destruct w; reflexivity.
Qed.

Lemma cancel_timers_lookup (entries : list (string * PendingRequest))
    (ts : gmap nat Timer) (t : nat) :
  cancel_timers entries ts !! t
  = if bool_decide (t ∈ map (fun entry => p_timer (snd entry)) entries)
    then None else ts !! t.
Proof.
  unfold cancel_timers. revert ts.
  induction entries as [|entry entries IH]; intros ts; cbn; [reflexivity|].
  rewrite IH. destruct (decide (t = p_timer (snd entry))) as [->|Hne].
  - rewrite lookup_delete_eq.
    rewrite (bool_decide_eq_true_2 (_ ∈ _ :: _)) by constructor.
    case_bool_decide; reflexivity.
  - rewrite lookup_delete_ne by congruence.
    rewrite (bool_decide_ext
               (t ∈ p_timer (snd entry)
                    :: map (fun entry => p_timer (snd entry)) entries)
               (t ∈ map (fun entry => p_timer (snd entry)) entries))
      by (rewrite elem_of_cons; tauto).
    reflexivity.
Qed.

Lemma filter_filter {A : Type} (f g : A -> bool) (l : list A) :
  List.filter f (List.filter g l) = List.filter (fun x => g x && f x) l.
Proof.
  induction l as [|x l IH]; cbn; [reflexivity|].
  destruct (g x); cbn; [destruct (f x)|]; rewrite IH; reflexivity.
Qed.

Lemma JsMap_delete_filter {V : Type} (k : string) (m : list (string * V)) :
  JsMap.delete k m = List.filter (fun e => negb (String.eqb k (fst e))) m.
Proof.
  induction m as [|[k' v] m IH]; cbn; [reflexivity|].
  destruct (String.eqb k k'); cbn; rewrite IH; reflexivity.
Qed.

Lemma remove_ids_filter (entries pending : list (string * PendingRequest)) :
  remove_ids entries pending
  = List.filter (fun e => negb (existsb (fun e' => String.eqb (fst e') (fst e)) entries))
                pending.
Proof.
  unfold remove_ids. revert pending.
  induction entries as [|entry entries IH]; intros pending; cbn.
  - induction pending as [|e pending IHp]; cbn; [reflexivity|].
    rewrite <- IHp. reflexivity.
  - rewrite IH, JsMap_delete_filter, filter_filter.
    apply List.filter_ext. intros e. rewrite negb_orb. reflexivity.
Qed.

Lemma remove_owned (f : string * PendingRequest -> bool)
    (pending : list (string * PendingRequest)) :
  unique_keys pending ->
  remove_ids (List.filter f pending) pending = List.filter (fun e => negb (f e)) pending.
Proof.
  intros Hnd. rewrite remove_ids_filter. apply List.filter_ext_in.
  intros e He. f_equal.
  destruct (f e) eqn:Hfe.
  - apply existsb_exists. exists e. split.
    + apply List.filter_In. auto.
    + apply String.eqb_refl.
  - apply not_true_is_false. intros Hex. apply existsb_exists in Hex as (e' & He' & Heq).
    apply List.filter_In in He' as [He' Hfe']. apply String.eqb_eq in Heq.
    assert (e' = e); [|congruence].
    unfold unique_keys, JsMap.keys in Hnd. clear -Hnd He He' Heq.
    induction pending as [|x pending IH]; [destruct He|].
    apply NoDup_cons in Hnd as [Hx Hnd].
    destruct He as [->|He], He' as [->|He']; auto.
    + exfalso. apply Hx. rewrite <- Heq. apply list_elem_of_In, in_map, He'.
    + exfalso. apply Hx. rewrite Heq. apply list_elem_of_In, in_map, He.
Qed.

Lemma on_run (this : Bridge) (method : string) (handler : nat) (w : World) :
  on this method handler w
  = (tt, with_handlers (<[getHandlerKey this method None := handler]>) w,
     log_lines this "Handler registered").
Proof. unfold on. cbv zeta. rewrite then_log. reflexivity. Qed.

Lemma observable_rejections (error : string) (entries : list (string * PendingRequest)) :
  observable (rejections error entries) = rejections error entries.
Proof.
  unfold rejections, observable.
  induction entries as [|entry l IH]; cbn; [reflexivity|]. rewrite IH. reflexivity.
Qed.

Lemma channel_run (this : Bridge) (name : string) (w : World) :
  let derived :=
    mkBridge (target this)
             (or_else truthy_str (Some (targetOrigin this)) "*")
             (or_else truthy_num (Some (timeout this)) (Num 30000))
             (or_else (fun b : bool => b) (Some (debug this)) false)
             (Some name) false in
  channel this name w = (derived, w, log_lines derived "Bridge initialized").
Proof.
  cbv zeta. unfold channel, constructor_derived. cbv zeta. rewrite bind_log.
  cbv [mret M_ret value_of state_of effects_of fst snd]. rewrite app_nil_r. reflexivity.
Qed.

Lemma listen_run (this : Bridge) (event : string) (listener : nat) (w : World) :
  listen this event listener w
  = (tt,
     mkWorld (rootBridge w) (handlers w)
             (add_listener (getHandlerKey this event None) listener (eventHandlers w))
             (pendingRequests w) (messageHandler w) (timers w) (next_timer w)
             (next_promise w),
     log_lines this "Event listener added").
Proof.
  unfold listen, add_listener. cbv zeta.
  set (key := getHandlerKey this event None).
  rewrite bind_run. cbv [get_world]. rewrite bind_run.
  destruct (eventHandlers w !! key) as [listeners|] eqn:Hget.
  - rewrite decide_True by eauto. cbv [skip mret M_ret].
    rewrite bind_run. cbv [get_world]. rewrite then_log, Hget.
    destruct w; reflexivity.
  - rewrite decide_False by (intros [x Hx]; discriminate). cbv [modify].
    rewrite bind_run. cbv [get_world]. rewrite then_log.
    simpl_world. rewrite lookup_insert_eq. destruct w; reflexivity.
Qed.

Lemma off_run (this : Bridge) (event : string) (listener : option nat) (w : World) :
  off this event listener w
  = (tt,
     mkWorld (rootBridge w) (handlers w)
             (remove_listener (getHandlerKey this event None) listener (eventHandlers w))
             (pendingRequests w) (messageHandler w) (timers w) (next_timer w)
             (next_promise w),
     log_lines this (match listener with
                     | None => "All event listeners removed"
                     | Some _ => "Event listener removed"
                     end)).
Proof.
  unfold off, remove_listener. cbv zeta.
  set (key := getHandlerKey this event None).
  destruct listener as [l|].
  - rewrite bind_run. cbv [get_world].
    destruct (eventHandlers w !! key) as [listeners|] eqn:Hget.
    + rewrite then_log, bind_run. cbv [modify]. unfold JsSet.size.
      destruct (Nat.eqb (length (JsSet.delete l listeners)) 0);
        destruct w; reflexivity.
    + rewrite then_log. destruct w; reflexivity.
  - rewrite then_log. destruct w; reflexivity.
Qed.

(** *** Replies and timers *)

Lemma handleResponse_settles (this : Bridge) (message : Message)
    (pending : PendingRequest) (w : World) :
  JsMap.get (m_id message) (pendingRequests w) = Some pending ->
  p_channel pending = m_channel message ->
  handleResponse this message w
  = (tt,
     mkWorld (rootBridge w) (handlers w) (eventHandlers w)
             (JsMap.delete (m_id message) (pendingRequests w))
             (messageHandler w) (delete (p_timer pending) (timers w))
             (next_timer w) (next_promise w),
     [if String.eqb (m_type message) MT.ERROR
      then Reject (m_id message) (p_promise pending)
                  (or_else truthy_str (m_error message) "Unknown error")
      else Resolve (m_id message) (p_promise pending) (m_data message)]).
Proof.
  intros Hget Hch. unfold handleResponse. rewrite bind_run. cbv [get_world].
  rewrite Hget. apply opt_string_eqb_eq in Hch. rewrite Hch. cbn [negb].
  cbv [mbind M_bind clearTimeout modify reject resolve tell].
  destruct (String.eqb (m_type message) MT.ERROR); destruct w; reflexivity.
Qed.

Lemma handleResponse_ignores (this : Bridge) (message : Message) (w : World) :
  (JsMap.get (m_id message) (pendingRequests w) = None
   \/ exists pending,
        JsMap.get (m_id message) (pendingRequests w) = Some pending
        /\ p_channel pending <> m_channel message) ->
  state_of (handleResponse this message w) = w
  /\ observable (effects_of (handleResponse this message w)) = [].
Proof.
  unfold handleResponse. rewrite bind_run. cbv [get_world].
  intros [Hnone|(pending & Hget & Hne)].
  - rewrite Hnone. split; reflexivity.
  - rewrite Hget.
    destruct (opt_string_eqb (p_channel pending) (m_channel message)) eqn:E.
    + apply opt_string_eqb_eq in E. contradiction.
    + cbn [negb]. rewrite log_run. split; [reflexivity|]. apply observable_log_lines.
Qed.

Lemma timer_fires_run (t : nat) (callback : Timer) (w : World) :
  timers w !! t = Some callback ->
  timer_fires t w
  = (tt,
     mkWorld (rootBridge w) (handlers w) (eventHandlers w)
             (JsMap.delete (t_id callback) (pendingRequests w))
             (messageHandler w) (delete t (timers w))
             (next_timer w) (next_promise w),
     [Reject (t_id callback) (t_promise callback)
             ("Request timeout: " +:+ t_method callback)]).
Proof.
  intros Hget. unfold timer_fires. rewrite bind_run. cbv [get_world]. rewrite Hget.
  cbv [mbind M_bind modify tell]. destruct w; reflexivity.
Qed.

Lemma timer_fires_inactive (t : nat) (w : World) :
  timers w !! t = None -> timer_fires t w = (tt, w, []).
Proof.
  intros Hget. unfold timer_fires. rewrite bind_run. cbv [get_world]. rewrite Hget.
  reflexivity.
Qed.

Lemma emit_run (this : Bridge) (event : string) (data : JsValue)
    (now_id : Z) (random : string) (now : Z) (w : World) :
  emit this event data now_id random now w
  = (tt, w,
     PostMessage (target this)
       (mkMessage PROTOCOL_ID (generateId now_id random) MT.EVENT (Some event)
                  (channelName this) data None (Num now))
       (targetOrigin this)
     :: log_lines this "Event emitted").
Proof. unfold emit, postMessage. cbv zeta. rewrite then_log. reflexivity. Qed.

Section WindowFacts.
Variable handler_body : nat -> JsValue -> HandlerOutcome.
Variable listener_throws : nat -> JsValue -> bool.

Lemma window_message_run (origin : string) (data : MessageData) (now : Z) (w : World) :
  window_message handler_body listener_throws origin data now w
  = if messageHandler w
    then handleMessage handler_body listener_throws (rootBridge w) origin data now w
    else (tt, w, []).
Proof.
  unfold window_message. rewrite bind_run. cbv [get_world].
  destruct (messageHandler w).
  - destruct (handleMessage _ _ _ _ _ _ w) as [[[] w'] e]. reflexivity.
  - reflexivity.
Qed.

Lemma handleEvent_state (this : Bridge) (message : Message) (w : World) :
  state_of (handleEvent listener_throws this message w) = w
  /\ List.filter is_settle (effects_of (handleEvent listener_throws this message w))
     = [].
Proof.
  unfold handleEvent. cbv zeta. rewrite bind_run. cbv [get_world].
  destruct (inboundKey this (m_method message) (m_channel message)
              ≫= (fun k => eventHandlers w !! k)) as [listeners|];
    [|split; reflexivity].
  destruct (Nat.eqb (JsSet.size listeners) 0); [split; reflexivity|].
  induction listeners as [|l listeners [IHs IHe]]; [split; reflexivity|].
  cbn [for_each]. rewrite bind_run, bind_run. cbv [tell].
  assert (E : (if listener_throws l (m_data message)
               then log this "Event handler error" else skip) w
              = (tt, w, if listener_throws l (m_data message)
                        then log_lines this "Event handler error" else [])).
  { destruct (listener_throws l (m_data message)); [apply log_run|reflexivity]. }
  rewrite E.
  destruct (for_each listeners _ w) as [[[] w'] e'].
  cbv [state_of effects_of fst snd] in *. split; [exact IHs|].
  cbn [app List.filter is_settle] in *.
  rewrite List.filter_app, IHe, app_nil_r.
  destruct (listener_throws l (m_data message)); [|reflexivity].
  unfold log_lines, log. destruct (debug this); reflexivity.
Qed.
End WindowFacts.

(** *** Counting settlements *)

Lemma settlements_app (id : string) (e1 e2 : list Effect) :
  settlements id (e1 ++ e2) = settlements id e1 + settlements id e2.
Proof. unfold settlements. rewrite List.filter_app, length_app. reflexivity. Qed.

Lemma settle_free (id : string) (effects : list Effect) :
  List.filter is_settle effects = [] -> settlements id effects = 0.
Proof.
  unfold settlements. induction effects as [|e effects IH]; [reflexivity|].
  cbn [List.filter]. destruct e; cbn [is_settle settles]; try discriminate; exact IH.
Qed.

Lemma log_lines_settle_free (this : Bridge) (message : string) :
  List.filter is_settle (log_lines this message) = [].
Proof. unfold log_lines, log. destruct (debug this); reflexivity. Qed.

Lemma settlements_rejections (id : string) (error : string)
    (entries : list (string * PendingRequest)) :
  settlements id (rejections error entries)
  = length (List.filter (fun e => String.eqb (fst e) id) entries).
Proof.
  unfold settlements, rejections.
  induction entries as [|e entries IH]; [reflexivity|].
  cbn [map List.filter settles]. destruct (String.eqb (fst e) id); cbn; rewrite IH;
    reflexivity.
Qed.

(** *** Keys of the pending-request map *)

Lemma in_delete {V : Type} (k k' : string) (v' : V) (m : list (string * V)) :
  In (k', v') (JsMap.delete k m) <-> In (k', v') m /\ k' <> k.
Proof.
  rewrite JsMap_delete_filter, List.filter_In. cbn [fst].
  rewrite negb_true_iff, String.eqb_neq. split; intros [H1 H2]; split; auto.
Qed.

Lemma in_set {V : Type} (k k' : string) (v v' : V) (m : list (string * V)) :
  In (k', v') (JsMap.set k v m) -> (k', v') = (k, v) \/ In (k', v') m.
Proof.
  induction m as [|[k0 v0] m IH]; cbn.
  - intros [E|[]]. left. congruence.
  - destruct (String.eqb k k0) eqn:E; cbn.
    + apply String.eqb_eq in E. subst k0. intros [H|H]; [left; congruence|auto].
    + intros [H|H]; [auto|]. destruct (IH H); auto.
Qed.

Lemma keys_set {V : Type} (k : string) (v : V) (m : list (string * V)) :
  JsMap.keys (JsMap.set k v m)
  = if existsb (String.eqb k) (JsMap.keys m) then JsMap.keys m else JsMap.keys m ++ [k].
Proof.
  unfold JsMap.keys. induction m as [|[k0 v0] m IH]; cbn; [reflexivity|].
  destruct (String.eqb k k0) eqn:E; cbn.
  - apply String.eqb_eq in E. subst k0. reflexivity.
  - rewrite IH. destruct (existsb (String.eqb k) (map fst m)); reflexivity.
Qed.

Lemma unique_keys_set (k : string) (v : PendingRequest)
    (m : list (string * PendingRequest)) :
  unique_keys m -> unique_keys (JsMap.set k v m).
Proof.
  unfold unique_keys. intros Hnd. rewrite keys_set.
  destruct (existsb (String.eqb k) (JsMap.keys m)) eqn:E; [exact Hnd|].
  apply NoDup_app. split; [exact Hnd|]. split; [|apply NoDup_singleton].
  intros x Hx Hx'. apply list_elem_of_singleton in Hx'. subst x.
  apply not_true_iff_false in E. apply E. apply existsb_exists.
  exists k. split; [apply list_elem_of_In; exact Hx|apply String.eqb_refl].
Qed.

Lemma unique_keys_filter (f : string * PendingRequest -> bool)
    (m : list (string * PendingRequest)) :
  unique_keys m -> unique_keys (List.filter f m).
Proof.
  unfold unique_keys, JsMap.keys. induction m as [|e m IH]; cbn; [auto|].
  intros Hnd. apply NoDup_cons in Hnd as [Hx Hnd].
  destruct (f e); cbn; [|auto].
  apply NoDup_cons. split; [|auto].
  intros Hin. apply Hx. apply list_elem_of_In in Hin. apply list_elem_of_In.
  apply in_map_iff in Hin as (e' & E & Hin). apply List.filter_In in Hin as [Hin _].
  rewrite <- E. apply in_map. exact Hin.
Qed.

Lemma unique_keys_count (id : string) (m : list (string * PendingRequest)) :
  unique_keys m -> length (List.filter (fun e => String.eqb (fst e) id) m) <= 1.
Proof.
  unfold unique_keys, JsMap.keys. induction m as [|e m IH]; cbn; [lia|].
  intros Hnd. apply NoDup_cons in Hnd as [Hx Hnd].
  destruct (String.eqb (fst e) id) eqn:E; [|auto].
  apply String.eqb_eq in E. cbn.
  assert (List.filter (fun e => String.eqb (fst e) id) m = []) as ->; [|cbn; lia].
  destruct (List.filter _ m) as [|e' l] eqn:Hf; [reflexivity|].
  exfalso. apply Hx. assert (Hin : In e' (List.filter (fun e => String.eqb (fst e) id) m))
    by (rewrite Hf; left; reflexivity).
  apply List.filter_In in Hin as [Hin E']. apply String.eqb_eq in E'.
  apply list_elem_of_In. rewrite E, <- E'. apply in_map. exact Hin.
Qed.

Lemma get_In {V : Type} (k : string) (v : V) (m : list (string * V)) :
  JsMap.get k m = Some v -> In (k, v) m.
Proof.
  induction m as [|[k0 v0] m IH]; cbn; [discriminate|].
  destruct (String.eqb k k0) eqn:E.
  - apply String.eqb_eq in E. intros [= ->]. left. congruence.
  - auto.
Qed.

(** *** Preservation of the run invariant *)

Lemma then_log_free {A : Type} (m : M A) (w : World) :
  state_of ((m;; skip) w) = state_of (m w)
  /\ effects_of ((m;; skip) w) = effects_of (m w).
Proof.
  rewrite bind_run. destruct (m w) as [[a w1] e1]. cbv [skip mret M_ret].
  simpl_world. rewrite app_nil_r. split; reflexivity.
Qed.

Lemma Inv_neutral (issued : list string) (w w' : World) (effects new : list Effect) :
  pendingRequests w' = pendingRequests w ->
  timers w' = timers w ->
  next_timer w' = next_timer w ->
  List.filter is_settle new = [] ->
  Inv issued w effects -> Inv issued w' (effects ++ new).
Proof.
  intros Hp Ht Hn Hnew [I1 I2 I3 I4 I5 I6 I7].
  assert (Hs : forall id, settlements id (effects ++ new) = settlements id effects).
  { intros id. rewrite settlements_app, (settle_free id new Hnew). lia. }
  constructor; rewrite ?Hp, ?Ht, ?Hn; try assumption.
  - intros t cb Hcb. rewrite Hs. eauto.
  - intros id. rewrite Hs. auto.
  - intros id Hid. rewrite Hs. auto.
Qed.


Lemma Inv_request (issued : list string) (w : World) (effects : list Effect)
    (this : Bridge) (method : string) (data : JsValue) (now_id : Z) (random : string)
    (now : Z) :
  ~ In (generateId now_id random) issued ->
  Inv issued w effects ->
  Inv (generateId now_id random :: issued)
      (state_of (request this method data now_id random now w))
      (effects ++ effects_of (request this method data now_id random now w)).
Proof.
  intros Hfresh [I1 I2 I3 I4 I5 I6 I7]. rewrite request_run. simpl_world.
  set (id := generateId now_id random) in *.
  set (new := PostMessage _ _ _ :: _).
  assert (Hnew : List.filter is_settle new = []).
  { unfold new. cbn [List.filter is_settle]. apply log_lines_settle_free. }
  assert (Hs : forall i, settlements i (effects ++ new) = settlements i effects).
  { intros i. rewrite settlements_app, (settle_free i new Hnew). lia. }
  assert (Hnone : timers w !! next_timer w = None) by (apply I7; lia).
  constructor; simpl_world.
  - apply unique_keys_set. exact I1.
  - intros id' request' Hin. apply in_set in Hin as [E|Hin].
    + injection E as -> ->. cbn [p_timer]. rewrite lookup_insert_eq. eauto.
    + destruct (I2 _ _ Hin) as (cb & Hcb & Hid).
      exists cb. split; [|exact Hid]. rewrite lookup_insert_ne; [exact Hcb|].
      intros E. rewrite <- E, Hnone in Hcb. discriminate.
  - intros t cb Hcb. rewrite Hs.
    destruct (decide (t = next_timer w)) as [->|Hne].
    + rewrite lookup_insert_eq in Hcb. injection Hcb as <-. cbn [t_id].
      split; [left; reflexivity|]. apply I6. exact Hfresh.
    + rewrite lookup_insert_ne in Hcb by congruence.
      destruct (I3 t cb Hcb). split; [right|]; assumption.
  - intros t t' cb cb' Hcb Hcb' E.
    destruct (decide (t = next_timer w)) as [->|Hne],
             (decide (t' = next_timer w)) as [->|Hne']; [reflexivity| | |].
    + rewrite lookup_insert_eq in Hcb. injection Hcb as <-.
      rewrite lookup_insert_ne in Hcb' by congruence.
      destruct (I3 t' cb' Hcb') as [Hin _]. cbn [t_id] in E. rewrite <- E in Hin.
      contradiction.
    + rewrite lookup_insert_eq in Hcb'. injection Hcb' as <-.
      rewrite lookup_insert_ne in Hcb by congruence.
      destruct (I3 t cb Hcb) as [Hin _]. cbn [t_id] in E. rewrite E in Hin.
      contradiction.
    + rewrite lookup_insert_ne in Hcb, Hcb' by congruence. eauto.
  - intros i. rewrite Hs. auto.
  - intros i Hi. rewrite Hs. apply I6. intros Hin. apply Hi. right. exact Hin.
  - intros t Ht. rewrite lookup_insert_ne by lia. apply I7. lia.
Qed.

Lemma Inv_consume (cancelled : list nat) (removed : list string)
    (issued : list string) (w w' : World) (effects new : list Effect) :
  Inv issued w effects ->
  (forall t, timers w' !! t = if bool_decide (t ∈ cancelled) then None
                              else timers w !! t) ->
  unique_keys (pendingRequests w') ->
  (forall id request,
      In (id, request) (pendingRequests w') ->
      In (id, request) (pendingRequests w) /\ ~ In id removed) ->
  next_timer w' = next_timer w ->
  (forall t callback,
      timers w !! t = Some callback -> (In t cancelled <-> In (t_id callback) removed)) ->
  (forall id, In id removed ->
              exists t callback, timers w !! t = Some callback /\ t_id callback = id) ->
  (forall id, settlements id new <= 1) ->
  (forall id, ~ In id removed -> settlements id new = 0) ->
  Inv issued w' (effects ++ new).
Proof.
  intros [I1 I2 I3 I4 I5 I6 I7] Ht Hk Hp Hn Hiff Hact Hone Hzero.
  assert (Hsub : forall t cb, timers w' !! t = Some cb ->
                              timers w !! t = Some cb /\ ~ In t cancelled).
  { intros t cb Hcb. rewrite Ht in Hcb. case_bool_decide as Hc; [discriminate|].
    rewrite list_elem_of_In in Hc. auto. }
  constructor.
  - exact Hk.
  - intros id request Hin. destruct (Hp _ _ Hin) as [Hin' Hid].
    destruct (I2 _ _ Hin') as (cb & Hcb & E). exists cb. split; [|exact E].
    rewrite Ht. rewrite bool_decide_eq_false_2; [exact Hcb|].
    intros Hc. apply list_elem_of_In in Hc.
    apply Hid. rewrite <- E. apply (Hiff _ _ Hcb). exact Hc.
  - intros t cb Hcb. destruct (Hsub _ _ Hcb) as [Hcb' Hnc].
    destruct (I3 _ _ Hcb') as [Hin Hs]. split; [exact Hin|].
    rewrite settlements_app, Hs, Hzero; [reflexivity|].
    intros Hr. apply Hnc. apply (Hiff _ _ Hcb'). exact Hr.
  - intros t t' cb cb' Hcb Hcb' E.
    destruct (Hsub _ _ Hcb), (Hsub _ _ Hcb'). eauto.
  - intros id. rewrite settlements_app.
    destruct (in_dec string_dec id removed) as [Hr|Hr].
    + destruct (Hact id Hr) as (t & cb & Hcb & E).
      destruct (I3 _ _ Hcb) as [_ Hs]. rewrite E in Hs. rewrite Hs. apply Hone.
    + rewrite (Hzero id Hr). specialize (I5 id). lia.
  - intros id Hid. rewrite settlements_app, (I6 id Hid). apply Hzero.
    intros Hr. destruct (Hact id Hr) as (t & cb & Hcb & E).
    destruct (I3 _ _ Hcb) as [Hin _]. rewrite E in Hin. contradiction.
  - intros t Hle. rewrite Ht, Hn in *. case_bool_decide; [reflexivity|]. apply I7. exact Hle.
Qed.

Lemma unique_keys_eq (k : string) (v v' : PendingRequest)
    (m : list (string * PendingRequest)) :
  unique_keys m -> In (k, v) m -> In (k, v') m -> v = v'.
Proof.
  unfold unique_keys, JsMap.keys. induction m as [|e m IH]; cbn; [tauto|].
  intros Hnd. apply NoDup_cons in Hnd as [Hx Hnd].
  intros [->|H1] [E|H2].
  - congruence.
  - exfalso. apply Hx. apply list_elem_of_In. apply (in_map fst _ (k, v')). exact H2.
  - exfalso. apply Hx. rewrite E. apply list_elem_of_In.
    apply (in_map fst _ (k, v)). exact H1.
  - auto.
Qed.

Lemma observable_settle_free (effects : list Effect) :
  observable effects = [] -> List.filter is_settle effects = [].
Proof.
  unfold observable. induction effects as [|e effects IH]; [reflexivity|].
  destruct e; cbn; try discriminate. exact IH.
Qed.

Lemma singleton_lookup {V : Type} (t t' : nat) (ts : gmap nat V) :
  delete t ts !! t' = if bool_decide (t' ∈ [t]) then None else ts !! t'.
Proof.
  case_bool_decide as H.
  - apply list_elem_of_singleton in H. subst. apply lookup_delete_eq.
  - apply lookup_delete_ne. intros ->. apply H. constructor.
Qed.

Lemma Inv_consume_one (issued : list string) (w w' : World) (effects : list Effect)
    (t : nat) (callback : Timer) (e : Effect) :
  Inv issued w effects ->
  timers w !! t = Some callback ->
  timers w' = delete t (timers w) ->
  pendingRequests w' = JsMap.delete (t_id callback) (pendingRequests w) ->
  next_timer w' = next_timer w ->
  (forall id, settles id e = true -> id = t_id callback) ->
  Inv issued w' (effects ++ [e]).
Proof.
  intros HI Hcb Ht Hp Hn He.
  apply (Inv_consume [t] [t_id callback] issued w); try assumption.
  - intros t'. rewrite Ht. apply singleton_lookup.
  - rewrite Hp, JsMap_delete_filter. apply unique_keys_filter, HI.
  - intros id request Hin. rewrite Hp in Hin. apply in_delete in Hin as [Hin Hne].
    split; [exact Hin|]. intros [E|[]]. congruence.
  - intros t' cb' Hcb'. split.
    + intros [<-|[]]. left. congruence.
    + intros [E|[]]. left. symmetry. apply (inv_inj _ _ _ HI t' t cb' callback); auto.
  - intros id [<-|[]]. eauto.
  - intros id. unfold settlements. cbn. destruct (settles id e); cbn; lia.
  - intros id Hid. unfold settlements. cbn.
    destruct (settles id e) eqn:E; [|reflexivity].
    exfalso. apply Hid. left. symmetry. apply He. exact E.
Qed.

Lemma Inv_timer_fires (issued : list string) (w : World) (effects : list Effect)
    (t : nat) :
  Inv issued w effects ->
  Inv issued (state_of (timer_fires t w)) (effects ++ effects_of (timer_fires t w)).
Proof.
  intros HI. destruct (timers w !! t) as [cb|] eqn:Hcb.
  - rewrite (timer_fires_run t cb w Hcb). simpl_world.
    apply (Inv_consume_one issued w _ effects t cb); auto.
    cbn. intros id E. apply String.eqb_eq in E. congruence.
  - rewrite (timer_fires_inactive t w Hcb). simpl_world.
    apply (Inv_neutral issued w); auto.
Qed.

Lemma Inv_handleResponse (issued : list string) (w : World) (effects : list Effect)
    (this : Bridge) (message : Message) :
  Inv issued w effects ->
  Inv issued (state_of (handleResponse this message w))
      (effects ++ effects_of (handleResponse this message w)).
Proof.
  intros HI.
  destruct (JsMap.get (m_id message) (pendingRequests w)) as [pending|] eqn:Hget.
  - destruct (decide (p_channel pending = m_channel message)) as [Hch|Hch].
    + rewrite (handleResponse_settles this message pending w Hget Hch). simpl_world.
      destruct (inv_entry _ _ _ HI _ _ (get_In _ _ _ Hget)) as (cb & Hcb & Hid).
      apply (Inv_consume_one issued w _ effects (p_timer pending) cb); auto.
      * cbn [pendingRequests]. rewrite Hid. reflexivity.
      * intros id. rewrite Hid.
        destruct (String.eqb (m_type message) MT.ERROR); cbn; intros E;
          apply String.eqb_eq in E; congruence.
    + destruct (handleResponse_ignores this message w) as [Hs He]; [eauto|].
      rewrite Hs. apply (Inv_neutral issued w); auto.
      apply observable_settle_free, He.
  - destruct (handleResponse_ignores this message w) as [Hs He]; [auto|].
    rewrite Hs. apply (Inv_neutral issued w); auto.
    apply observable_settle_free, He.
Qed.

Lemma Inv_consume_entries (f : string * PendingRequest -> bool) (error : string)
    (issued : list string) (w w' : World) (effects new : list Effect) :
  let entries := List.filter f (pendingRequests w) in
  Inv issued w effects ->
  timers w' = cancel_timers entries (timers w) ->
  pendingRequests w' = List.filter (fun e => negb (f e)) (pendingRequests w) ->
  next_timer w' = next_timer w ->
  (forall id, settlements id new = settlements id (rejections error entries)) ->
  Inv issued w' (effects ++ new).
Proof.
  cbv zeta. intros HI Ht Hp Hn Hnew.
  set (entries := List.filter f (pendingRequests w)) in *.
  assert (Hsub : forall e, In e entries -> In e (pendingRequests w))
    by (intros e He; apply List.filter_In in He; tauto).
  assert (Hcount : forall id, settlements id new
                              = length (List.filter (fun e => String.eqb (fst e) id) entries))
    by (intros id; rewrite Hnew; apply settlements_rejections).
  apply (Inv_consume (map (fun e => p_timer (snd e)) entries) (map fst entries)
                     issued w); try assumption.
  - intros t. rewrite Ht. apply cancel_timers_lookup.
  - rewrite Hp. apply unique_keys_filter, HI.
  - intros id request Hin. rewrite Hp in Hin. apply List.filter_In in Hin as [Hin Hf].
    split; [exact Hin|]. intros Hr. apply in_map_iff in Hr as ([id' request'] & E & Hin').
    cbn in E. subst id'. pose proof (Hsub _ Hin') as Hin''.
    assert (request' = request)
      by (apply (unique_keys_eq id _ _ (pendingRequests w)); auto; apply HI).
    subst request'. apply List.filter_In in Hin' as [_ Hf']. rewrite Hf' in Hf.
    discriminate.
  - intros t cb Hcb. split.
    + intros Hin. apply in_map_iff in Hin as ([id request] & E & Hin). cbn in E. subst t.
      destruct (inv_entry _ _ _ HI _ _ (Hsub _ Hin)) as (cb' & Hcb' & Hid).
      assert (cb' = cb) by congruence. subst cb'. rewrite Hid.
      apply (in_map fst _ (id, request)). exact Hin.
    + intros Hin. apply in_map_iff in Hin as ([id request] & E & Hin). cbn in E.
      destruct (inv_entry _ _ _ HI _ _ (Hsub _ Hin)) as (cb' & Hcb' & Hid).
      assert (t = p_timer request)
        by (apply (inv_inj _ _ _ HI t (p_timer request) cb cb'); auto; congruence).
      subst t. apply (in_map (fun e => p_timer (snd e)) _ (id, request)). exact Hin.
  - intros id Hin. apply in_map_iff in Hin as ([id' request] & E & Hin). cbn in E.
    subst id'. destruct (inv_entry _ _ _ HI _ _ (Hsub _ Hin)) as (cb & Hcb & Hid). eauto.
  - intros id. rewrite Hcount. apply unique_keys_count.
    apply unique_keys_filter, HI.
  - intros id Hid. rewrite Hcount.
    destruct (List.filter _ entries) as [|e l] eqn:Hf; [reflexivity|].
    exfalso. apply Hid.
    assert (Hin : In e (List.filter (fun e => String.eqb (fst e) id) entries))
      by (rewrite Hf; left; reflexivity).
    apply List.filter_In in Hin as [Hin E]. apply String.eqb_eq in E. rewrite <- E.
    apply in_map. exact Hin.
Qed.

Lemma filter_all {A : Type} (l : list A) : List.filter (fun _ => true) l = l.
Proof. induction l as [|x l IH]; cbn; [|rewrite IH]; reflexivity. Qed.

Lemma filter_none {A : Type} (l : list A) : List.filter (fun _ => false) l = [].
Proof. induction l as [|x l IH]; cbn; [|rewrite IH]; reflexivity. Qed.

Lemma Inv_destroy (issued : list string) (w : World) (effects : list Effect)
    (this : Bridge) :
  Inv issued w effects ->
  Inv issued (state_of (destroy this w)) (effects ++ effects_of (destroy this w)).
Proof.
  intros HI. destruct (isRootBridge this) eqn:Hroot.
  - rewrite (destroy_root_run this w Hroot). simpl_world.
    apply (Inv_consume_entries (fun _ => true) "Bridge destroyed" issued w); auto.
    + cbn [timers]. rewrite filter_all. reflexivity.
    + cbn [pendingRequests]. symmetry. exact (filter_none (pendingRequests w)).
    + intros id. rewrite filter_all, settlements_app.
      rewrite (settle_free id (log_lines _ _)) by apply log_lines_settle_free. lia.
  - rewrite (destroy_channel_run this w Hroot). simpl_world.
    apply (Inv_consume_entries (owned_by (channelName this)) "Channel destroyed"
                               issued w); auto.
    + cbn [pendingRequests]. apply remove_owned, HI.
    + intros id. rewrite settlements_app.
      rewrite (settle_free id (log_lines _ _)) by apply log_lines_settle_free. lia.
Qed.

Section RunFacts.
Variable handler_body : nat -> JsValue -> HandlerOutcome.
Variable listener_throws : nat -> JsValue -> bool.

Lemma handleRequest_settle_free (this : Bridge) (message : Message) (now : Z)
    (w : World) :
  state_of (handleRequest handler_body this message now w) = w
  /\ List.filter is_settle (effects_of (handleRequest handler_body this message now w))
     = [].
Proof.
  rewrite handleRequest_run. simpl_world. split; [reflexivity|].
  destruct (inboundKey this (m_method message) (m_channel message)
              ≫= (fun k => handlers w !! k)) as [handler|].
  - destruct (handler_body handler (m_data message)) as [result|error|];
      [|destruct (error_text error)|]; cbn [List.filter is_settle];
      auto using log_lines_settle_free.
  - cbn [List.filter is_settle]. apply log_lines_settle_free.
Qed.

Lemma Inv_handleMessage (issued : list string) (w : World) (effects : list Effect)
    (this : Bridge) (origin : string) (data : MessageData) (now : Z) :
  Inv issued w effects ->
  Inv issued
      (state_of (handleMessage handler_body listener_throws this origin data now w))
      (effects
       ++ effects_of (handleMessage handler_body listener_throws this origin data now w)).
Proof.
  intros HI.
  destruct (origin_accepted this origin && isValidMessage data) eqn:Hacc.
  - apply andb_true_iff in Hacc as [Ho Hv].
    destruct (isValidMessage_asMessage _ Hv) as (message & Hm & _ & _).
    rewrite (handleMessage_accepted _ _ _ _ _ _ _ _ Ho Hv Hm), bind_log.
    rewrite state_of_mk, effects_of_mk, app_assoc.
    assert (HI' : Inv issued w (effects ++ log_lines this "Message received"))
      by (apply (Inv_neutral issued w); auto using log_lines_settle_free).
    destruct (String.eqb (m_type message) MT.REQUEST).
    { destruct (handleRequest_settle_free this message now w) as [Hs He].
      rewrite Hs. apply (Inv_neutral issued w); auto. }
    destruct (String.eqb (m_type message) MT.RESPONSE
              || String.eqb (m_type message) MT.ERROR).
    { apply Inv_handleResponse. exact HI'. }
    destruct (String.eqb (m_type message) MT.EVENT).
    { destruct (handleEvent_state listener_throws this message w) as [Hs He].
      rewrite Hs. apply (Inv_neutral issued w); auto. }
    cbv [skip mret M_ret]. rewrite state_of_mk, effects_of_mk.
    apply (Inv_neutral issued w); auto.
  - rewrite handleMessage_refused by exact Hacc. simpl_world.
    apply (Inv_neutral issued w); auto.
Qed.

Lemma Inv_step (issued : list string) (w : World) (effects : list Effect)
    (a : Action) :
  (forall id, In id (request_ids [a]) -> ~ In id issued) ->
  Inv issued w effects ->
  Inv (request_ids [a] ++ issued)
      (state_of (step handler_body listener_throws a w))
      (effects ++ effects_of (step handler_body listener_throws a w)).
Proof.
  intros Hfresh HI. destruct a; cbn [step request_ids flat_map app].
  - destruct (then_log_free (request this method data now_id random now) w)
      as [-> ->].
    apply Inv_request; [|exact HI]. apply Hfresh. left. reflexivity.
  - rewrite on_run. simpl_world.
    apply (Inv_neutral issued w); auto using log_lines_settle_free.
  - rewrite emit_run. simpl_world.
    apply (Inv_neutral issued w); auto. cbn. apply log_lines_settle_free.
  - rewrite listen_run. simpl_world.
    apply (Inv_neutral issued w); auto using log_lines_settle_free.
  - rewrite off_run. simpl_world.
    apply (Inv_neutral issued w); auto using log_lines_settle_free.
  - rewrite bind_run, channel_run. cbv [skip mret M_ret].
    rewrite state_of_mk, effects_of_mk, app_nil_r.
    apply (Inv_neutral issued w); auto using log_lines_settle_free.
  - apply Inv_destroy. exact HI.
  - rewrite window_message_run. destruct (messageHandler w).
    + apply Inv_handleMessage. exact HI.
    + simpl_world. apply (Inv_neutral issued w); auto.
  - apply Inv_timer_fires. exact HI.
Qed.
End RunFacts.

Section RunInvariant.
Variable handler_body : nat -> JsValue -> HandlerOutcome.
Variable listener_throws : nat -> JsValue -> bool.

Lemma request_ids_cons (a : Action) (actions : list Action) :
  request_ids (a :: actions) = request_ids [a] ++ request_ids actions.
Proof. unfold request_ids. cbn [flat_map]. rewrite app_nil_r. reflexivity. Qed.

Lemma Inv_run (actions : list Action) :
  forall (issued : list string) (w : World) (effects : list Effect),
    NoDup (request_ids actions) ->
    (forall id, In id (request_ids actions) -> ~ In id issued) ->
    Inv issued w effects ->
    exists issued',
      Inv issued' (state_of (run handler_body listener_throws actions w))
          (effects ++ effects_of (run handler_body listener_throws actions w)).
Proof.
  induction actions as [|a actions IH]; intros issued w effects Hnd Hfresh HI.
  - exists issued. cbv [run for_each skip mret M_ret].
    rewrite state_of_mk, effects_of_mk, app_nil_r. exact HI.
  - rewrite request_ids_cons in Hnd, Hfresh.
    apply NoDup_app in Hnd as (Hnd1 & Hdisj & Hnd2).
    unfold run. cbn [for_each]. rewrite bind_run.
    pose proof (Inv_step handler_body listener_throws issued w effects a) as Hstep.
    destruct (step handler_body listener_throws a w) as [[[] w1] e1].
    rewrite state_of_mk, effects_of_mk in Hstep.
    destruct (IH (request_ids [a] ++ issued) w1 (effects ++ e1)) as [issued' HI'].
    + exact Hnd2.
    + intros id Hid Hin. apply in_app_or in Hin as [Hin|Hin].
      * apply (Hdisj id); apply list_elem_of_In; assumption.
      * apply (Hfresh id); [apply in_or_app; right; exact Hid|exact Hin].
    + apply Hstep; [|exact HI].
      intros id Hid. apply Hfresh. apply in_or_app. left. exact Hid.
    + exists issued'. fold (run handler_body listener_throws actions w1).
      destruct (run handler_body listener_throws actions w1) as [[[] w2] e2].
      rewrite state_of_mk, effects_of_mk in *. rewrite app_assoc. exact HI'.
Qed.
End RunInvariant.

Lemma Inv_initial (root : Bridge) : Inv [] (mkWorld root ∅ ∅ [] true ∅ 0 0) [].
Proof.
  constructor; cbn.
  - apply NoDup_nil_2.
  - intros id request [].
  - intros t cb Hcb. rewrite lookup_empty in Hcb. discriminate.
  - intros t t' cb cb' Hcb. rewrite lookup_empty in Hcb. discriminate.
  - intros id. lia.
  - reflexivity.
  - intros t _. apply lookup_empty.
Qed.
(** ** Properties *)

Section Properties.

Variable handler_body : nat -> JsValue -> HandlerOutcome.
Variable listener_throws : nat -> JsValue -> bool.

(** *** Construction *)

(** C9: the constructor applies its defaults by truthiness.  An empty
    [targetOrigin] gives the same instance as the wildcard: every sender
    origin passes the inbound filter, the dispatcher treats two senders
    alike, and messages are posted with the wildcard.  A [timeout] of 0
    gives the same instance as an absent one, with 30000 as the delay of
    the timer that [request] starts.  [debug: false] gives the same
    instance as an absent [debug]. *)
Theorem constructor_defaults_by_truthiness
    (target : nat) (origin : option string) (ms : option JsNum)
    (dbg : option bool) (name : option string) :
  let empty_origin := constructor_root target (mkOptions (Some "") ms dbg) name in
  let zero_timeout := constructor_root target (mkOptions origin (Some (Num 0)) dbg) name in
  empty_origin = constructor_root target (mkOptions (Some "*") ms dbg) name
  /\ empty_origin = constructor_root target (mkOptions None ms dbg) name
  /\ (forall sender, origin_accepted (value_of empty_origin) sender = true)
  /\ (forall sender sender' data now w,
        handleMessage handler_body listener_throws (value_of empty_origin)
                      sender data now w
        = handleMessage handler_body listener_throws (value_of empty_origin)
                        sender' data now w)
  /\ (forall message w,
        postMessage (value_of empty_origin) message w
        = (tt, w, [PostMessage target message "*"]))
  /\ zero_timeout = constructor_root target (mkOptions origin None dbg) name
  /\ timeout (value_of zero_timeout) = Num 30000
  /\ (forall method data t r t' w,
        timers (state_of (request (value_of zero_timeout) method data t r t' w))
          !! next_timer w
        = Some (mkTimer (generateId t r) method (next_promise w) (Num 30000)))
  /\ constructor_root target (mkOptions origin ms (Some false)) name
     = constructor_root target (mkOptions origin ms None) name.
Proof.
  cbv zeta. rewrite !constructor_root_run. cbv [value_of fst].
  repeat split; try reflexivity.
  intros method data t r t' w. rewrite request_run.
  cbn. apply lookup_insert_eq.
Qed.

(** *** Event listeners *)


(** *** Replies *)

(** C8: a Response or Error whose identifier is pending under another
    channel is dropped: the state is unchanged (the entry stays, its timer
    stays) and nothing happens except the debug line; a reply whose
    identifier is not pending changes nothing and has no effect at all. *)
Theorem handleResponse_mismatch_or_unknown
    (this : Bridge) (message : Message) (w : World) :
  (forall pending,
      JsMap.get (m_id message) (pendingRequests w) = Some pending ->
      p_channel pending <> m_channel message ->
      handleResponse this message w
      = (tt, w, log_lines this "Response channel mismatch")
      /\ observable (effects_of (handleResponse this message w)) = []
      /\ JsMap.get (m_id message)
           (pendingRequests (state_of (handleResponse this message w)))
         = Some pending
      /\ timers (state_of (handleResponse this message w)) = timers w)
  /\ (JsMap.get (m_id message) (pendingRequests w) = None ->
      handleResponse this message w = (tt, w, [])).
Proof.
  split.
  - intros pending Hget Hne.
    assert (E : handleResponse this message w
                = (tt, w, log_lines this "Response channel mismatch")).
    { unfold handleResponse. rewrite bind_run. cbv [get_world]. rewrite Hget.
      destruct (opt_string_eqb (p_channel pending) (m_channel message)) eqn:E.
      - apply opt_string_eqb_eq in E. contradiction.
      - cbn [negb]. rewrite log_run. reflexivity. }
    rewrite E. cbv [effects_of state_of fst snd].
    repeat split; auto. apply log_lines_are_logs.
  - intros Hnone. unfold handleResponse. rewrite bind_run. cbv [get_world].
    rewrite Hnone. reflexivity.
Qed.

(** *** Inbound requests *)

(** C2 (amended): an accepted, valid Request envelope is answered with at
    most one message, and with exactly one in each of these cases.  Without
    a handler under the qualified method name the reply is an Error whose
    text ends with the requested method; a handler that returns is called
    once and the reply is a Response carrying its result; a handler that
    throws or rejects with an [Error] is called once and the reply is an
    Error carrying the message of that [Error], and one that throws any
    other value that converts to a string is answered with an Error carrying
    that string.  While a handler's promise stays unsettled nothing is
    posted.  A reply reuses the identifier and the channel of the request,
    and in each of these cases the dispatcher does nothing but call the
    handler and post the reply. *)
Theorem settled_request_gets_one_reply
    (this : Bridge) (origin : string) (data : MessageData) (message : Message)
    (now : Z) (w : World) :
  origin_accepted this origin = true ->
  isValidMessage data = true ->
  asMessage data = Some message ->
  m_type message = MT.REQUEST ->
  let run := handleMessage handler_body listener_throws this origin data now w in
  let reply m := PostMessage (target this) m (targetOrigin this) in
  let found := inboundKey this (m_method message) (m_channel message)
                 ≫= (fun k => handlers w !! k) in
  length (posted (effects_of run)) <= 1
  /\ (found = None ->
      observable (effects_of run)
      = [reply (error_to message
                  ("No handler for method: " +:+ template (m_method message)) now)])
  /\ (forall handler result,
        found = Some handler ->
        handler_body handler (m_data message) = Returned result ->
        observable (effects_of run)
        = [CallHandler handler (m_data message);
           reply (response_to message result now)])
  /\ (forall handler text,
        found = Some handler ->
        handler_body handler (m_data message) = Raised (ErrorObject text) ->
        observable (effects_of run)
        = [CallHandler handler (m_data message);
           reply (error_to message text now)])
  /\ (forall handler text,
        found = Some handler ->
        handler_body handler (m_data message) = Raised (ThrownValue (Some text)) ->
        observable (effects_of run)
        = [CallHandler handler (m_data message);
           reply (error_to message text now)])
  /\ (forall handler,
        found = Some handler ->
        handler_body handler (m_data message) = Unsettled ->
        observable (effects_of run) = [CallHandler handler (m_data message)]).
Proof.
  intros Ho Hv Hm Hty. cbv zeta.
  rewrite (handleMessage_accepted _ _ _ _ _ _ _ _ Ho Hv Hm), Hty.
  change (String.eqb MT.REQUEST MT.REQUEST) with true. cbv iota.
  rewrite bind_log, handleRequest_run. cbv [state_of effects_of value_of fst snd].
  rewrite observable_app, observable_log_lines, posted_append, posted_log_lines.
  cbn [app].
  destruct (inboundKey this (m_method message) (m_channel message)
              ≫= (fun k => handlers w !! k)) as [handler|].
  - split.
    { destruct (handler_body handler (m_data message)) as [result|error|];
        [|destruct (error_text error)|]; cbn [posted];
        rewrite ?posted_log_lines; cbn [length]; lia. }
    split; [discriminate|].
    repeat split; intros h; intros; simplify_eq;
      match goal with H : handler_body _ _ = _ |- _ => rewrite H end;
      cbn [error_text observable List.filter is_log negb];
      fold (observable (log_lines this "Response sent"));
      fold (observable (log_lines this "Error sent"));
      rewrite ?observable_log_lines; reflexivity.
  - split.
    { cbn [posted]. rewrite posted_log_lines. cbn [length]. lia. }
    split.
    { intros _. cbn [observable List.filter is_log negb].
      fold (observable (log_lines this "Error sent")).
      rewrite observable_log_lines. reflexivity. }
    repeat split; intros; discriminate.
Qed.

(** *** The inbound filter *)

(** C4 (amended): the dispatcher hands a raw message to one of its three
    handlers exactly when the sender's origin is accepted (the configured
    origin is the wildcard or equals it) and the envelope carries the
    protocol marker, a string identifier (the empty string included), one
    of the four kinds and a number as timestamp.  Any other message leaves
    the state unchanged and causes nothing but, at most, a debug line. *)
Theorem handleMessage_routes_or_discards
    (this : Bridge) (origin : string) (data : MessageData) (now : Z) (w : World) :
  let run := handleMessage handler_body listener_throws this origin data now w in
  (origin_accepted this origin && routable data = true ->
   exists message,
     asMessage data = Some message
     /\ ((m_type message = MT.REQUEST
          /\ run = (log this "Message received";;
                    handleRequest handler_body this message now) w)
         \/ ((m_type message = MT.RESPONSE \/ m_type message = MT.ERROR)
             /\ run = (log this "Message received";;
                       handleResponse this message) w)
         \/ (m_type message = MT.EVENT
             /\ run = (log this "Message received";;
                       handleEvent listener_throws this message) w)))
  /\ (origin_accepted this origin && routable data = false ->
      state_of run = w /\ observable (effects_of run) = []).
Proof.
  cbv zeta. split.
  - intros H. apply andb_true_iff in H as [Ho Hr].
    apply routable_iff in Hr as [Hv (message & Hm & Hk)].
    exists message. split; [exact Hm|].
    rewrite (handleMessage_accepted _ _ _ _ _ _ _ _ Ho Hv Hm).
    unfold recognized_kind in Hk.
    destruct (String.eqb (m_type message) MT.REQUEST) eqn:E1.
    { left. apply String.eqb_eq in E1. auto. }
    destruct (String.eqb (m_type message) MT.RESPONSE) eqn:E2.
    { right. left. apply String.eqb_eq in E2. auto. }
    destruct (String.eqb (m_type message) MT.ERROR) eqn:E3.
    { right. left. apply String.eqb_eq in E3. auto. }
    destruct (String.eqb (m_type message) MT.EVENT) eqn:E4.
    { right. right. apply String.eqb_eq in E4. auto. }
    discriminate.
  - intros H.
    destruct (origin_accepted this origin && isValidMessage data) eqn:Hacc.
    + apply andb_true_iff in Hacc as [Ho Hv]. rewrite Ho in H. cbn in H.
      destruct (isValidMessage_asMessage _ Hv) as (message & Hm & _ & _).
      rewrite (handleMessage_accepted _ _ _ _ _ _ _ _ Ho Hv Hm).
      assert (Hk : recognized_kind (m_type message) = false).
      { destruct (recognized_kind (m_type message)) eqn:Hk; [|reflexivity].
        rewrite <- H. symmetry. apply routable_iff. eauto. }
      unfold recognized_kind in Hk. rewrite !orb_false_iff in Hk.
      destruct Hk as [[[-> ->] ->] ->]. cbn [orb].
      rewrite bind_log. cbv [state_of effects_of fst snd skip mret M_ret].
      split; [reflexivity|]. rewrite app_nil_r. apply observable_log_lines.
    + rewrite handleMessage_refused by exact Hacc. split; reflexivity.
Qed.

(** *** Channels *)

(** C5: let [a] and [b] be distinct non-empty channel names.  A handler
    registered for method [m] through an instance of channel [a] is stored
    under the key [a:m]; a request for [m] sent through an instance of
    channel [b] carries channel [b] and is looked up under [b:m].  The two
    keys differ, so the registration leaves the looked-up entry as it was,
    the peer handles the request exactly as it would without the
    registration, and it does not call the handler unless the handler is
    also the one registered under [b:m].  The statement is symmetric in
    [a] and [b]. *)
Theorem channels_do_not_share_handlers
    (a b m : string) (this_a this_b root : Bridge) (h : nat) (w w_b : World)
    (p : JsValue) (t : Z) (r : string) (t' now : Z) :
  a <> b -> a <> "" -> b <> "" ->
  channelName this_a = Some a ->
  channelName this_b = Some b ->
  let registered := getHandlerKey this_a m None in
  let sent :=
    mkMessage PROTOCOL_ID (generateId t r) MT.REQUEST (Some m) (Some b) p None
              (Num t') in
  let looked_up := getHandlerKey root m (m_channel sent) in
  let after := state_of (on this_a m h w) in
  posted (effects_of (request this_b m p t r t' w_b)) = [sent]
  /\ inboundKey root (m_method sent) (m_channel sent) = Some looked_up
  /\ registered = a +:+ ":" +:+ m
  /\ looked_up = b +:+ ":" +:+ m
  /\ registered <> looked_up
  /\ handlers after !! looked_up = handlers w !! looked_up
  /\ effects_of (handleRequest handler_body root sent now after)
     = effects_of (handleRequest handler_body root sent now w)
  /\ (handlers w !! looked_up <> Some h ->
      forall d, ~ In (CallHandler h d)
                     (effects_of (handleRequest handler_body root sent now after))).
Proof using handler_body.
  clear listener_throws.
  intros Hab Ha Hb Hca Hcb. cbv zeta. cbn [m_channel m_method].
  assert (Hreg : getHandlerKey this_a m None = a +:+ ":" +:+ m).
  { rewrite getHandlerKey_own, Hca.
    apply truthy_str_true in Ha. rewrite Ha. reflexivity. }
  assert (Hlook : getHandlerKey root m (Some b) = b +:+ ":" +:+ m)
    by (apply getHandlerKey_named; exact Hb).
  assert (Hne : getHandlerKey this_a m None <> getHandlerKey root m (Some b)).
  { rewrite Hreg, Hlook. intros E. apply Hab.
    apply (string_app_cancel_r a b (":" +:+ m)). exact E. }
  assert (Hsame : handlers (state_of (on this_a m h w)) !! getHandlerKey root m (Some b)
                  = handlers w !! getHandlerKey root m (Some b)).
  { rewrite on_run. simpl_world. apply lookup_insert_ne. exact Hne. }
  assert (Heff : effects_of (handleRequest handler_body root
                    (mkMessage PROTOCOL_ID (generateId t r) MT.REQUEST (Some m) (Some b)
                               p None (Num t')) now (state_of (on this_a m h w)))
                 = effects_of (handleRequest handler_body root
                    (mkMessage PROTOCOL_ID (generateId t r) MT.REQUEST (Some m) (Some b)
                               p None (Num t')) now w)).
  { rewrite !handleRequest_run. cbv [effects_of snd]. cbn [inboundKey m_method m_channel].
    cbn [mbind option_bind]. rewrite Hsame. reflexivity. }
  repeat split; auto.
  - rewrite request_run, Hcb. cbv [effects_of snd]. cbn [posted].
    rewrite posted_log_lines. reflexivity.
  - intros Hother d. rewrite Heff, handleRequest_run. cbv [effects_of snd].
    cbn [inboundKey m_method m_channel]. cbn [mbind option_bind].
    destruct (handlers w !! getHandlerKey root m (Some b)) as [h'|] eqn:Hh'.
    + assert (h' <> h) by congruence.
      cbn [m_data]. intros [E|Hin]; [congruence|].
      destruct (handler_body h' p) as [result|error|];
        [|destruct (error_text error)|]; cbn in Hin.
      * destruct Hin as [E|Hin]; [discriminate|].
        unfold log_lines, log in Hin. destruct (debug root); cbn in Hin;
          intuition discriminate.
      * destruct Hin as [E|Hin]; [discriminate|].
        unfold log_lines, log in Hin. destruct (debug root); cbn in Hin;
          intuition discriminate.
      * intuition discriminate.
      * exact Hin.
    + intros [E|Hin]; [discriminate|].
      unfold log_lines, log in Hin. destruct (debug root); cbn in Hin;
        intuition discriminate.
Qed.

(** *** Teardown *)

(** C6 (amended): [destroy] on a root instance rejects every pending
    request, whatever its channel, with "Bridge destroyed", in the order in
    which the requests were made, cancels their timers, empties the three
    registries and unsubscribes from the window.  [destroy] on a derived
    instance rejects exactly the pending requests recorded under its
    channel name with "Channel destroyed", cancels their timers and removes
    them; it removes exactly the handler and listener keys that start with
    the channel name followed by a colon, among them every key registered
    through the instance itself when its name is not empty; every other
    pending request, every timer of another request and every key without
    that prefix is left as it was. *)
Theorem destroy_scope (this : Bridge) (w : World) :
  unique_keys (pendingRequests w) ->
  let after := state_of (destroy this w) in
  let effects := observable (effects_of (destroy this w)) in
  (isRootBridge this = true ->
   effects = rejections "Bridge destroyed" (pendingRequests w)
   /\ pendingRequests after = []
   /\ handlers after = ∅
   /\ eventHandlers after = ∅
   /\ messageHandler after = false
   /\ (forall id request,
         In (id, request) (pendingRequests w) ->
         timers after !! p_timer request = None))
  /\ (isRootBridge this = false ->
      let channelPrefix := template (channelName this) +:+ ":" in
      let owned := List.filter (owned_by (channelName this)) (pendingRequests w) in
      effects = rejections "Channel destroyed" owned
      /\ pendingRequests after
         = List.filter (fun entry => negb (owned_by (channelName this) entry))
                       (pendingRequests w)
      /\ (forall key,
            handlers after !! key
            = if String.prefix channelPrefix key then None else handlers w !! key)
      /\ (forall key,
            eventHandlers after !! key
            = if String.prefix channelPrefix key then None
              else eventHandlers w !! key)
      /\ (forall id request,
            In (id, request) owned -> timers after !! p_timer request = None)
      /\ (forall timer,
            (forall id request, In (id, request) owned -> p_timer request <> timer) ->
            timers after !! timer = timers w !! timer)
      /\ messageHandler after = messageHandler w
      /\ (forall c method,
            channelName this = Some c -> c <> "" ->
            handlers after !! getHandlerKey this method None = None
            /\ eventHandlers after !! getHandlerKey this method None = None)).
Proof.
  intros Hkeys. cbv zeta. split; intros Hroot.
  - rewrite destroy_root_run by exact Hroot. simpl_world.
    rewrite observable_app, observable_log_lines, app_nil_r.
    repeat split.
    + apply observable_rejections.
    + intros id request Hin. rewrite cancel_timers_lookup.
      rewrite bool_decide_eq_true_2; [reflexivity|].
      apply list_elem_of_In.
      apply (in_map (fun entry => p_timer (snd entry)) _ (id, request)). exact Hin.
  - rewrite destroy_channel_run by exact Hroot. simpl_world.
    rewrite observable_app, observable_log_lines, app_nil_r.
    repeat split.
    + apply observable_rejections.
    + apply remove_owned. exact Hkeys.
    + intros key. apply delete_matching_own_keys.
    + intros key. apply delete_matching_own_keys.
    + intros id request Hin. rewrite cancel_timers_lookup.
      rewrite bool_decide_eq_true_2; [reflexivity|].
      apply list_elem_of_In.
      apply (in_map (fun entry => p_timer (snd entry)) _ (id, request)). exact Hin.
    + intros timer Hfree. rewrite cancel_timers_lookup.
      rewrite bool_decide_eq_false_2; [reflexivity|].
      intros Hin. apply list_elem_of_In, in_map_iff in Hin as ([id request] & E & Hin).
      apply (Hfree id request Hin). exact E.
    + rewrite delete_matching_own_keys, (own_key_has_prefix this c method) by assumption.
      reflexivity.
    + rewrite delete_matching_own_keys, (own_key_has_prefix this c method) by assumption.
      reflexivity.
Qed.

(** C10 (amended): a channel named by the empty string uses the bare
    method or event name as its registry key, like a root instance without
    a channel name: [on], [listen] and [off] through it change the state
    exactly as the same call on such a root does, [on] overwrites the
    handler stored under the bare name, and a request sent through it is
    looked up by the peer under the bare name.  Its [destroy] removes
    exactly the handler and listener keys that start with a colon (its own
    registrations under names that do not start with a colon stay), and
    rejects and removes the pending requests recorded under the empty
    channel name. *)
Theorem empty_channel_is_root_namespace
    (parent root : Bridge) (w0 w : World) (m : string) :
  channelName root = None ->
  unique_keys (pendingRequests w) ->
  let this := value_of (channel parent "" w0) in
  let channelPrefix := ":" in
  let owned := List.filter (owned_by (Some "")) (pendingRequests w) in
  let after := state_of (destroy this w) in
  channelName this = Some ""
  /\ isRootBridge this = false
  /\ getHandlerKey this m None = m
  /\ getHandlerKey root m None = m
  /\ (forall h,
        state_of (on this m h w) = state_of (on root m h w)
        /\ handlers (state_of (on this m h w)) !! m = Some h)
  /\ (forall l, state_of (listen this m l w) = state_of (listen root m l w))
  /\ (forall l, state_of (off this m l w) = state_of (off root m l w))
  /\ (forall p t r t' peer,
        posted (effects_of (request this m p t r t' w))
        = [mkMessage PROTOCOL_ID (generateId t r) MT.REQUEST (Some m) (Some "") p None
                     (Num t')]
        /\ inboundKey peer (Some m) (Some "") = Some m)
  /\ (forall key,
        handlers after !! key
        = if String.prefix channelPrefix key then None else handlers w !! key)
  /\ (forall key,
        eventHandlers after !! key
        = if String.prefix channelPrefix key then None else eventHandlers w !! key)
  /\ observable (effects_of (destroy this w)) = rejections "Channel destroyed" owned
  /\ pendingRequests after
     = List.filter (fun entry => negb (owned_by (Some "") entry)) (pendingRequests w).
Proof.
  intros Hroot Hkeys. cbv zeta.
  assert (Hthis : value_of (channel parent "" w0)
                  = mkBridge (target parent)
                      (or_else truthy_str (Some (targetOrigin parent)) "*")
                      (or_else truthy_num (Some (timeout parent)) (Num 30000))
                      (or_else (fun b : bool => b) (Some (debug parent)) false)
                      (Some "") false).
  { rewrite channel_run. reflexivity. }
  rewrite Hthis. set (this := mkBridge _ _ _ _ _ _).
  assert (Hk : forall e, getHandlerKey this e None = e) by reflexivity.
  assert (Hk' : forall e, getHandlerKey root e None = e).
  { intros e. rewrite getHandlerKey_own, Hroot. reflexivity. }
  assert (Hd : destroy this w
               = (tt,
                  mkWorld (rootBridge w)
                    (delete_matching ":" (keys_of (handlers w)) (handlers w))
                    (delete_matching ":" (keys_of (eventHandlers w)) (eventHandlers w))
                    (remove_ids (List.filter (owned_by (Some "")) (pendingRequests w))
                                (pendingRequests w))
                    (messageHandler w)
                    (cancel_timers (List.filter (owned_by (Some "")) (pendingRequests w))
                                   (timers w))
                    (next_timer w) (next_promise w),
                  rejections "Channel destroyed"
                    (List.filter (owned_by (Some "")) (pendingRequests w))
                  ++ log_lines this "Bridge destroyed (channel)"))
    by (apply destroy_channel_run; reflexivity).
  rewrite Hd. simpl_world.
  repeat split; auto.
  - rewrite !on_run, Hk, Hk'. reflexivity.
  - rewrite on_run, Hk. simpl_world. apply lookup_insert_eq.
  - intros l. rewrite !listen_run, Hk, Hk'. reflexivity.
  - intros l. rewrite !off_run, Hk, Hk'. reflexivity.
  - rewrite request_run. cbv [effects_of snd]. cbn [posted].
    rewrite posted_log_lines. reflexivity.
  - intros key. apply delete_matching_own_keys.
  - intros key. apply delete_matching_own_keys.
  - rewrite observable_app, observable_log_lines, app_nil_r.
    apply observable_rejections.
  - apply remove_owned. exact Hkeys.
Qed.

(** *** Round trip *)

(** C1: a handler [h] is registered for method [m] through an instance on
    one side; an instance of the same channel on the other side calls
    [request(m, p)].  When the request reaches the first side it calls [h]
    on [p] and, [h] returning [result], posts one Response that carries
    [result] under the identifier of the request.  When that Response
    reaches the requesting side while the request is still pending (its
    timer has not elapsed and its scope was not destroyed), the promise
    returned by [request] is resolved with exactly [result], the pending
    entry is removed and the timer is cancelled. *)
Theorem request_resolves_with_handler_result
    (responder requester : Bridge) (w_resp w_req w_req' : World)
    (origin_req origin_resp : string) (m : string) (p : JsValue) (h : nat)
    (result : JsValue) (t : Z) (r : string) (t' now now' : Z) :
  channelName responder = channelName requester ->
  channelName (rootBridge w_resp) = None ->
  messageHandler w_resp = true ->
  origin_accepted (rootBridge w_resp) origin_req = true ->
  handler_body h p = Returned result ->
  messageHandler w_req' = true ->
  origin_accepted (rootBridge w_req') origin_resp = true ->
  JsMap.get (generateId t r) (pendingRequests w_req')
    = JsMap.get (generateId t r)
                (pendingRequests (state_of (request requester m p t r t' w_req))) ->
  let call := request requester m p t r t' w_req in
  let registered := state_of (on responder m h w_resp) in
  let sent :=
    mkMessage PROTOCOL_ID (generateId t r) MT.REQUEST (Some m) (channelName requester)
              p None (Num t') in
  let reply := response_to sent result now in
  let final := window_message handler_body listener_throws
                 origin_resp (toWire reply) now' w_req' in
  posted (effects_of call) = [sent]
  /\ observable (effects_of (window_message handler_body listener_throws
                               origin_req (toWire sent) now registered))
     = [CallHandler h p;
        PostMessage (target (rootBridge w_resp)) reply
                    (targetOrigin (rootBridge w_resp))]
  /\ m_id reply = m_id sent
  /\ m_data reply = result
  /\ observable (effects_of final) = [Resolve (generateId t r) (value_of call) result]
  /\ JsMap.get (generateId t r) (pendingRequests (state_of final)) = None
  /\ timers (state_of final) !! next_timer w_req = None.
Proof.
  intros Hch Hroot Hlisten Horigin Hbody Hlisten' Horigin' Hpending. cbv zeta.
  rewrite request_run in *. simpl_world. cbv [state_of fst snd] in Hpending.
  cbn [pendingRequests] in Hpending.
  rewrite JsMapFacts.get_set_eq in Hpending.
  set (sent := mkMessage PROTOCOL_ID (generateId t r) MT.REQUEST (Some m)
                         (channelName requester) p None (Num t')).
  split; [cbn [posted]; rewrite posted_log_lines; reflexivity|].
  assert (Hkey : inboundKey (rootBridge w_resp) (m_method sent) (m_channel sent)
                 = Some (getHandlerKey responder m None)).
  { cbn [sent m_method m_channel inboundKey]. f_equal.
    unfold getHandlerKey. rewrite <- Hch, Hroot.
    destruct (channelName responder); reflexivity. }
  split; [|split; [reflexivity|split; [reflexivity|]]].
  - rewrite window_message_run, on_run. simpl_world. rewrite Hlisten.
    rewrite (handleMessage_accepted _ _ _ _ _ sent) by
      (auto using asMessage_toWire; rewrite isValidMessage_toWire; reflexivity).
    change (String.eqb (m_type sent) MT.REQUEST) with true. cbv iota.
    rewrite bind_log, handleRequest_run. simpl_world.
    rewrite Hkey. cbn [mbind option_bind]. rewrite lookup_insert_eq.
    cbn [sent m_data]. rewrite Hbody.
    rewrite observable_app, observable_log_lines. cbn [app].
    cbn [observable List.filter is_log negb].
    fold (observable (log_lines (rootBridge w_resp) "Response sent")).
    rewrite observable_log_lines. reflexivity.
  - rewrite window_message_run, Hlisten'.
    rewrite (handleMessage_accepted _ _ _ _ _ (response_to sent result now)) by
      (auto using asMessage_toWire; rewrite isValidMessage_toWire; reflexivity).
    change (String.eqb (m_type (response_to sent result now)) MT.REQUEST) with false.
    change (String.eqb (m_type (response_to sent result now)) MT.RESPONSE) with true.
    cbv iota. cbn [orb].
    rewrite bind_log.
    rewrite (handleResponse_settles (rootBridge w_req') (response_to sent result now)
               (mkPending (next_promise w_req) (next_timer w_req)
                          (channelName requester)) w_req' Hpending)
      by reflexivity.
    simpl_world. rewrite observable_app, observable_log_lines. cbn [app].
    repeat split.
    + apply JsMapFacts.get_delete_eq.
    + apply lookup_delete_eq.
Qed.

(** *** Timeouts *)

(** C3: [request] arms a timer with the configured timeout.  When the
    timer elapses while it is still armed (no reply has consumed the
    request, no teardown has cancelled it), the promise of the request is
    rejected with the text "Request timeout: " followed by the method, and
    the pending entry is removed in the same step; afterwards a Response
    or Error that carries the identifier changes nothing and has no
    effect, and the timer cannot fire again.  In every run of a bridge, in
    which the generated identifiers are pairwise distinct, each identifier
    is settled (resolved, or rejected by an Error reply, a timeout or a
    teardown) at most once. *)
Theorem timeout_and_single_settlement
    (this : Bridge) (method : string) (data : JsValue) (t : Z) (r : string) (t' : Z)
    (w : World) (target : nat) (options : BridgeOptions) (name : option string)
    (actions : list Action) :
  NoDup (request_ids actions) ->
  let call := request this method data t r t' w in
  let id := generateId t r in
  let timer := next_timer w in
  let armed := mkTimer id method (value_of call) (timeout this) in
  timers (state_of call) !! timer = Some armed
  /\ JsMap.get id (pendingRequests (state_of call))
     = Some (mkPending (value_of call) timer (channelName this))
  /\ (forall later,
        timers later !! timer = Some armed ->
        let fired := timer_fires timer later in
        effects_of fired
        = [Reject id (value_of call) ("Request timeout: " +:+ method)]
        /\ JsMap.get id (pendingRequests (state_of fired)) = None
        /\ timers (state_of fired) !! timer = None
        /\ (forall root reply,
              m_id reply = id ->
              handleResponse root reply (state_of fired) = (tt, state_of fired, []))
        /\ timer_fires timer (state_of fired) = (tt, state_of fired, []))
  /\ (forall i,
        settlements i
          (effects_of (run handler_body listener_throws actions
                           (state_of (constructor_root target options name))))
        <= 1).
Proof.
  intros Hnd. cbv zeta. rewrite request_run. rewrite state_of_mk.
  cbv [value_of fst]. cbn [timers pendingRequests].
  split; [apply lookup_insert_eq|].
  split; [apply JsMapFacts.get_set_eq|].
  split.
  - intros later Harmed. rewrite (timer_fires_run _ _ _ Harmed).
    rewrite state_of_mk, effects_of_mk. cbn [t_id t_promise t_method].
    assert (Hgone : JsMap.get (generateId t r)
                      (JsMap.delete (generateId t r) (pendingRequests later)) = None)
      by apply JsMapFacts.get_delete_eq.
    repeat split.
    + exact Hgone.
    + cbn [timers]. apply lookup_delete_eq.
    + intros root reply Hid. unfold handleResponse. rewrite bind_run.
      cbv [get_world]. cbn [pendingRequests]. rewrite Hid, Hgone. reflexivity.
    + apply timer_fires_inactive. cbn [timers]. apply lookup_delete_eq.
  - intros i. rewrite constructor_root_run. rewrite state_of_mk.
    destruct (Inv_run handler_body listener_throws actions []
                      (mkWorld (init_fields target options name false) ∅ ∅ [] true ∅ 0 0)
                      [] Hnd) as [issued' HI].
    + intros id _ [].
    + apply Inv_initial.
    + cbn [app] in HI. apply (inv_once _ _ _ HI).
Qed.

End Properties.

(** ** Examples *)

Ltac distinct_strings :=
  vm_compute;
  repeat (apply NoDup_cons_2; [rewrite list_elem_of_In; cbn; intuition discriminate|]);
  apply NoDup_nil_2.

Example busy_state :
  pendingRequests Sample.busy
  = [("3-bb", mkPending 0 0 None);
     ("5-aa", mkPending 1 1 (Some "a"));
     ("7-cc", mkPending 2 2 (Some ""))]
  /\ handlers Sample.busy !! "a:save" = Some 1
  /\ eventHandlers Sample.busy !! "tick" = Some [5; 6].
Proof. vm_compute. repeat split. Qed.

Example timeline_settlements :
  List.filter is_settle
    (effects_of (run Sample.handler_body Sample.listener_throws Sample.timeline
                     (state_of (constructor_root 1 Sample.host_options None))))
  = [Reject "3-bb" 0 "Request timeout: load";
     Reject "5-aa" 1 "Bridge destroyed";
     Reject "7-cc" 2 "Bridge destroyed"].
Proof. vm_compute. reflexivity. Qed.

(** The round trip of C1 on the scenario of the specification: the host
    answers [ping] with [{n: 2}] and the promise of the frame resolves to
    it. *)
Lemma request_resolves_with_handler_result_witness :
  Sample.handler_body 0 (m_data Sample.ping) = Returned Sample.pong
  /\ observable
       (effects_of
          (window_message Sample.handler_body Sample.listener_throws "https://b.test"
             (toWire (response_to Sample.ping Sample.pong 19)) 20 Sample.asked))
     = [Resolve "17-abc" 0 Sample.pong].
Proof.
  split; [reflexivity|].
  apply (request_resolves_with_handler_result
           Sample.handler_body Sample.listener_throws
           Sample.host Sample.frame (Sample.fresh Sample.host) (Sample.fresh Sample.frame)
           Sample.asked "https://a.test" "https://b.test" "ping"
           (VObj [("n", VNum (Num 1))]) 0 Sample.pong 17 "abc" 18 19 20);
    reflexivity.
Defined.

(** C2 as stated fails: a valid Request from an accepted origin whose
    handler returns a promise that never settles is answered with nothing;
    the handler is called and no message is posted. *)
Lemma unsettled_request_gets_no_reply :
  spec_valid (toWire Sample2.hanging) = true
  /\ isValidMessage (toWire Sample2.hanging) = true
  /\ origin_accepted Sample.frame "https://a.test" = true
  /\ handlers Sample2.listening !! "hang" = Some 3
  /\ Sample.handler_body 3 (m_data Sample2.hanging) = Unsettled
  /\ observable
       (effects_of
          (handleMessage Sample.handler_body Sample.listener_throws Sample.frame
             "https://a.test" (toWire Sample2.hanging) 23 Sample2.listening))
     = [CallHandler 3 VNull]
  /\ posted
       (effects_of
          (handleMessage Sample.handler_body Sample.listener_throws Sample.frame
             "https://a.test" (toWire Sample2.hanging) 23 Sample2.listening))
     = [].
Proof. vm_compute. repeat split. Qed.

(** C2 (amended) on the request of C1: one Response, to the sender, with
    the result. *)
Lemma settled_request_gets_one_reply_witness :
  isValidMessage (toWire Sample.ping) = true
  /\ observable
       (effects_of
          (handleMessage Sample.handler_body Sample.listener_throws Sample.host
             "https://a.test" (toWire Sample.ping) 19
             (state_of (on Sample.host "ping" 0 (Sample.fresh Sample.host)))))
     = [CallHandler 0 (m_data Sample.ping);
        PostMessage 1 (response_to Sample.ping Sample.pong 19) "https://a.test"].
Proof.
  split; [reflexivity|].
  refine (let H := settled_request_gets_one_reply
                     Sample.handler_body Sample.listener_throws Sample.host
                     "https://a.test" (toWire Sample.ping) Sample.ping 19
                     (state_of (on Sample.host "ping" 0 (Sample.fresh Sample.host)))
                     eq_refl eq_refl eq_refl eq_refl in _).
  exact (proj1 (proj2 (proj2 H)) 0 Sample.pong eq_refl eq_refl).
Defined.

(** C3 on the timeline: its identifiers are distinct, and the identifier that
    timed out is settled once although a Response and a teardown follow. *)
Lemma timeout_and_single_settlement_witness :
  NoDup (request_ids Sample.timeline)
  /\ settlements "3-bb"
       (effects_of (run Sample.handler_body Sample.listener_throws Sample.timeline
                        (state_of (constructor_root 1 Sample.host_options None))))
     <= 1.
Proof.
  assert (Hnd : NoDup (request_ids Sample.timeline)).
  { distinct_strings. }
  split; [exact Hnd|].
  apply (timeout_and_single_settlement
           Sample.handler_body Sample.listener_throws Sample.host "load" VNull 3 "bb" 4
           (Sample.fresh Sample.host) 1 Sample.host_options None Sample.timeline Hnd).
Defined.

(** C4 as stated fails: an envelope whose identifier is the empty string is
    not valid in the words of the specification, yet the dispatcher calls the
    handler and posts a reply. *)
Lemma empty_identifier_is_routed :
  spec_valid (toWire Sample.anonymous_ping) = false
  /\ origin_accepted Sample.host "https://a.test" = true
  /\ observable
       (effects_of
          (handleMessage Sample.handler_body Sample.listener_throws Sample.host
             "https://a.test" (toWire Sample.anonymous_ping) 19
             (state_of (on Sample.host "ping" 0 (Sample.fresh Sample.host)))))
     = [CallHandler 0 VNull;
        PostMessage 1 (response_to Sample.anonymous_ping Sample.pong 19)
                    "https://a.test"].
Proof. vm_compute. repeat split. Qed.

(** C4 (amended) on a message from another origin. *)
Lemma handleMessage_routes_or_discards_witness :
  origin_accepted Sample.host "https://evil.test" && routable (toWire Sample.ping) = false
  /\ state_of (handleMessage Sample.handler_body Sample.listener_throws Sample.host
                 "https://evil.test" (toWire Sample.ping) 19 Sample.busy)
     = Sample.busy
  /\ observable
       (effects_of
          (handleMessage Sample.handler_body Sample.listener_throws Sample.host
             "https://evil.test" (toWire Sample.ping) 19 Sample.busy))
     = [].
Proof.
  split; [reflexivity|].
  apply (handleMessage_routes_or_discards
           Sample.handler_body Sample.listener_throws Sample.host "https://evil.test"
           (toWire Sample.ping) 19 Sample.busy).
  reflexivity.
Defined.

(** C5 on channels [a] and [b]. *)
Lemma channels_do_not_share_handlers_witness :
  "a" <> "b"
  /\ getHandlerKey Sample.channel_a "save" None <> getHandlerKey Sample.host "save" (Some "b")
  /\ handlers (state_of (on Sample.channel_a "save" 1 (Sample.fresh Sample.host)))
       !! getHandlerKey Sample.host "save" (Some "b")
     = handlers (Sample.fresh Sample.host) !! getHandlerKey Sample.host "save" (Some "b").
Proof.
  assert (Hab : "a" <> "b") by discriminate.
  assert (Ha : "a" <> "") by discriminate.
  assert (Hb : "b" <> "") by discriminate.
  split; [exact Hab|].
  pose proof (channels_do_not_share_handlers
                Sample.handler_body "a" "b" "save"
                Sample.channel_a Sample.channel_b Sample.host 1
                (Sample.fresh Sample.host) (Sample.fresh Sample.host) VNull 5 "aa" 6 9
                Hab Ha Hb eq_refl eq_refl) as H.
  cbv zeta in H. destruct H as (_ & _ & _ & _ & Hne & Hsame & _).
  split; [exact Hne|exact Hsame].
Defined.

(** C6 as stated fails: destroying channel [a] removes the handler that the
    root instance registered for the method named [a:x]. *)
Lemma channel_destroy_removes_root_handler :
  getHandlerKey Sample.host "a:x" None = "a:x"
  /\ handlers Sample.busy !! "a:x" = Some 0
  /\ handlers (state_of (destroy Sample.channel_a Sample.busy)) !! "a:x" = None.
Proof. vm_compute. repeat split. Qed.

(** C6 (amended) on the busy host: destroying channel [a] rejects its one
    request and leaves the other two pending. *)
Lemma destroy_scope_witness :
  unique_keys (pendingRequests Sample.busy)
  /\ observable (effects_of (destroy Sample.channel_a Sample.busy))
     = [Reject "5-aa" 1 "Channel destroyed"]
  /\ pendingRequests (state_of (destroy Sample.channel_a Sample.busy))
     = [("3-bb", mkPending 0 0 None); ("7-cc", mkPending 2 2 (Some ""))].
Proof.
  assert (Hk : unique_keys (pendingRequests Sample.busy)).
  { distinct_strings. }
  split; [exact Hk|].
  destruct (destroy_scope Sample.channel_a Sample.busy Hk) as [_ H].
  destruct (H eq_refl) as (Heff & Hpend & _).
  split; [exact Heff|exact Hpend].
Defined.


(** C8 on a Response for the request of channel [a] that names no channel. *)
Lemma handleResponse_mismatch_or_unknown_witness :
  JsMap.get "5-aa" (pendingRequests Sample.busy) = Some (mkPending 1 1 (Some "a"))
  /\ handleResponse Sample.host
       (mkMessage PROTOCOL_ID "5-aa" MT.RESPONSE None None VNull None (Num 9)) Sample.busy
     = (tt, Sample.busy, []).
Proof.
  assert (Hget : JsMap.get "5-aa" (pendingRequests Sample.busy)
                 = Some (mkPending 1 1 (Some "a"))) by (vm_compute; reflexivity).
  split; [exact Hget|].
  destruct (handleResponse_mismatch_or_unknown Sample.host
              (mkMessage PROTOCOL_ID "5-aa" MT.RESPONSE None None VNull None (Num 9))
              Sample.busy) as [Hmis _].
  destruct (Hmis _ Hget) as [H _]; [discriminate|]. exact H.
Defined.

(** C10 as stated fails: destroying the channel named by the empty string
    removes the handler stored under a key that starts with a colon. *)
Lemma empty_channel_destroy_removes_colon_key :
  handlers Sample.busy !! ":x" = Some 0
  /\ handlers (state_of (destroy Sample.channel_empty Sample.busy)) !! ":x" = None.
Proof. vm_compute. repeat split. Qed.

(** C10 (amended) on the busy host: the channel named by the empty string
    overwrites the root's handler for [load], and its teardown rejects the
    request recorded under the empty name. *)
Lemma empty_channel_is_root_namespace_witness :
  channelName Sample.host = None
  /\ handlers Sample.busy !! "load" = Some 0
  /\ handlers (state_of (on (value_of (channel Sample.host "" (Sample.fresh Sample.host)))
                            "load" 9 Sample.busy)) !! "load"
     = Some 9
  /\ observable
       (effects_of (destroy (value_of (channel Sample.host "" (Sample.fresh Sample.host)))
                            Sample.busy))
     = [Reject "7-cc" 2 "Channel destroyed"].
Proof.
  assert (Hk : unique_keys (pendingRequests Sample.busy)).
  { distinct_strings. }
  split; [reflexivity|]. split; [vm_compute; reflexivity|].
  pose proof (empty_channel_is_root_namespace
                Sample.host Sample.host (Sample.fresh Sample.host) Sample.busy "load"
                eq_refl Hk) as H.
  cbv zeta in H. destruct H as (_ & _ & _ & _ & Hon & _ & _ & _ & _ & _ & Heff & _).
  split; [exact (proj2 (Hon 9))|exact Heff].
Defined.

(** * Further properties of the bridge *)

(** ** More facts *)

Lemma for_each_listeners (listener_throws : nat -> JsValue -> bool) (this : Bridge)
    (data : JsValue) (listeners : list nat) (w : World) :
  for_each listeners (fun handler =>
    tell (CallListener handler data);;
    if listener_throws handler data then log this "Event handler error" else skip) w
  = (tt, w,
     flat_map (fun l => CallListener l data
                        :: if listener_throws l data
                           then log_lines this "Event handler error" else [])
              listeners).
Proof.
  induction listeners as [|l listeners IH]; [reflexivity|].
  assert (E : (if listener_throws l data then log this "Event handler error" else skip) w
              = (tt, w, if listener_throws l data
                        then log_lines this "Event handler error" else [])).
  { destruct (listener_throws l data); [apply log_run|reflexivity]. }
  cbn [for_each flat_map]. cbv [mbind M_bind tell] in *. rewrite E, IH. reflexivity.
Qed.

Lemma handleEvent_run (listener_throws : nat -> JsValue -> bool) (this : Bridge)
    (message : Message) (w : World) :
  state_of (handleEvent listener_throws this message w) = w
  /\ observable (effects_of (handleEvent listener_throws this message w))
     = map (fun l => CallListener l (m_data message)) (listeners_for this message w)
  /\ posted (effects_of (handleEvent listener_throws this message w)) = [].
Proof.
  unfold handleEvent, listeners_for. cbv zeta. rewrite bind_run. cbv [get_world].
  destruct (inboundKey this (m_method message) (m_channel message)
              ≫= (fun k => eventHandlers w !! k)) as [listeners|];
    [|repeat split; reflexivity].
  cbn [default]. destruct listeners as [|l listeners]; [repeat split; reflexivity|].
  cbn [JsSet.size length Nat.eqb]. rewrite for_each_listeners.
  rewrite state_of_mk, effects_of_mk. cbn [app].
  split; [reflexivity|].
  induction (l :: listeners) as [|x xs [IHo IHp]]; [split; reflexivity|].
  cbn [flat_map map]. rewrite observable_app, posted_append, IHo, IHp.
  destruct (listener_throws x (m_data message)).
  - cbn [app observable List.filter is_log negb posted].
    fold (observable (log_lines this "Event handler error")).
    rewrite observable_log_lines, posted_log_lines. split; reflexivity.
  - split; reflexivity.
Qed.

Lemma JsSet_has_In (x : nat) (s : list nat) : JsSet.has x s = true <-> In x s.
Proof.
  unfold JsSet.has. rewrite existsb_exists. split.
  - intros (y & Hy & E). apply Nat.eqb_eq in E. congruence.
  - intros H. exists x. split; [exact H|apply Nat.eqb_refl].
Qed.

Lemma JsSet_add_In (x y : nat) (s : list nat) :
  In y (JsSet.add x s) <-> y = x \/ In y s.
Proof.
  unfold JsSet.add. destruct (JsSet.has x s) eqn:E.
  - apply JsSet_has_In in E. split; [auto|]. intros [->|H]; auto.
  - rewrite in_app_iff. cbn. split; intros H; intuition.
Qed.

Lemma add_listener_lookup (key : string) (l : nat) (m : gmap string (list nat)) :
  add_listener key l m !! key = Some (JsSet.add l (default [] (m !! key))).
Proof.
  unfold add_listener. destruct (m !! key); cbn [default]; apply lookup_insert_eq.
Qed.

Lemma add_listener_other (key key' : string) (l : nat) (m : gmap string (list nat)) :
  key <> key' -> add_listener key l m !! key' = m !! key'.
Proof.
  intros Hne. unfold add_listener.
  destruct (m !! key); rewrite ?lookup_insert_ne by exact Hne; reflexivity.
Qed.

Lemma JsSet_add_has (x : nat) (s : list nat) : JsSet.has x (JsSet.add x s) = true.
Proof. apply JsSet_has_In, JsSet_add_In. left. reflexivity. Qed.

Lemma JsSet_delete_absent (x : nat) (s : list nat) : ~ In x s -> JsSet.delete x s = s.
Proof.
  intros Hx. unfold JsSet.delete. induction s as [|y s IH]; [reflexivity|].
  cbn. destruct (Nat.eqb x y) eqn:E.
  - apply Nat.eqb_eq in E. subst y. exfalso. apply Hx. left. reflexivity.
  - cbn. rewrite IH; [reflexivity|]. intros H. apply Hx. right. exact H.
Qed.

Lemma JsSet_delete_added (x : nat) (s : list nat) :
  ~ In x s -> JsSet.delete x (JsSet.add x s) = s.
Proof.
  intros Hx. unfold JsSet.add.
  destruct (JsSet.has x s) eqn:E; [apply JsSet_has_In in E; contradiction|].
  unfold JsSet.delete. rewrite List.filter_app. cbn. rewrite Nat.eqb_refl. cbn.
  rewrite app_nil_r. apply (JsSet_delete_absent x s Hx).
Qed.

Lemma same_channel_key (root this : Bridge) (name : string) (channel : option string) :
  channelName root = None ->
  channelName this = channel ->
  inboundKey root (Some name) channel = Some (getHandlerKey this name None).
Proof.
  intros Hroot Hch. cbn [inboundKey]. f_equal. unfold getHandlerKey.
  rewrite Hch, Hroot. destruct channel; reflexivity.
Qed.

Lemma handleMessage_event (handler_body : nat -> JsValue -> HandlerOutcome)
    (listener_throws : nat -> JsValue -> bool) (this : Bridge) (origin : string)
    (message : Message) (now : Z) (w : World) :
  origin_accepted this origin = true ->
  m_protocol message = PROTOCOL_ID ->
  m_type message = MT.EVENT ->
  handleMessage handler_body listener_throws this origin (toWire message) now w
  = (log this "Message received";; handleEvent listener_throws this message) w.
Proof.
  intros Ho Hp Hty.
  rewrite (handleMessage_accepted _ _ _ _ _ message _ _ Ho);
    [|rewrite isValidMessage_toWire, Hp; reflexivity|apply asMessage_toWire].
  rewrite Hty. reflexivity.
Qed.

(** *** The shape of every step *)

Lemma handleResponse_cases (this : Bridge) (message : Message) (w : World) :
  handleResponse this message w = (tt, w, [])
  \/ handleResponse this message w = (tt, w, log_lines this "Response channel mismatch")
  \/ exists pending,
       JsMap.get (m_id message) (pendingRequests w) = Some pending
       /\ p_channel pending = m_channel message
       /\ handleResponse this message w
          = (tt,
             mkWorld (rootBridge w) (handlers w) (eventHandlers w)
                     (JsMap.delete (m_id message) (pendingRequests w))
                     (messageHandler w) (delete (p_timer pending) (timers w))
                     (next_timer w) (next_promise w),
             [if String.eqb (m_type message) MT.ERROR
              then Reject (m_id message) (p_promise pending)
                          (rejection_text (m_error message))
              else Resolve (m_id message) (p_promise pending) (m_data message)]).
Proof.
  destruct (JsMap.get (m_id message) (pendingRequests w)) as [pending|] eqn:Hget.
  - destruct (decide (p_channel pending = m_channel message)) as [Hch|Hch].
    + right. right. exists pending. split; [reflexivity|]. split; [exact Hch|].
      apply handleResponse_settles; assumption.
    + right. left. unfold handleResponse. rewrite bind_run. cbv [get_world].
      rewrite Hget.
      destruct (opt_string_eqb (p_channel pending) (m_channel message)) eqn:E.
      * apply opt_string_eqb_eq in E. contradiction.
      * cbn [negb]. rewrite log_run. reflexivity.
  - left. unfold handleResponse. rewrite bind_run. cbv [get_world]. rewrite Hget.
    reflexivity.
Qed.

Lemma handleMessage_cases (handler_body : nat -> JsValue -> HandlerOutcome)
    (listener_throws : nat -> JsValue -> bool) (this : Bridge) (origin : string)
    (data : MessageData) (now : Z) (w : World) :
  handleMessage handler_body listener_throws this origin data now w = (tt, w, [])
  \/ handleMessage handler_body listener_throws this origin data now w
     = (tt, w, log_lines this "Message received")
  \/ exists message k,
       asMessage data = Some message
       /\ handleMessage handler_body listener_throws this origin data now w
          = (tt, state_of k, log_lines this "Message received" ++ effects_of k)
       /\ (k = handleRequest handler_body this message now w
           \/ k = handleResponse this message w
           \/ k = handleEvent listener_throws this message w).
Proof.
  destruct (origin_accepted this origin && isValidMessage data) eqn:Hacc.
  - apply andb_true_iff in Hacc as [Ho Hv].
    destruct (isValidMessage_asMessage _ Hv) as (message & Hm & _ & _).
    rewrite (handleMessage_accepted _ _ _ _ _ _ _ _ Ho Hv Hm), bind_log.
    destruct (String.eqb (m_type message) MT.REQUEST).
    { right. right. exists message, (handleRequest handler_body this message now w).
      destruct (handleRequest _ _ _ _ w) as [[[] w'] e']. auto. }
    destruct (String.eqb (m_type message) MT.RESPONSE
              || String.eqb (m_type message) MT.ERROR).
    { right. right. exists message, (handleResponse this message w).
      destruct (handleResponse _ _ w) as [[[] w'] e']. auto. }
    destruct (String.eqb (m_type message) MT.EVENT).
    { right. right. exists message, (handleEvent listener_throws this message w).
      destruct (handleEvent _ _ _ w) as [[[] w'] e']. auto 6. }
    right. left. cbv [skip mret M_ret value_of state_of effects_of fst snd].
    rewrite app_nil_r. reflexivity.
  - left. apply handleMessage_refused. exact Hacc.
Qed.

Lemma request_step (this : Bridge) (method : string) (data : JsValue)
    (now_id : Z) (random : string) (now : Z) (w : World) :
  (request this method data now_id random now;; skip) w
  = (tt, state_of (request this method data now_id random now w),
     effects_of (request this method data now_id random now w)).
Proof.
  rewrite bind_run. destruct (request _ _ _ _ _ _ w) as [[a w1] e1].
  cbv [skip mret M_ret]. rewrite state_of_mk, effects_of_mk, app_nil_r. reflexivity.
Qed.

Lemma channel_step (this : Bridge) (name : string) (w : World) :
  exists derived,
    (channel this name;; skip) w = (tt, w, log_lines derived "Bridge initialized").
Proof.
  rewrite bind_run, channel_run. cbv [skip mret M_ret]. rewrite app_nil_r. eauto.
Qed.

(** What a [message] event leaves alone. *)
Lemma dispatch_frame (handler_body : nat -> JsValue -> HandlerOutcome)
    (listener_throws : nat -> JsValue -> bool) (this : Bridge) (origin : string)
    (data : MessageData) (now : Z) (w : World) :
  let w' := state_of (handleMessage handler_body listener_throws this origin data now w) in
  rootBridge w' = rootBridge w /\ handlers w' = handlers w
  /\ eventHandlers w' = eventHandlers w /\ messageHandler w' = messageHandler w
  /\ next_promise w' = next_promise w /\ next_timer w' = next_timer w.
Proof.
  cbv zeta.
  destruct (handleMessage_cases handler_body listener_throws this origin data now w)
    as [E|[E|(message & k & _ & E & Hk)]]; rewrite E, state_of_mk; auto 10.
  destruct Hk as [->|[->| ->]].
  - destruct (handleRequest_settle_free handler_body this message now w) as [-> _].
    auto 10.
  - destruct (handleResponse_cases this message w) as [E'|[E'|(p & _ & _ & E')]];
      rewrite E', state_of_mk; auto 10.
  - destruct (handleEvent_state listener_throws this message w) as [-> _]. auto 10.
Qed.

(** *** Listener sets *)

Lemma NoDup_JsSet_add (x : nat) (s : list nat) : NoDup s -> NoDup (JsSet.add x s).
Proof.
  intros Hs. unfold JsSet.add. destruct (JsSet.has x s) eqn:E; [exact Hs|].
  apply NoDup_app. split; [exact Hs|]. split; [|apply NoDup_singleton].
  intros y Hy Hy'. apply list_elem_of_singleton in Hy'. subst y.
  apply list_elem_of_In, JsSet_has_In in Hy. congruence.
Qed.

Lemma NoDup_JsSet_delete (x : nat) (s : list nat) : NoDup s -> NoDup (JsSet.delete x s).
Proof.
  intros Hs. apply NoDup_ListNoDup. apply NoDup_ListNoDup in Hs.
  unfold JsSet.delete. apply List.NoDup_filter. exact Hs.
Qed.

Lemma tidy_add (key : string) (l : nat) (m : gmap string (list nat)) :
  tidy m -> tidy (add_listener key l m).
Proof.
  intros Hm k s Hk. destruct (decide (key = k)) as [<-|Hne].
  - rewrite add_listener_lookup in Hk. injection Hk as <-. split.
    + intros E. assert (Hin : In l (JsSet.add l (default [] (m !! key))))
        by (apply JsSet_add_In; left; reflexivity).
      rewrite E in Hin. destruct Hin.
    + apply NoDup_JsSet_add. destruct (m !! key) as [s|] eqn:Hs; cbn [default].
      * apply (Hm key s Hs).
      * apply NoDup_nil_2.
  - rewrite add_listener_other in Hk by exact Hne. apply (Hm k s Hk).
Qed.

Lemma tidy_remove (key : string) (l : option nat) (m : gmap string (list nat)) :
  tidy m -> tidy (remove_listener key l m).
Proof.
  intros Hm k s Hk. unfold remove_listener in Hk.
  assert (Hdel : delete key m !! k = Some s -> s <> [] /\ NoDup s).
  { intros H. destruct (decide (key = k)) as [<-|Hne].
    - rewrite lookup_delete_eq in H. discriminate.
    - rewrite lookup_delete_ne in H by exact Hne. apply (Hm k s H). }
  destruct l as [l|]; [|auto].
  destruct (m !! key) as [listeners|] eqn:Hget; [|apply (Hm k s Hk)].
  destruct (Nat.eqb (length (JsSet.delete l listeners)) 0) eqn:E.
  - rewrite delete_insert_eq in Hk. auto.
  - destruct (decide (key = k)) as [<-|Hne].
    + rewrite lookup_insert_eq in Hk. injection Hk as <-. split.
      * intros E'. rewrite E' in E. discriminate.
      * apply NoDup_JsSet_delete. apply (Hm key listeners Hget).
    + rewrite lookup_insert_ne in Hk by exact Hne. apply (Hm k s Hk).
Qed.

Lemma tidy_delete_matching (p : string) (m : gmap string (list nat)) :
  tidy m -> tidy (delete_matching p (keys_of m) m).
Proof.
  intros Hm k s Hk. rewrite delete_matching_own_keys in Hk.
  destruct (String.prefix p k); [discriminate|]. apply (Hm k s Hk).
Qed.

Lemma tidy_step (handler_body : nat -> JsValue -> HandlerOutcome)
    (listener_throws : nat -> JsValue -> bool) (a : Action) (w : World) :
  tidy (eventHandlers w) ->
  tidy (eventHandlers (state_of (step handler_body listener_throws a w))).
Proof.
  intros Hw. destruct a; cbn [step].
  - rewrite request_step, request_run, !state_of_mk. exact Hw.
  - rewrite on_run, state_of_mk. exact Hw.
  - rewrite emit_run, state_of_mk. exact Hw.
  - rewrite listen_run, state_of_mk. apply tidy_add. exact Hw.
  - rewrite off_run, state_of_mk. apply tidy_remove. exact Hw.
  - destruct (channel_step this name w) as [d ->]. exact Hw.
  - destruct (isRootBridge this) eqn:Hroot.
    + rewrite destroy_root_run by exact Hroot. rewrite state_of_mk.
      intros k s Hk. cbn in Hk. rewrite lookup_empty in Hk. discriminate.
    + rewrite destroy_channel_run by exact Hroot. rewrite state_of_mk.
      apply tidy_delete_matching. exact Hw.
  - rewrite window_message_run. destruct (messageHandler w); [|exact Hw].
    destruct (dispatch_frame handler_body listener_throws (rootBridge w) origin data
                             now w) as (_ & _ & -> & _).
    exact Hw.
  - destruct (timers w !! timer) as [cb|] eqn:Hcb.
    + rewrite (timer_fires_run _ _ _ Hcb), state_of_mk. exact Hw.
    + rewrite (timer_fires_inactive _ _ Hcb), state_of_mk. exact Hw.
Qed.

Lemma run_cons (handler_body : nat -> JsValue -> HandlerOutcome)
    (listener_throws : nat -> JsValue -> bool) (a : Action) (actions : list Action)
    (w : World) :
  let first := step handler_body listener_throws a w in
  let rest := run handler_body listener_throws actions (state_of first) in
  run handler_body listener_throws (a :: actions) w
  = (tt, state_of rest, effects_of first ++ effects_of rest).
Proof.
  cbv zeta. unfold run. cbn [for_each]. rewrite bind_run.
  destruct (step handler_body listener_throws a w) as [[[] w1] e1].
  rewrite state_of_mk, effects_of_mk.
  destruct (for_each actions _ w1) as [[[] w2] e2]. reflexivity.
Qed.

(** *** After the root is destroyed; what is posted *)

Lemma posted_rejections (error : string) (entries : list (string * PendingRequest)) :
  posted (rejections error entries) = [].
Proof. induction entries as [|e l IH]; [reflexivity|]. cbn. exact IH. Qed.

Lemma deaf_step (handler_body : nat -> JsValue -> HandlerOutcome)
    (listener_throws : nat -> JsValue -> bool) (a : Action) (w : World) :
  messageHandler w = false ->
  messageHandler (state_of (step handler_body listener_throws a w)) = false.
Proof.
  intros Hw. destruct a; cbn [step].
  - rewrite request_step, request_run, !state_of_mk. exact Hw.
  - rewrite on_run, state_of_mk. exact Hw.
  - rewrite emit_run, state_of_mk. exact Hw.
  - rewrite listen_run, state_of_mk. exact Hw.
  - rewrite off_run, state_of_mk. exact Hw.
  - destruct (channel_step this name w) as [d ->]. rewrite state_of_mk. exact Hw.
  - destruct (isRootBridge this) eqn:Hroot.
    + rewrite destroy_root_run by exact Hroot. rewrite state_of_mk. reflexivity.
    + rewrite destroy_channel_run by exact Hroot. rewrite state_of_mk. exact Hw.
  - rewrite window_message_run, Hw, state_of_mk. exact Hw.
  - destruct (timers w !! timer) as [cb|] eqn:Hcb.
    + rewrite (timer_fires_run _ _ _ Hcb), state_of_mk. exact Hw.
    + rewrite (timer_fires_inactive _ _ Hcb), state_of_mk. exact Hw.
Qed.

(** *** Teardown twice; channels *)

Lemma delete_matching_twice {V : Type} (p : string) (m : gmap string V) :
  let once := delete_matching p (keys_of m) m in
  delete_matching p (keys_of once) once = once.
Proof.
  cbv zeta. apply map_eq. intros k. rewrite !delete_matching_own_keys.
  destruct (String.prefix p k); reflexivity.
Qed.

Lemma filter_disjoint {A : Type} (f : A -> bool) (l : list A) :
  List.filter f (List.filter (fun x => negb (f x)) l) = [].
Proof.
  rewrite filter_filter. rewrite (List.filter_ext _ (fun _ => false)).
  - apply filter_none.
  - intros x. destruct (f x); reflexivity.
Qed.

Lemma or_else_again {A : Type} (f : A -> bool) (a : option A) (b : A) :
  f b = true -> or_else f (Some (or_else f a b)) b = or_else f a b.
Proof.
  intros Hb. unfold or_else. destruct a as [x|]; [|rewrite Hb; reflexivity].
  destruct (f x) eqn:Hx; [rewrite Hx|rewrite Hb]; reflexivity.
Qed.

Lemma remove_listener_other (key key' : string) (l : option nat)
    (m : gmap string (list nat)) :
  key <> key' -> remove_listener key l m !! key' = m !! key'.
Proof.
  intros Hne. unfold remove_listener. destruct l as [l|].
  - destruct (m !! key); [|reflexivity].
    destruct (Nat.eqb _ 0);
      rewrite ?lookup_delete_ne, ?lookup_insert_ne by exact Hne; reflexivity.
  - apply lookup_delete_ne. exact Hne.
Qed.

Lemma posted_step (handler_body : nat -> JsValue -> HandlerOutcome)
    (listener_throws : nat -> JsValue -> bool) (a : Action) (w : World) :
  Forall (fun m => routable (toWire m) = true)
         (posted (effects_of (step handler_body listener_throws a w))).
Proof.
  destruct a; cbn [step].
  - rewrite request_step, request_run, !effects_of_mk. cbn [posted].
    rewrite posted_log_lines. repeat constructor.
  - rewrite on_run, effects_of_mk, posted_log_lines. constructor.
  - rewrite emit_run, effects_of_mk. cbn [posted]. rewrite posted_log_lines.
    repeat constructor.
  - rewrite listen_run, effects_of_mk, posted_log_lines. constructor.
  - rewrite off_run, effects_of_mk, posted_log_lines. constructor.
  - destruct (channel_step this name w) as [d ->].
    rewrite effects_of_mk, posted_log_lines. constructor.
  - destruct (isRootBridge this) eqn:Hroot.
    + rewrite destroy_root_run by exact Hroot.
      rewrite effects_of_mk, posted_append, posted_rejections, posted_log_lines.
      constructor.
    + rewrite destroy_channel_run by exact Hroot.
      rewrite effects_of_mk, posted_append, posted_rejections, posted_log_lines.
      constructor.
  - rewrite window_message_run. destruct (messageHandler w); [|constructor].
    destruct (handleMessage_cases handler_body listener_throws (rootBridge w) origin
                                  data now w)
      as [E|[E|(message & k & _ & E & Hk)]]; rewrite E, effects_of_mk.
    + constructor.
    + rewrite posted_log_lines. constructor.
    + rewrite posted_append, posted_log_lines. cbn [app].
      destruct Hk as [->|[->| ->]].
      * rewrite handleRequest_run, effects_of_mk.
        destruct (inboundKey _ _ _ ≫= _) as [h|].
        -- cbn [posted].
           destruct (handler_body h (m_data message)) as [result|error|];
             [|destruct (error_text error)|];
             cbn [posted]; rewrite ?posted_log_lines; repeat constructor.
        -- cbn [posted]. rewrite posted_log_lines. repeat constructor.
      * destruct (handleResponse_cases (rootBridge w) message w)
          as [E'|[E'|(p & _ & _ & E')]]; rewrite E', effects_of_mk.
        -- constructor.
        -- rewrite posted_log_lines. constructor.
        -- destruct (String.eqb (m_type message) MT.ERROR); constructor.
      * destruct (handleEvent_run listener_throws (rootBridge w) message w)
          as (_ & _ & ->). constructor.
  - destruct (timers w !! timer) as [cb|] eqn:Hcb.
    + rewrite (timer_fires_run _ _ _ Hcb), effects_of_mk. constructor.
    + rewrite (timer_fires_inactive _ _ Hcb), effects_of_mk. constructor.
Qed.

(** *** Debug output *)

Lemma silent_log (this : Bridge) (message : string) :
  log_lines (silence this) message = [].
Proof. reflexivity. Qed.

Lemma observable_post (t : nat) (m : Message) (o : string) (rest : list Effect) :
  observable (PostMessage t m o :: rest) = PostMessage t m o :: observable rest.
Proof. reflexivity. Qed.

Lemma silent_handleRequest (handler_body : nat -> JsValue -> HandlerOutcome)
    (this : Bridge) (message : Message) (now : Z) (w : World) :
  handleRequest handler_body (silence this) message now (silence_world w)
  = (tt, silence_world (state_of (handleRequest handler_body this message now w)),
     observable (effects_of (handleRequest handler_body this message now w))).
Proof.
  rewrite !handleRequest_run, state_of_mk, effects_of_mk.
  change (inboundKey (silence this) (m_method message) (m_channel message))
    with (inboundKey this (m_method message) (m_channel message)).
  cbn [silence_world handlers]. f_equal.
  destruct (inboundKey this (m_method message) (m_channel message)
              ≫= (fun k => handlers w !! k)) as [h|].
  - destruct (handler_body h (m_data message)) as [result|error|];
      [|destruct (error_text error)|];
      cbn [observable List.filter is_log negb];
      rewrite ?silent_log;
      fold (observable (log_lines this "Response sent"));
      fold (observable (log_lines this "Error sent"));
      rewrite ?observable_log_lines; reflexivity.
  - rewrite observable_post, observable_log_lines. reflexivity.
Qed.

Lemma silent_handleResponse (this : Bridge) (message : Message) (w : World) :
  handleResponse (silence this) message (silence_world w)
  = (tt, silence_world (state_of (handleResponse this message w)),
     observable (effects_of (handleResponse this message w))).
Proof.
  unfold handleResponse. rewrite !bind_run. cbv [get_world].
  cbn [silence_world pendingRequests].
  destruct (JsMap.get (m_id message) (pendingRequests w)) as [pending|];
    [|reflexivity].
  destruct (opt_string_eqb (p_channel pending) (m_channel message)); cbn [negb].
  - cbv [mbind M_bind clearTimeout modify reject resolve tell].
    destruct (String.eqb (m_type message) MT.ERROR); destruct w; reflexivity.
  - rewrite !log_run, state_of_mk, effects_of_mk. cbn [app].
    rewrite observable_log_lines. reflexivity.
Qed.

Lemma silent_handleEvent (listener_throws : nat -> JsValue -> bool)
    (this : Bridge) (message : Message) (w : World) :
  handleEvent listener_throws (silence this) message (silence_world w)
  = (tt, silence_world (state_of (handleEvent listener_throws this message w)),
     observable (effects_of (handleEvent listener_throws this message w))).
Proof.
  unfold handleEvent. cbv zeta. rewrite !bind_run. cbv [get_world].
  change (inboundKey (silence this) (m_method message) (m_channel message))
    with (inboundKey this (m_method message) (m_channel message)).
  cbn [silence_world eventHandlers].
  destruct (inboundKey this (m_method message) (m_channel message)
              ≫= (fun k => eventHandlers w !! k)) as [listeners|]; [|reflexivity].
  destruct (Nat.eqb (JsSet.size listeners) 0); [reflexivity|].
  rewrite !for_each_listeners, state_of_mk, effects_of_mk. cbn [app]. f_equal.
  induction listeners as [|l listeners IH]; [reflexivity|].
  cbn [flat_map]. rewrite IH, observable_app.
  destruct (listener_throws l (m_data message)); cbn [app];
    cbn [observable List.filter is_log negb];
    fold (observable (log_lines this "Event handler error"));
    rewrite ?observable_log_lines; reflexivity.
Qed.

Lemma silent_handleMessage (handler_body : nat -> JsValue -> HandlerOutcome)
    (listener_throws : nat -> JsValue -> bool) (this : Bridge) (origin : string)
    (data : MessageData) (now : Z) (w : World) :
  handleMessage handler_body listener_throws (silence this) origin data now
                (silence_world w)
  = (tt,
     silence_world
       (state_of (handleMessage handler_body listener_throws this origin data now w)),
     observable
       (effects_of (handleMessage handler_body listener_throws this origin data now w))).
Proof.
  destruct (origin_accepted this origin && isValidMessage data) eqn:Hacc.
  - apply andb_true_iff in Hacc as [Ho Hv].
    destruct (isValidMessage_asMessage _ Hv) as (message & Hm & _ & _).
    rewrite (handleMessage_accepted _ _ this _ _ _ _ _ Ho Hv Hm).
    rewrite (handleMessage_accepted _ _ (silence this) _ _ _ _ _ Ho Hv Hm).
    rewrite !bind_log, silent_log, state_of_mk, effects_of_mk.
    rewrite observable_app, observable_log_lines. cbn [app].
    destruct (String.eqb (m_type message) MT.REQUEST).
    { rewrite silent_handleRequest. reflexivity. }
    destruct (String.eqb (m_type message) MT.RESPONSE
              || String.eqb (m_type message) MT.ERROR).
    { rewrite silent_handleResponse. reflexivity. }
    destruct (String.eqb (m_type message) MT.EVENT).
    { rewrite silent_handleEvent. reflexivity. }
    reflexivity.
  - rewrite (handleMessage_refused _ _ this) by exact Hacc.
    rewrite (handleMessage_refused _ _ (silence this)) by exact Hacc. reflexivity.
Qed.

Lemma silent_step (handler_body : nat -> JsValue -> HandlerOutcome)
    (listener_throws : nat -> JsValue -> bool) (a : Action) (w : World) :
  step handler_body listener_throws (silence_action a) (silence_world w)
  = (tt, silence_world (state_of (step handler_body listener_throws a w)),
     observable (effects_of (step handler_body listener_throws a w))).
Proof.
  destruct a; cbn [step silence_action].
  - rewrite !request_step, !request_run, !state_of_mk, !effects_of_mk.
    rewrite observable_post, observable_log_lines. reflexivity.
  - rewrite !on_run, state_of_mk, effects_of_mk, observable_log_lines. reflexivity.
  - rewrite !emit_run, state_of_mk, effects_of_mk, observable_post,
      observable_log_lines. reflexivity.
  - rewrite !listen_run, state_of_mk, effects_of_mk, observable_log_lines. reflexivity.
  - rewrite !off_run, state_of_mk, effects_of_mk, observable_log_lines. reflexivity.
  - rewrite !bind_run, !channel_run. cbv [skip mret M_ret].
    rewrite state_of_mk, effects_of_mk, !app_nil_r, observable_log_lines.
    reflexivity.
  - destruct (isRootBridge this) eqn:Hroot.
    + rewrite (destroy_root_run this) by exact Hroot.
      rewrite (destroy_root_run (silence this)) by exact Hroot.
      rewrite state_of_mk, effects_of_mk, observable_app, observable_rejections,
        observable_log_lines. reflexivity.
    + rewrite (destroy_channel_run this) by exact Hroot.
      rewrite (destroy_channel_run (silence this)) by exact Hroot.
      rewrite state_of_mk, effects_of_mk, observable_app, observable_rejections,
        observable_log_lines. reflexivity.
  - rewrite !window_message_run. cbn [silence_world messageHandler rootBridge].
    destruct (messageHandler w); [|reflexivity].
    apply (silent_handleMessage handler_body listener_throws (rootBridge w)).
  - destruct (timers w !! timer) as [cb|] eqn:Hcb.
    + rewrite (timer_fires_run timer cb w Hcb).
      rewrite (timer_fires_run timer cb (silence_world w) Hcb). reflexivity.
    + rewrite (timer_fires_inactive timer w Hcb).
      rewrite (timer_fires_inactive timer (silence_world w) Hcb). reflexivity.
Qed.

Section Further.

Variable handler_body : nat -> JsValue -> HandlerOutcome.
Variable listener_throws : nat -> JsValue -> bool.

(** ** The factories *)

(** X1: [createParentBridge] fails with "Iframe contentWindow is not
    available" when the frame has no window, [createChildBridge] fails with
    "Not in an iframe context" when the window has no parent or is its own
    parent.  Otherwise both give the same thing for the same peer window: a
    root instance without channel name that targets it, subscribed to the
    window, with empty registries and no effect but debug output; without
    options it uses the wildcard origin, 30000 ms and no debug output. *)
Theorem factories_need_a_peer_window (self : nat) (options : option BridgeOptions) :
  createParentBridge None options = inl "Iframe contentWindow is not available"
  /\ createChildBridge self None options = inl "Not in an iframe context"
  /\ createChildBridge self (Some self) options = inl "Not in an iframe context"
  /\ forall peer,
       exists this w effects,
         createParentBridge (Some peer) options = inr (this, w, effects)
         /\ (peer <> self ->
             createChildBridge self (Some peer) options = inr (this, w, effects))
         /\ target this = peer
         /\ isRootBridge this = true
         /\ channelName this = None
         /\ rootBridge w = this
         /\ messageHandler w = true
         /\ handlers w = ∅ /\ eventHandlers w = ∅ /\ pendingRequests w = []
         /\ timers w = ∅
         /\ observable effects = []
         /\ (options = None ->
             targetOrigin this = "*" /\ timeout this = Num 30000 /\ debug this = false).
Proof using Type.
  clear handler_body listener_throws.
  split; [reflexivity|]. split; [reflexivity|].
  split; [cbn; rewrite Nat.eqb_refl; reflexivity|].
  intros peer. unfold createParentBridge, createChildBridge.
  rewrite constructor_root_run. do 3 eexists.
  split; [reflexivity|]. split.
  - intros Hne. apply Nat.eqb_neq in Hne. rewrite Hne. reflexivity.
  - repeat split; try reflexivity.
    + apply observable_log_lines.
    + subst options. reflexivity.
    + subst options. reflexivity.
    + subst options. reflexivity.
Qed.

(** ** Events *)

(** X2: when no listener calls a method of the bridge while the event is
    delivered (the listeners only return or throw), an accepted, valid
    Event envelope calls every listener registered under its qualified name
    once, in the order of registration, with the payload of the event, also
    when some of them throw; the dispatcher posts nothing back and leaves
    the state unchanged.  With no listener registered it has no observable
    effect. *)
Theorem event_reaches_every_listener
    (this : Bridge) (origin : string) (data : MessageData) (message : Message)
    (now : Z) (w : World) :
  origin_accepted this origin = true ->
  isValidMessage data = true ->
  asMessage data = Some message ->
  m_type message = MT.EVENT ->
  let delivery := handleMessage handler_body listener_throws this origin data now w in
  state_of delivery = w
  /\ observable (effects_of delivery)
     = map (fun l => CallListener l (m_data message)) (listeners_for this message w)
  /\ posted (effects_of delivery) = [].
Proof.
  intros Ho Hv Hm Hty. cbv zeta.
  rewrite (handleMessage_accepted _ _ _ _ _ _ _ _ Ho Hv Hm), Hty.
  change (String.eqb MT.EVENT MT.REQUEST) with false.
  change (String.eqb MT.EVENT MT.RESPONSE || String.eqb MT.EVENT MT.ERROR) with false.
  change (String.eqb MT.EVENT MT.EVENT) with true. cbv iota.
  rewrite bind_log, state_of_mk, effects_of_mk.
  destruct (handleEvent_run listener_throws this message w) as (Hs & Ho' & Hp).
  rewrite observable_app, posted_append, observable_log_lines, posted_log_lines.
  auto.
Qed.

(** X3: an event emitted through an instance reaches the listeners that the
    other side registered through an instance of the same channel.  [emit]
    posts one Event envelope and leaves the state alone; when the envelope
    arrives after [listen(e, l)] and no listener calls a method of the
    bridge while the event is delivered, the listeners of [e] are called in
    order with the payload, [l] among them (last, if it is new), and the
    dispatcher leaves the state of the receiver unchanged. *)
Theorem emit_reaches_listeners
    (sender receiver : Bridge) (w_send w_recv : World) (origin : string)
    (e : string) (p : JsValue) (l : nat) (t : Z) (r : string) (t' now : Z) :
  channelName receiver = channelName sender ->
  channelName (rootBridge w_recv) = None ->
  messageHandler w_recv = true ->
  origin_accepted (rootBridge w_recv) origin = true ->
  let emitted := emit sender e p t r t' w_send in
  let sent :=
    mkMessage PROTOCOL_ID (generateId t r) MT.EVENT (Some e) (channelName sender) p None
              (Num t') in
  let listening := state_of (listen receiver e l w_recv) in
  let delivery :=
    window_message handler_body listener_throws origin (toWire sent) now listening in
  state_of emitted = w_send
  /\ posted (effects_of emitted) = [sent]
  /\ state_of delivery = listening
  /\ observable (effects_of delivery)
     = map (fun l' => CallListener l' p)
           (JsSet.add l (default [] (eventHandlers w_recv
                                       !! getHandlerKey receiver e None)))
  /\ In (CallListener l p) (observable (effects_of delivery)).
Proof.
  intros Hch Hroot Hlisten Horigin. cbv zeta.
  rewrite emit_run, state_of_mk, effects_of_mk.
  split; [reflexivity|].
  split; [cbn [posted]; rewrite posted_log_lines; reflexivity|].
  set (sent := mkMessage PROTOCOL_ID (generateId t r) MT.EVENT (Some e)
                         (channelName sender) p None (Num t')).
  rewrite listen_run, state_of_mk. set (listening := mkWorld _ _ _ _ _ _ _ _).
  rewrite window_message_run. cbn [listening messageHandler rootBridge].
  rewrite Hlisten.
  rewrite (handleMessage_event _ _ _ _ sent _ _ Horigin) by reflexivity.
  rewrite bind_log, state_of_mk, effects_of_mk.
  rewrite observable_app, observable_log_lines. cbn [app].
  destruct (handleEvent_run listener_throws (rootBridge w_recv) sent listening)
    as (Hs & Ho & _).
  assert (Hfor : listeners_for (rootBridge w_recv) sent listening
                 = JsSet.add l (default [] (eventHandlers w_recv
                                              !! getHandlerKey receiver e None))).
  { unfold listeners_for. cbn [sent m_method m_channel].
    rewrite (same_channel_key (rootBridge w_recv) receiver e (channelName sender))
      by assumption.
    cbn [mbind option_bind listening eventHandlers].
    rewrite add_listener_lookup. reflexivity. }
  rewrite Hs, Ho, Hfor. repeat split.
  apply in_map_iff. exists l. split; [reflexivity|].
  apply JsSet_add_In. left. reflexivity.
Qed.

(** X4: [listen] with a listener that is already registered for the event
    changes nothing: registering twice is registering once. *)
Theorem listen_twice_is_listen_once (this : Bridge) (e : string) (l : nat) (w : World) :
  state_of (listen this e l (state_of (listen this e l w)))
  = state_of (listen this e l w).
Proof using Type.
  clear handler_body listener_throws.
  rewrite !listen_run, !state_of_mk. cbn [eventHandlers]. f_equal.
  set (key := getHandlerKey this e None). set (m := eventHandlers w).
  unfold add_listener at 1. rewrite add_listener_lookup.
  unfold JsSet.add at 1. rewrite JsSet_add_has.
  unfold add_listener. destruct (m !! key); cbn [default];
    apply insert_insert_eq.
Qed.

(** X5: [off(e, l)] undoes [listen(e, l)] when [l] was not registered for
    [e] before: the state is again what it was, the listener set being
    dropped again if [listen] had created it. *)
Theorem off_undoes_listen (this : Bridge) (e : string) (l : nat) (w : World) :
  tidy (eventHandlers w) ->
  ~ In l (default [] (eventHandlers w !! getHandlerKey this e None)) ->
  state_of (off this e (Some l) (state_of (listen this e l w))) = w.
Proof using Type.
  clear handler_body listener_throws.
  intros Htidy Hnew. rewrite listen_run, state_of_mk, off_run, state_of_mk.
  cbn [eventHandlers handlers pendingRequests messageHandler timers next_timer
       next_promise rootBridge].
  set (key := getHandlerKey this e None) in *.
  assert (E : remove_listener key (Some l) (add_listener key l (eventHandlers w))
              = eventHandlers w); [|rewrite E; destruct w; reflexivity].
  unfold remove_listener. rewrite add_listener_lookup.
  rewrite (JsSet_delete_added l _ Hnew). unfold add_listener.
  destruct (eventHandlers w !! key) as [listeners|] eqn:Hget; cbn [default].
  - destruct (Htidy key listeners Hget) as [Hne _].
    destruct listeners as [|x xs]; [contradiction|]. cbn [length Nat.eqb].
    rewrite insert_insert_eq. apply insert_id. exact Hget.
  - cbn [length Nat.eqb]. rewrite !delete_insert_eq. apply delete_id. exact Hget.
Qed.

(** X6: [on] overwrites: after two registrations for the same method through
    the same instance the state is as after the second alone, and a request
    that is looked up under that key calls the second handler. *)
Theorem last_registration_wins
    (this root : Bridge) (m : string) (h1 h2 : nat) (w : World) (message : Message)
    (now : Z) :
  inboundKey root (m_method message) (m_channel message)
    = Some (getHandlerKey this m None) ->
  let after := state_of (on this m h2 (state_of (on this m h1 w))) in
  after = state_of (on this m h2 w)
  /\ handlers after !! getHandlerKey this m None = Some h2
  /\ exists rest,
       effects_of (handleRequest handler_body root message now after)
       = CallHandler h2 (m_data message) :: rest.
Proof using handler_body.
  clear listener_throws.
  intros Hkey. cbv zeta. rewrite !on_run, !state_of_mk.
  cbv [with_handlers]. cbn [handlers rootBridge eventHandlers pendingRequests
                            messageHandler timers next_timer next_promise].
  rewrite insert_insert_eq. split; [reflexivity|].
  split; [apply lookup_insert_eq|].
  rewrite handleRequest_run, effects_of_mk, Hkey. cbn [mbind option_bind handlers].
  rewrite lookup_insert_eq. eauto.
Qed.

(** X7: however the bridge is used, no listener set of the registry is empty
    and none holds a listener twice, provided this holds at the start (as it
    does for a new root, whose registry is empty). *)
Theorem listener_sets_stay_tidy (actions : list Action) (w : World) :
  tidy (eventHandlers w) ->
  tidy (eventHandlers (state_of (run handler_body listener_throws actions w))).
Proof.
  revert w. induction actions as [|a actions IH]; intros w Hw.
  - exact Hw.
  - rewrite run_cons, state_of_mk. apply IH. apply tidy_step. exact Hw.
Qed.


(** X9: [destroy] on the root is final.  Whatever is done afterwards (new
    requests, registrations, channels, timers, further teardowns), the root
    stays unsubscribed, so a [message] event that the window dispatches
    after the teardown reaches no instance: it changes nothing and has no
    effect. *)
Theorem destroyed_root_stays_deaf
    (this : Bridge) (w : World) (actions : list Action)
    (origin : string) (data : MessageData) (now : Z) :
  isRootBridge this = true ->
  let later :=
    state_of (run handler_body listener_throws actions (state_of (destroy this w))) in
  messageHandler later = false
  /\ window_message handler_body listener_throws origin data now later = (tt, later, []).
Proof.
  intros Hroot. cbv zeta.
  assert (Hdead : messageHandler (state_of (destroy this w)) = false)
    by (rewrite destroy_root_run by exact Hroot; reflexivity).
  generalize dependent (state_of (destroy this w)). clear w Hroot.
  induction actions as [|a actions IH]; intros w Hw.
  - split; [exact Hw|]. cbn [run for_each]. rewrite window_message_run.
    change (state_of (skip w)) with w. rewrite Hw. reflexivity.
  - rewrite run_cons, state_of_mk. apply IH.
    apply deaf_step. exact Hw.
Qed.

(** X10: every message that the bridge posts, in any run from any state, is
    an envelope that a peer bridge routes: it carries the protocol marker, a
    string identifier, one of the four kinds and a numeric timestamp. *)
Theorem posted_messages_are_routable (actions : list Action) (w : World) :
  Forall (fun m => routable (toWire m) = true)
         (posted (effects_of (run handler_body listener_throws actions w))).
Proof.
  revert w. induction actions as [|a actions IH]; intros w.
  - constructor.
  - rewrite run_cons, effects_of_mk, posted_append. apply Forall_app. split.
    + apply posted_step.
    + apply IH.
Qed.

(** X11: failures on the peer come back as rejections.  When the peer has
    no handler for the method, the promise of the request is rejected with
    "No handler for method: " followed by the method; when the handler
    throws or rejects with an [Error], it is rejected with the message of
    that [Error], and when it throws another value that converts to a
    string, with that string; in both cases with "Unknown error" when the
    text is empty.  In each case the peer posts one Error envelope under
    the identifier of the request. *)
Theorem request_rejects_with_peer_error
    (requester : Bridge) (w_resp w_req w_req' : World)
    (origin_req origin_resp : string) (m : string) (p : JsValue)
    (t : Z) (r : string) (t' now now' : Z) :
  messageHandler w_resp = true ->
  origin_accepted (rootBridge w_resp) origin_req = true ->
  messageHandler w_req' = true ->
  origin_accepted (rootBridge w_req') origin_resp = true ->
  JsMap.get (generateId t r) (pendingRequests w_req')
    = JsMap.get (generateId t r)
                (pendingRequests (state_of (request requester m p t r t' w_req))) ->
  let call := request requester m p t r t' w_req in
  let sent :=
    mkMessage PROTOCOL_ID (generateId t r) MT.REQUEST (Some m) (channelName requester)
              p None (Num t') in
  let answered :=
    window_message handler_body listener_throws origin_req (toWire sent) now w_resp in
  let final text :=
    window_message handler_body listener_throws origin_resp
                   (toWire (error_to sent text now)) now' w_req' in
  let found :=
    inboundKey (rootBridge w_resp) (Some m) (channelName requester)
      ≫= (fun k => handlers w_resp !! k) in
  let rejected text :=
    posted (effects_of answered) = [error_to sent text now]
    /\ observable (effects_of (final text))
       = [Reject (generateId t r) (value_of call)
                 (if truthy_str text then text else "Unknown error")] in
  (found = None ->
   posted (effects_of answered) = [error_to sent ("No handler for method: " +:+ m) now]
   /\ observable (effects_of (final ("No handler for method: " +:+ m)))
      = [Reject (generateId t r) (value_of call) ("No handler for method: " +:+ m)])
  /\ (forall h text,
        found = Some h -> handler_body h p = Raised (ErrorObject text) ->
        rejected text)
  /\ (forall h text,
        found = Some h -> handler_body h p = Raised (ThrownValue (Some text)) ->
        rejected text).
Proof.
  intros Hlisten Horigin Hlisten' Horigin' Hpending. cbv zeta.
  rewrite request_run in *. rewrite state_of_mk in Hpending.
  cbn [pendingRequests] in Hpending. rewrite JsMapFacts.get_set_eq in Hpending.
  cbv [value_of fst].
  set (sent := mkMessage PROTOCOL_ID (generateId t r) MT.REQUEST (Some m)
                         (channelName requester) p None (Num t')).
  assert (Hanswer : posted (effects_of (window_message handler_body listener_throws
                                          origin_req (toWire sent) now w_resp))
                    = posted (effects_of (handleRequest handler_body (rootBridge w_resp)
                                                        sent now w_resp))).
  { rewrite window_message_run, Hlisten.
    rewrite (handleMessage_accepted _ _ _ _ _ sent) by
      (auto using asMessage_toWire; rewrite isValidMessage_toWire; reflexivity).
    change (String.eqb (m_type sent) MT.REQUEST) with true. cbv iota.
    rewrite bind_log, effects_of_mk, posted_append, posted_log_lines. reflexivity. }
  assert (Hfinal : forall text,
             observable (effects_of (window_message handler_body listener_throws
                                       origin_resp (toWire (error_to sent text now))
                                       now' w_req'))
             = [Reject (generateId t r) (next_promise w_req)
                       (rejection_text (Some text))]).
  { intros text. rewrite window_message_run, Hlisten'.
    rewrite (handleMessage_accepted _ _ _ _ _ (error_to sent text now)) by
      (auto using asMessage_toWire; rewrite isValidMessage_toWire; reflexivity).
    change (String.eqb (m_type (error_to sent text now)) MT.REQUEST) with false.
    change (String.eqb (m_type (error_to sent text now)) MT.RESPONSE
            || String.eqb (m_type (error_to sent text now)) MT.ERROR) with true.
    cbv iota. rewrite bind_log.
    rewrite (handleResponse_settles (rootBridge w_req') (error_to sent text now)
               (mkPending (next_promise w_req) (next_timer w_req)
                          (channelName requester)) w_req' Hpending) by reflexivity.
    rewrite effects_of_mk, effects_of_mk, observable_app, observable_log_lines.
    reflexivity. }
  rewrite Hanswer, handleRequest_run, effects_of_mk. cbn [sent m_method m_channel m_data].
  split; [|split].
  - intros Hnone. rewrite Hnone, Hfinal. cbn [posted template].
    rewrite posted_log_lines. split; reflexivity.
  - intros h text Hfound Hbody. rewrite Hfound, Hbody, Hfinal. cbn [error_text posted].
    rewrite posted_log_lines. split; reflexivity.
  - intros h text Hfound Hbody. rewrite Hfound, Hbody, Hfinal. cbn [error_text posted].
    rewrite posted_log_lines. split; reflexivity.
Qed.

(** X12: [destroy] is idempotent.  A second [destroy] on the same instance,
    root or channel, changes nothing and rejects nothing. *)
Theorem destroy_twice (this : Bridge) (w : World) :
  unique_keys (pendingRequests w) ->
  let once := state_of (destroy this w) in
  state_of (destroy this once) = once
  /\ observable (effects_of (destroy this once)) = [].
Proof using Type.
  clear handler_body listener_throws.
  intros Hkeys. cbv zeta. destruct (isRootBridge this) eqn:Hroot.
  - rewrite !(destroy_root_run this) by exact Hroot.
    rewrite !state_of_mk, effects_of_mk. cbn [pendingRequests timers rootBridge
                                               next_timer next_promise].
    split; [reflexivity|]. apply observable_log_lines.
  - rewrite !(destroy_channel_run this) by exact Hroot.
    rewrite !state_of_mk, effects_of_mk.
    cbn [pendingRequests timers rootBridge next_timer next_promise handlers
         eventHandlers messageHandler].
    rewrite (remove_owned _ _ Hkeys), filter_disjoint, !delete_matching_twice.
    split; [reflexivity|]. apply observable_log_lines.
Qed.

(** X13: in every run of a new root in which the generated identifiers are
    pairwise distinct, the pending-request map has one entry per key, and a
    request that is pending has its timer armed, under its own identifier,
    and has not been settled so far: no request is left without a way to
    end, and none is pending after it was resolved or rejected. *)
Theorem pending_requests_are_armed
    (target : nat) (options : BridgeOptions) (name : option string)
    (actions : list Action) :
  NoDup (request_ids actions) ->
  let outcome := run handler_body listener_throws actions
                     (state_of (constructor_root target options name)) in
  unique_keys (pendingRequests (state_of outcome))
  /\ forall id request,
       In (id, request) (pendingRequests (state_of outcome)) ->
       (exists callback,
           timers (state_of outcome) !! p_timer request = Some callback
           /\ t_id callback = id)
       /\ settlements id (effects_of outcome) = 0.
Proof.
  intros Hnd. cbv zeta. rewrite constructor_root_run, state_of_mk.
  destruct (Inv_run handler_body listener_throws actions []
                    (mkWorld (init_fields target options name false) ∅ ∅ [] true ∅ 0 0)
                    [] Hnd) as [issued HI].
  - intros id _ [].
  - apply Inv_initial.
  - cbn [app] in HI. split; [apply (inv_keys _ _ _ HI)|].
    intros id request Hin.
    destruct (inv_entry _ _ _ HI _ _ Hin) as (cb & Hcb & Hid).
    split; [eauto|].
    destruct (inv_timer _ _ _ HI _ _ Hcb) as [_ Hs]. rewrite Hid in Hs. exact Hs.
Qed.

(** X14: a channel has the configuration of the instance it is derived from
    (target, origin, timeout, debug), is not a root and changes no state;
    channels are flat: deriving [b] from a channel gives the very instance
    that deriving [b] from its parent gives, whose keys carry the prefix
    [b:] alone. *)
Theorem channel_keeps_configuration
    (peer : nat) (options : BridgeOptions) (name : option string) (hasRoot : bool)
    (a b m : string) (w : World) :
  let parent := init_fields peer options name hasRoot in
  let child := value_of (channel parent a w) in
  let grandchild := value_of (channel child b w) in
  state_of (channel parent a w) = w
  /\ child = mkBridge peer (targetOrigin parent) (timeout parent) (debug parent)
                      (Some a) false
  /\ grandchild = value_of (channel parent b w)
  /\ (b <> "" -> getHandlerKey grandchild m None = b +:+ ":" +:+ m).
Proof using Type.
  clear handler_body listener_throws.
  cbv zeta. rewrite !channel_run. cbv [value_of state_of fst snd].
  cbn [target targetOrigin timeout debug init_fields].
  rewrite !(or_else_again truthy_str) by reflexivity.
  rewrite !(or_else_again truthy_num) by reflexivity.
  assert (Hd : forall d : bool, or_else (fun b : bool => b) (Some d) false = d)
    by (intros []; reflexivity).
  rewrite !Hd. repeat split.
  intros Hb. rewrite getHandlerKey_own. cbn [channelName].
  apply truthy_str_true in Hb. rewrite Hb. reflexivity.
Qed.

(** X15: channels do not share listeners.  For distinct non-empty channel
    names [a] and [b], registering or removing a listener for event [e]
    through channel [a] does not change which listeners an event [e] sent
    on channel [b] reaches, and the newly registered listener is not called
    by such an event unless it is also registered on [b]. *)
Theorem channels_do_not_share_listeners
    (a b e : string) (this_a root : Bridge) (l : nat) (gone : option nat)
    (w : World) (message : Message) :
  a <> b -> a <> "" -> b <> "" ->
  channelName this_a = Some a ->
  m_method message = Some e ->
  m_channel message = Some b ->
  listeners_for root message (state_of (listen this_a e l w)) = listeners_for root message w
  /\ listeners_for root message (state_of (off this_a e gone w))
     = listeners_for root message w
  /\ (~ In l (listeners_for root message w) ->
      ~ In (CallListener l (m_data message))
           (observable (effects_of (handleEvent listener_throws root message
                                                (state_of (listen this_a e l w)))))).
Proof using listener_throws.
  clear handler_body.
  intros Hab Ha Hb Hca Hm Hc.
  assert (Hne : getHandlerKey this_a e None <> getHandlerKey root e (Some b)).
  { rewrite getHandlerKey_own, Hca. apply truthy_str_true in Ha. rewrite Ha.
    rewrite (getHandlerKey_named root e b Hb). intros E. apply Hab.
    apply (string_app_cancel_r a b (":" +:+ e)). exact E. }
  assert (H1 : listeners_for root message (state_of (listen this_a e l w))
               = listeners_for root message w).
  { unfold listeners_for. rewrite Hm, Hc, listen_run, state_of_mk.
    cbn [inboundKey mbind option_bind eventHandlers].
    rewrite add_listener_other by exact Hne. reflexivity. }
  split; [exact H1|]. split.
  - unfold listeners_for. rewrite Hm, Hc, off_run, state_of_mk.
    cbn [inboundKey mbind option_bind eventHandlers].
    rewrite remove_listener_other by exact Hne. reflexivity.
  - intros Hl Hin.
    destruct (handleEvent_run listener_throws root message
                              (state_of (listen this_a e l w))) as (_ & Ho & _).
    rewrite Ho, H1 in Hin. apply in_map_iff in Hin as (l' & E & Hin).
    injection E as ->. contradiction.
Qed.

(** X16: a Request envelope that names no method and no channel, received
    by an instance without channel name, is answered with the Error "No
    handler for method: undefined" and calls no handler, whatever is
    registered; on a channel [c] it is looked up under [c:undefined]. *)
Theorem request_without_method
    (this : Bridge) (origin : string) (data : MessageData) (message : Message)
    (now : Z) (w : World) :
  origin_accepted this origin = true ->
  isValidMessage data = true ->
  asMessage data = Some message ->
  m_type message = MT.REQUEST ->
  m_method message = None ->
  m_channel message = None ->
  opt_truthy (channelName this) = false ->
  observable (effects_of (handleMessage handler_body listener_throws this origin data
                                        now w))
  = [PostMessage (target this)
       (error_to message "No handler for method: undefined" now) (targetOrigin this)]
  /\ forall c, c <> "" -> inboundKey this None (Some c) = Some (c +:+ ":undefined").
Proof.
  intros Ho Hv Hm Hty Hmeth Hch Hname. split.
  - rewrite (handleMessage_accepted _ _ _ _ _ _ _ _ Ho Hv Hm), Hty.
    change (String.eqb MT.REQUEST MT.REQUEST) with true. cbv iota.
    rewrite bind_log, effects_of_mk, handleRequest_run, effects_of_mk.
    rewrite Hmeth, Hch. cbn [inboundKey]. rewrite Hname. cbn [mbind option_bind template].
    rewrite observable_app, observable_log_lines. cbn [app].
    cbn [observable List.filter is_log negb].
    fold (observable (log_lines this "Error sent")).
    rewrite observable_log_lines. reflexivity.
  - intros c Hc. cbn [inboundKey opt_truthy]. apply truthy_str_true in Hc.
    rewrite Hc. reflexivity.
Qed.

(** X17: settling one request spares the others.  A Response or Error for
    one identifier, and the timeout of one request, leave the pending entry
    of every other identifier as it was and settle no other identifier. *)
Theorem settling_spares_other_requests
    (this : Bridge) (message : Message) (t : nat) (callback : Timer) (w : World)
    (other : string) :
  other <> m_id message ->
  other <> t_id callback ->
  timers w !! t = Some callback ->
  JsMap.get other (pendingRequests (state_of (handleResponse this message w)))
    = JsMap.get other (pendingRequests w)
  /\ settlements other (effects_of (handleResponse this message w)) = 0
  /\ JsMap.get other (pendingRequests (state_of (timer_fires t w)))
     = JsMap.get other (pendingRequests w)
  /\ settlements other (effects_of (timer_fires t w)) = 0.
Proof using Type.
  clear handler_body listener_throws.
  intros Hm Ht Hcb. rewrite (timer_fires_run _ _ _ Hcb), state_of_mk, effects_of_mk.
  cbn [pendingRequests]. rewrite JsMapFacts.get_delete_ne by congruence.
  assert (Hs : settlements other [Reject (t_id callback) (t_promise callback)
                                         ("Request timeout: " +:+ t_method callback)] = 0).
  { unfold settlements. cbn.
    destruct (String.eqb (t_id callback) other) eqn:E; [|reflexivity].
    apply String.eqb_eq in E. congruence. }
  destruct (handleResponse_cases this message w) as [E|[E|(p & _ & _ & E)]];
    rewrite E, state_of_mk, effects_of_mk.
  - auto.
  - repeat split; auto. apply settle_free, log_lines_settle_free.
  - cbn [pendingRequests]. rewrite JsMapFacts.get_delete_ne by congruence.
    repeat split; auto. unfold settlements.
    destruct (String.eqb (m_type message) MT.ERROR); cbn;
      (destruct (String.eqb (m_id message) other) eqn:E'; [|reflexivity]);
      apply String.eqb_eq in E'; congruence.
Qed.

(** X18: a request that a reply has settled ignores replays.  After a
    Response or Error was matched to a pending request, another reply under
    the same identifier changes nothing and has no effect, and the timer of
    the request, were it to elapse, does nothing: it was cancelled. *)
Theorem settled_request_ignores_replays
    (this this' : Bridge) (message message' : Message) (pending : PendingRequest)
    (w : World) :
  JsMap.get (m_id message) (pendingRequests w) = Some pending ->
  p_channel pending = m_channel message ->
  m_id message' = m_id message ->
  let after := state_of (handleResponse this message w) in
  handleResponse this' message' after = (tt, after, [])
  /\ timer_fires (p_timer pending) after = (tt, after, []).
Proof using Type.
  clear handler_body listener_throws.
  intros Hget Hch Hid. cbv zeta.
  rewrite (handleResponse_settles this message pending w Hget Hch), state_of_mk.
  split.
  - unfold handleResponse. rewrite bind_run. cbv [get_world]. cbn [pendingRequests].
    rewrite Hid, JsMapFacts.get_delete_eq. reflexivity.
  - apply timer_fires_inactive. cbn [timers]. apply lookup_delete_eq.
Qed.

(** X19: debug output is only output.  Running the same actions with
    [debug] switched off on every instance gives the same state (up to the
    flag itself) and exactly the effects of the original run that are not
    console lines, in the same order. *)
Theorem debug_is_only_output (actions : list Action) (w : World) :
  let loud := run handler_body listener_throws actions w in
  let quiet := run handler_body listener_throws (map silence_action actions)
                   (silence_world w) in
  state_of quiet = silence_world (state_of loud)
  /\ effects_of quiet = observable (effects_of loud).
Proof.
  cbv zeta. revert w. induction actions as [|a actions IH]; intros w.
  - split; reflexivity.
  - cbn [map]. rewrite !run_cons, !state_of_mk, !effects_of_mk.
    rewrite silent_step, state_of_mk, effects_of_mk, observable_app.
    destruct (IH (state_of (step handler_body listener_throws a w))) as [-> ->].
    split; reflexivity.
Qed.



End Further.

(** ** Examples for the further properties *)

Lemma tidy_empty : tidy ∅.
Proof. intros key listeners H. rewrite lookup_empty in H. discriminate. Qed.

(** X1 in a frame whose parent is window 1. *)
Lemma factories_need_a_peer_window_witness :
  1 <> 0
  /\ createChildBridge 0 (Some 1) None
     = inr (mkBridge 1 "*" (Num 30000) false None true,
            mkWorld (mkBridge 1 "*" (Num 30000) false None true) ∅ ∅ [] true ∅ 0 0,
            []).
Proof.
  assert (Hne : 1 <> 0) by discriminate.
  split; [exact Hne|].
  destruct (factories_need_a_peer_window 0 None) as (_ & _ & _ & H).
  destruct (H 1) as (this & w & effects & Hparent & Hchild & _).
  rewrite (Hchild Hne), <- Hparent. reflexivity.
Defined.

(** X2: the second listener of [tick] throws, and the third is still called. *)
Lemma event_reaches_every_listener_witness :
  Sample.listener_throws 1 (VStr "now") = true
  /\ observable
       (effects_of
          (handleMessage Sample.handler_body Sample.listener_throws Sample.frame
             "https://a.test" (toWire Sample2.tick) 21 Sample2.listening))
     = [CallListener 0 (VStr "now"); CallListener 1 (VStr "now");
        CallListener 2 (VStr "now")].
Proof.
  split; [reflexivity|].
  apply (event_reaches_every_listener
           Sample.handler_body Sample.listener_throws Sample.frame "https://a.test"
           (toWire Sample2.tick) Sample2.tick 21 Sample2.listening);
    reflexivity.
Defined.

(** X3: the host emits [tick], the frame has listeners 0, 1, 2 and adds 4. *)
Lemma emit_reaches_listeners_witness :
  origin_accepted (rootBridge Sample2.listening) "https://a.test" = true
  /\ observable
       (effects_of
          (window_message Sample.handler_body Sample.listener_throws "https://a.test"
             (toWire (mkMessage PROTOCOL_ID "20-ev" MT.EVENT (Some "tick") None
                                (VStr "now") None (Num 20)))
             21 (state_of (listen Sample.frame "tick" 4 Sample2.listening))))
     = [CallListener 0 (VStr "now"); CallListener 1 (VStr "now");
        CallListener 2 (VStr "now"); CallListener 4 (VStr "now")].
Proof.
  split; [reflexivity|].
  destruct (emit_reaches_listeners
              Sample.handler_body Sample.listener_throws Sample.host Sample.frame
              (Sample.fresh Sample.host) Sample2.listening "https://a.test" "tick"
              (VStr "now") 4 20 "ev" 20 21 eq_refl eq_refl eq_refl eq_refl)
    as (_ & _ & _ & H & _).
  exact H.
Defined.

(** X5 on a new root: [listen] creates the set of [tick], [off] drops it. *)
Lemma off_undoes_listen_witness :
  tidy (eventHandlers (Sample.fresh Sample.host))
  /\ state_of (off Sample.host "tick" (Some 3)
                   (state_of (listen Sample.host "tick" 3 (Sample.fresh Sample.host))))
     = Sample.fresh Sample.host.
Proof.
  split; [exact tidy_empty|].
  apply (off_undoes_listen Sample.host "tick" 3 (Sample.fresh Sample.host) tidy_empty).
  intros [].
Defined.

(** X6: handler 1 replaces handler 0 for [ping]. *)
Lemma last_registration_wins_witness :
  inboundKey Sample.host (m_method Sample.ping) (m_channel Sample.ping)
    = Some (getHandlerKey Sample.host "ping" None)
  /\ handlers (state_of (on Sample.host "ping" 1
                            (state_of (on Sample.host "ping" 0
                                          (Sample.fresh Sample.host)))))
       !! "ping"
     = Some 1.
Proof.
  split; [reflexivity|].
  destruct (last_registration_wins Sample.handler_body Sample.host Sample.host "ping"
              0 1 (Sample.fresh Sample.host) Sample.ping 19 eq_refl)
    as (_ & H & _).
  exact H.
Defined.

(** X7 on the script of the busy host. *)
Lemma listener_sets_stay_tidy_witness :
  tidy (eventHandlers (Sample.fresh Sample.host))
  /\ tidy (eventHandlers Sample.busy).
Proof.
  split; [exact tidy_empty|].
  apply (listener_sets_stay_tidy Sample.handler_body Sample.listener_throws
           Sample.script (Sample.fresh Sample.host) tidy_empty).
Defined.


(** X9: after the busy host is destroyed and asked for more, a request for
    [load] that would have been answered reaches nothing. *)
Lemma destroyed_root_stays_deaf_witness :
  isRootBridge Sample.host = true
  /\ effects_of
       (window_message Sample.handler_body Sample.listener_throws "https://a.test"
          (toWire (mkMessage PROTOCOL_ID "30-rq" MT.REQUEST (Some "load") None
                             VNull None (Num 30))) 31
          (state_of
             (run Sample.handler_body Sample.listener_throws
                  [DoOn Sample.host "load" 0;
                   DoRequest Sample.host "load" VNull 32 "zz" 33]
                  (state_of (destroy Sample.host Sample.busy)))))
     = [].
Proof.
  split; [reflexivity|].
  rewrite (proj2 (destroyed_root_stays_deaf
                    Sample.handler_body Sample.listener_throws Sample.host Sample.busy
                    [DoOn Sample.host "load" 0;
                     DoRequest Sample.host "load" VNull 32 "zz" 33]
                    "https://a.test"
                    (toWire (mkMessage PROTOCOL_ID "30-rq" MT.REQUEST (Some "load") None
                                       VNull None (Num 30))) 31 eq_refl)).
  reflexivity.
Defined.

(** X11: the frame has no handler for [ping]; the host's request is rejected
    with the text that names the method. *)
Lemma request_rejects_with_peer_error_witness :
  JsMap.get "17-abc" (pendingRequests Sample.asked) = Some (mkPending 0 0 None)
  /\ observable
       (effects_of
          (window_message Sample.handler_body Sample.listener_throws "https://b.test"
             (toWire (error_to Sample.ping "No handler for method: ping" 19)) 20
             Sample.asked))
     = [Reject "17-abc" 0 "No handler for method: ping"].
Proof.
  split; [vm_compute; reflexivity|].
  destruct (request_rejects_with_peer_error
              Sample.handler_body Sample.listener_throws Sample.frame
              (Sample.fresh Sample.host) (Sample.fresh Sample.frame) Sample.asked
              "https://a.test" "https://b.test" "ping" (VObj [("n", VNum (Num 1))])
              17 "abc" 18 19 20 eq_refl eq_refl eq_refl eq_refl eq_refl)
    as [Hnone _].
  exact (proj2 (Hnone eq_refl)).
Defined.

(** X12 on channel [a] of the busy host. *)
Lemma destroy_twice_witness :
  unique_keys (pendingRequests Sample.busy)
  /\ observable
       (effects_of (destroy Sample.channel_a
                            (state_of (destroy Sample.channel_a Sample.busy))))
     = [].
Proof.
  assert (Hk : unique_keys (pendingRequests Sample.busy)) by distinct_strings.
  split; [exact Hk|].
  exact (proj2 (destroy_twice Sample.channel_a Sample.busy Hk)).
Defined.

(** X13 on the script of the busy host. *)
Lemma pending_requests_are_armed_witness :
  NoDup (request_ids Sample.script)
  /\ unique_keys
       (pendingRequests
          (state_of (run Sample.handler_body Sample.listener_throws Sample.script
                         (state_of (constructor_root 1 Sample.host_options None))))).
Proof.
  assert (Hnd : NoDup (request_ids Sample.script)) by distinct_strings.
  split; [exact Hnd|].
  exact (proj1 (pending_requests_are_armed
                  Sample.handler_body Sample.listener_throws 1 Sample.host_options None
                  Sample.script Hnd)).
Defined.

(** X15: listener 9 on channel [a] of the frame and an event on channel [b]. *)
Lemma channels_do_not_share_listeners_witness :
  "a" <> "b"
  /\ listeners_for Sample.frame
       (mkMessage PROTOCOL_ID "20-ev" MT.EVENT (Some "tick") (Some "b") VNull None (Num 20))
       (state_of (listen Sample.channel_a "tick" 9 Sample2.listening))
     = listeners_for Sample.frame
         (mkMessage PROTOCOL_ID "20-ev" MT.EVENT (Some "tick") (Some "b") VNull None
                    (Num 20))
         Sample2.listening.
Proof.
  assert (Hab : "a" <> "b") by discriminate.
  assert (Ha : "a" <> "") by discriminate.
  assert (Hb : "b" <> "") by discriminate.
  split; [exact Hab|].
  exact (proj1 (channels_do_not_share_listeners
                  Sample.listener_throws "a" "b" "tick" Sample.channel_a Sample.frame 9
                  None Sample2.listening
                  (mkMessage PROTOCOL_ID "20-ev" MT.EVENT (Some "tick") (Some "b") VNull
                             None (Num 20))
                  Hab Ha Hb eq_refl eq_refl eq_refl)).
Defined.

(** X16: a handler is registered under the name [undefined], and the Request
    without method is still answered with the Error. *)
Lemma request_without_method_witness :
  handlers Sample2.listening !! "undefined" = Some 0
  /\ observable
       (effects_of
          (handleMessage Sample.handler_body Sample.listener_throws Sample.frame
             "https://a.test" (toWire Sample2.nameless) 22 Sample2.listening))
     = [PostMessage 2 (error_to Sample2.nameless "No handler for method: undefined" 22)
                    "*"].
Proof.
  split; [vm_compute; reflexivity|].
  exact (proj1 (request_without_method
                  Sample.handler_body Sample.listener_throws Sample.frame
                  "https://a.test" (toWire Sample2.nameless) Sample2.nameless 22
                  Sample2.listening eq_refl eq_refl eq_refl eq_refl eq_refl eq_refl
                  eq_refl)).
Defined.

(** X17 on the busy host: a Response for [3-bb] and the timer of [5-aa]
    leave [7-cc] pending. *)
Lemma settling_spares_other_requests_witness :
  timers Sample.busy !! 1 = Some (mkTimer "5-aa" "save" 1 (Num 30000))
  /\ JsMap.get "7-cc"
       (pendingRequests
          (state_of (handleResponse Sample.host
                       (mkMessage PROTOCOL_ID "3-bb" MT.RESPONSE None None VNull None
                                  (Num 9))
                       Sample.busy)))
     = JsMap.get "7-cc" (pendingRequests Sample.busy).
Proof.
  assert (Ht : timers Sample.busy !! 1 = Some (mkTimer "5-aa" "save" 1 (Num 30000)))
    by (vm_compute; reflexivity).
  split; [exact Ht|].
  assert (H1 : "7-cc" <> "3-bb") by discriminate.
  assert (H2 : "7-cc" <> "5-aa") by discriminate.
  exact (proj1 (settling_spares_other_requests
                  Sample.host
                  (mkMessage PROTOCOL_ID "3-bb" MT.RESPONSE None None VNull None (Num 9))
                  1 (mkTimer "5-aa" "save" 1 (Num 30000)) Sample.busy "7-cc"
                  H1 H2 Ht)).
Defined.

(** X18 on the busy host: a second Response for [3-bb]. *)
Lemma settled_request_ignores_replays_witness :
  JsMap.get "3-bb" (pendingRequests Sample.busy) = Some (mkPending 0 0 None)
  /\ effects_of
       (handleResponse Sample.host
          (mkMessage PROTOCOL_ID "3-bb" MT.ERROR None None VNull (Some "late") (Num 11))
          (state_of (handleResponse Sample.host
                       (mkMessage PROTOCOL_ID "3-bb" MT.RESPONSE None None VNull None
                                  (Num 9))
                       Sample.busy)))
     = [].
Proof.
  assert (Hget : JsMap.get "3-bb" (pendingRequests Sample.busy)
                 = Some (mkPending 0 0 None)) by (vm_compute; reflexivity).
  split; [exact Hget|].
  destruct (settled_request_ignores_replays
              Sample.host Sample.host
              (mkMessage PROTOCOL_ID "3-bb" MT.RESPONSE None None VNull None (Num 9))
              (mkMessage PROTOCOL_ID "3-bb" MT.ERROR None None VNull (Some "late")
                         (Num 11))
              (mkPending 0 0 None) Sample.busy Hget eq_refl eq_refl) as [H _].
  rewrite H. reflexivity.
Defined.

